(** * Record service of the papercut backend: custom-field validation,
      PDF fallback, record versions, snapshots and rejection.

    Shallow embedding of [src/services/record.service.ts].  JavaScript values
    are an inductive type, the database is a record of tables (lists of
    rows), and every [async] method is a computation in a state-and-exception
    monad over the world (database, open transaction, disk, logs). *)

From Stdlib Require Import ZArith List String Ascii Bool Lia DecimalString.
From Stdlib.Strings Require Import Byte.
From Stdlib Require Import Sorted Permutation.
Import ListNotations.

Set Warnings "-register-all".
Local Open Scope list_scope.
Local Open Scope string_scope.

(* ================================================================== *)
(** ** Strings *)

(** Strings are sequences of code units below 256.  [is_whitespace] is the
    restriction of the ECMAScript WhiteSpace and LineTerminator classes
    (what [String.prototype.trim] and the regex class [\s] use) to those
    units: TAB, LF, VT, FF, CR, SPACE and NBSP. *)
Definition is_whitespace (c : ascii) : bool :=
  let n := nat_of_ascii c in
  ((9 <=? n)%nat && (n <=? 13)%nat) || (n =? 32)%nat || (n =? 160)%nat.

Fixpoint all_whitespace (s : string) : bool :=
  match s with
  | EmptyString => true
  | String c s' => is_whitespace c && all_whitespace s'
  end.

Fixpoint trimStart (s : string) : string :=
  match s with
  | EmptyString => EmptyString
  | String c s' => if is_whitespace c then trimStart s' else s
  end.

Fixpoint trimEnd (s : string) : string :=
  match s with
  | EmptyString => EmptyString
  | String c s' =>
      match trimEnd s' with
      | EmptyString => if is_whitespace c then EmptyString else String c EmptyString
      | t => String c t
      end
  end.

(** [s.trim()] *)
Definition trim (s : string) : string := trimEnd (trimStart s).

(** [s.replace(/\s+/g, '_')]: every maximal run of whitespace becomes one
    underscore. *)
Fixpoint replace_whitespace_from (in_run : bool) (s : string) : string :=
  match s with
  | EmptyString => EmptyString
  | String c s' =>
      if is_whitespace c
      then if in_run then replace_whitespace_from true s'
           else String "_" (replace_whitespace_from true s')
      else String c (replace_whitespace_from false s')
  end.

Definition replace_whitespace_runs (s : string) : string :=
  replace_whitespace_from false s.

(** The one-character string holding a double quote. *)
Definition double_quote : string := String (ascii_of_nat 34) EmptyString.

(** Decimal rendering of an integer, as a template literal prints an
    integral number. *)
Definition string_of_Z (z : Z) : string := NilZero.string_of_int (Z.to_int z).

(* ================================================================== *)
(** ** JavaScript values *)

(** A number is NaN, an infinity, or the dyadic rational
    [mantissa * 2 ^ exponent] (every finite double is one). *)
Inductive JsNumber : Type :=
| NaN
| Infinity (negative : bool)
| Finite (mantissa exponent : Z).

Definition isNaN (n : JsNumber) : bool :=
  match n with NaN => true | _ => false end.

Definition number_of_Z (z : Z) : JsNumber := Finite z 0.

Inductive JsValue : Type :=
| JUndefined
| JNull
| JBool (b : bool)
| JNum (n : JsNumber)
| JStr (s : string)
| JArr (items : list JsValue)
| JObj (props : list (string * JsValue)).

(** A plain object: its own enumerable properties in insertion order. *)
Definition JsObject : Type := list (string * JsValue).

Definition typeof (v : JsValue) : string :=
  match v with
  | JUndefined => "undefined"
  | JNull => "object"
  | JBool _ => "boolean"
  | JNum _ => "number"
  | JStr _ => "string"
  | JArr _ => "object"
  | JObj _ => "object"
  end.

(** ToBoolean *)
Definition truthy (v : JsValue) : bool :=
  match v with
  | JUndefined | JNull => false
  | JBool b => b
  | JNum NaN => false
  | JNum (Infinity _) => true
  | JNum (Finite m _) => negb (m =? 0)%Z
  | JStr s => negb (s =? "")
  | JArr _ | JObj _ => true
  end.

Definition is_undefined (v : JsValue) : bool :=
  match v with JUndefined => true | _ => false end.

Definition is_null (v : JsValue) : bool :=
  match v with JNull => true | _ => false end.

(** [v === ''] *)
Definition is_empty_string (v : JsValue) : bool :=
  match v with JStr s => s =? "" | _ => false end.

Fixpoint obj_lookup (k : string) (o : JsObject) : option JsValue :=
  match o with
  | [] => None
  | (k', v) :: o' => if k' =? k then Some v else obj_lookup k o'
  end.

(** [o[k]] on a plain object, for a key that names no member of
    [Object.prototype] (field ids are numbers or identifiers of the
    cabinet's own). *)
Definition obj_get (o : JsObject) (k : string) : JsValue :=
  match obj_lookup k o with Some v => v | None => JUndefined end.

(** [o[k] = v]: an existing property keeps its place, a new one goes last. *)
Fixpoint obj_set (k : string) (v : JsValue) (o : JsObject) : JsObject :=
  match o with
  | [] => [(k, v)]
  | (k', v') :: o' => if k' =? k then (k, v) :: o' else (k', v') :: obj_set k v o'
  end.

Definition obj_keys (o : JsObject) : list string := map fst o.

(** [v.k] for a value that is neither [undefined] nor [null].  The service
    reads only the names [value], [type], [fileName], [filePath], [fileSize],
    [fileType] and [fileHash] this way; arrays and primitives own none of
    them, so the read gives [undefined] there. *)
Definition js_get (v : JsValue) (k : string) : JsValue :=
  match v with
  | JObj props => obj_get props k
  | _ => JUndefined
  end.

(** ['k' in v] for an object or array [v] (same remark on names). *)
Definition js_in (k : string) (v : JsValue) : bool :=
  match v with
  | JObj props => match obj_lookup k props with Some _ => true | None => false end
  | _ => false
  end.

(** [Object.keys(v).length] for a truthy [v]. *)
Definition Object_keys_length (v : JsValue) : nat :=
  match v with
  | JObj props => List.length props
  | JArr items => List.length items
  | JStr s => String.length s
  | _ => 0%nat
  end.

(** An array index in the sense of property enumeration: a canonical
    decimal numeral (they are listed first by [for ... in], in ascending
    order). *)
Fixpoint all_digits (s : string) : bool :=
  match s with
  | EmptyString => true
  | String c s' =>
      let n := nat_of_ascii c in
      (48 <=? n)%nat && (n <=? 57)%nat && all_digits s'
  end.

Fixpoint digits_value (acc : Z) (s : string) : Z :=
  match s with
  | EmptyString => acc
  | String c s' => digits_value (10 * acc + (Z.of_nat (nat_of_ascii c) - 48))%Z s'
  end.

Definition array_index (k : string) : option Z :=
  match k with
  | EmptyString => None
  | String c rest =>
      if all_digits k && (negb (nat_of_ascii c =? 48)%nat || (rest =? ""))
      then let n := digits_value 0 k in
           if (n <? 4294967295)%Z then Some n else None
      else None
  end.

Fixpoint insert_index (kv : Z * (string * JsValue)) (l : list (Z * (string * JsValue)))
  : list (Z * (string * JsValue)) :=
  match l with
  | [] => [kv]
  | kv' :: l' => if (fst kv <? fst kv')%Z then kv :: l else kv' :: insert_index kv l'
  end.

Fixpoint split_index_props (o : JsObject)
  : list (Z * (string * JsValue)) * JsObject :=
  match o with
  | [] => ([], [])
  | (k, v) :: o' =>
      let '(ix, named) := split_index_props o' in
      match array_index k with
      | Some n => (insert_index (n, (k, v)) ix, named)
      | None => (ix, (k, v) :: named)
      end
  end.

(** The order in which [for (const k in o)] visits the properties of [o]:
    integer keys ascending, then the other keys in insertion order. *)
Definition for_in_order (o : JsObject) : JsObject :=
  let '(ix, named) := split_index_props o in (map snd ix ++ named)%list.

(* ================================================================== *)
(** ** Errors *)

(** [AppError(statusCode, message)] of the error-handler middleware, and any
    other [Error]. *)
Inductive Exn : Type :=
| AppError (statusCode : Z) (message : string)
| Error (message : string).

Inductive Outcome (A : Type) : Type :=
| Ok (a : A)
| Throw (e : Exn).

Arguments Ok {A} a.
Arguments Throw {A} e.

(* ================================================================== *)
(** ** Data model *)

Definition Id : Type := string.

(** [field.id]: a number or a string; [field_key] is the property key it
    denotes in [submittedFields[field.id]]. *)
Inductive FieldId : Type :=
| IdNum (n : Z)
| IdStr (s : string).

Definition field_key (i : FieldId) : string :=
  match i with
  | IdNum n => string_of_Z n
  | IdStr s => s
  end.

Definition field_id_value (i : FieldId) : JsValue :=
  match i with
  | IdNum n => JNum (number_of_Z n)
  | IdStr s => JStr s
  end.

(** [ExtendedCustomField] *)
Record CustomField : Type := mkCustomField {
  f_id : FieldId;
  f_name : string;
  f_type : string;
  f_isMandatory : bool;
  f_characterLimit : option Z
}.

Inductive RecordStatus : Type :=
| DRAFT | PENDING | APPROVED | REJECTED | ARCHIVED.

Definition RecordStatus_eqb (a b : RecordStatus) : bool :=
  match a, b with
  | DRAFT, DRAFT | PENDING, PENDING | APPROVED, APPROVED
  | REJECTED, REJECTED | ARCHIVED, ARCHIVED => true
  | _, _ => false
  end.

(** The five file columns shared by records, versions and snapshots. *)
Record FileDescriptor : Type := mkFile {
  fileName : JsValue;
  filePath : JsValue;
  fileSize : JsValue;
  fileType : JsValue;
  fileHash : JsValue
}.

Definition no_file : FileDescriptor := mkFile JNull JNull JNull JNull JNull.

(** A row of [records] (the [Record] model). *)
Record RecordRow : Type := mkRecord {
  r_id : Id;
  r_title : string;
  r_description : option string;
  r_cabinetId : Id;
  r_creatorId : Id;
  r_status : RecordStatus;
  r_customFields : JsObject;
  r_tags : list string;
  r_version : Z;
  r_file : FileDescriptor;
  r_isTemplate : bool;
  r_isActive : bool;
  r_lastModifiedBy : Id
}.

(** A row of [record_versions]. *)
Record RecordVersion : Type := mkRecordVersion {
  rv_id : Id;
  rv_recordId : Id;
  rv_version : Z;
  rv_file : FileDescriptor;
  rv_uploadedBy : Id;
  rv_note : option string
}.

(** A row of [records_other_versions]. *)
Record RecordOtherVersion : Type := mkRecordOtherVersion {
  ov_id : Id;
  ov_originalRecordId : Id;
  ov_title : string;
  ov_description : option string;
  ov_cabinetId : Id;
  ov_creatorId : Id;
  ov_customFields : JsObject;
  ov_status : string;
  ov_tags : list string;
  ov_isTemplate : bool;
  ov_isActive : bool;
  ov_lastModifiedBy : Id;
  ov_version : Z;
  ov_file : FileDescriptor
}.

Record Cabinet : Type := mkCabinet {
  cab_id : Id;
  cab_name : string;
  cab_customFields : list CustomField;
  cab_approvers : option (list Id);
  cab_createdById : Id
}.

Record User : Type := mkUser { u_id : Id }.

Record CabinetMember : Type := mkCabinetMember {
  cm_cabinetId : Id;
  cm_userId : Id;
  cm_role : string
}.

Record RecordNoteComment : Type := mkNote {
  n_recordId : Id;
  n_content : string;
  n_type : string;
  n_action : option string;
  n_createdBy : Id
}.

(** [Express.Multer.File] *)
Record MulterFile : Type := mkMulterFile {
  originalname : string;
  mimetype : string;
  size : Z;
  buffer : list byte
}.

Record PdfExtractResult : Type := mkPdfExtractResult {
  extractedText : string;
  extractedFields : list (string * string);
  pageCount : Z
}.

Record PdfFile : Type := mkPdfFile {
  pf_recordId : Id;
  pf_originalFileName : string;
  pf_filePath : string;
  pf_fileSize : Z;
  pf_fileHash : string;
  pf_pageCount : Z;
  pf_extractedText : string;
  pf_extractedMetadata : list (string * string)
}.

Inductive ActivityType : Type := UPDATE | APPROVE | REJECT.

Inductive ResourceType : Type := RECORD.

Record ActivityEntry : Type := mkActivity {
  a_userId : Id;
  a_action : ActivityType;
  a_resourceType : ResourceType;
  a_resourceId : Id;
  a_resourceName : string;
  a_details : string
}.

Inductive NotificationCall : Type :=
| CreateNotification (userId : Id) (title message type entityType : string) (entityId : Id)
| RecordRejectionNotification (creatorId recordId : Id) (title reason : string).

(** The tables the record service reads and writes. *)
Record Db : Type := mkDb {
  records : list RecordRow;
  recordVersions : list RecordVersion;
  recordOtherVersions : list RecordOtherVersion;
  cabinets : list Cabinet;
  users : list User;
  cabinetMembers : list CabinetMember;
  recordNoteComments : list RecordNoteComment;
  pdfFiles : list PdfFile
}.

(** The world a service call runs in.  [tx] is the open transaction, kept
    as the database it would roll back to; [uuids] counts the primary keys
    generated so far; [disk] holds the files written under the upload
    directory; the two logs record the calls made to the activity and
    notification services. *)
Record World : Type := mkWorld {
  db : Db;
  tx : option Db;
  uuids : nat;
  clock : Z;
  disk : list (string * list byte);
  activities : list ActivityEntry;
  notifications : list NotificationCall
}.

Definition with_db (d : Db) (w : World) : World :=
  mkWorld d (tx w) (uuids w) (clock w) (disk w) (activities w) (notifications w).

Definition with_tx (t : option Db) (w : World) : World :=
  mkWorld (db w) t (uuids w) (clock w) (disk w) (activities w) (notifications w).

Definition with_records (rs : list RecordRow) (d : Db) : Db :=
  mkDb rs (recordVersions d) (recordOtherVersions d) (cabinets d) (users d)
       (cabinetMembers d) (recordNoteComments d) (pdfFiles d).

Definition with_recordVersions (vs : list RecordVersion) (d : Db) : Db :=
  mkDb (records d) vs (recordOtherVersions d) (cabinets d) (users d)
       (cabinetMembers d) (recordNoteComments d) (pdfFiles d).

Definition with_recordOtherVersions (vs : list RecordOtherVersion) (d : Db) : Db :=
  mkDb (records d) (recordVersions d) vs (cabinets d) (users d)
       (cabinetMembers d) (recordNoteComments d) (pdfFiles d).

Definition with_recordNoteComments (ns : list RecordNoteComment) (d : Db) : Db :=
  mkDb (records d) (recordVersions d) (recordOtherVersions d) (cabinets d) (users d)
       (cabinetMembers d) ns (pdfFiles d).

Definition with_pdfFiles (ps : list PdfFile) (d : Db) : Db :=
  mkDb (records d) (recordVersions d) (recordOtherVersions d) (cabinets d) (users d)
       (cabinetMembers d) (recordNoteComments d) ps.

(* ================================================================== *)
(** ** The monad of service calls *)

Definition M (A : Type) : Type := World -> Outcome A * World.

Definition ret {A : Type} (a : A) : M A := fun w => (Ok a, w).

Definition throw {A : Type} (e : Exn) : M A := fun w => (Throw e, w).

Definition bind {A B : Type} (m : M A) (k : A -> M B) : M B :=
  fun w =>
    match m w with
    | (Ok a, w') => k a w'
    | (Throw e, w') => (Throw e, w')
    end.

(** [try { m } catch (e) { h e }] *)
Definition try_catch {A : Type} (m : M A) (h : Exn -> M A) : M A :=
  fun w =>
    match m w with
    | (Ok a, w') => (Ok a, w')
    | (Throw e, w') => h e w'
    end.

Definition gets {A : Type} (f : World -> A) : M A := fun w => (Ok (f w), w).

Definition modify (f : World -> World) : M unit := fun w => (Ok tt, f w).

Definition modify_db (f : Db -> Db) : M unit :=
  modify (fun w => with_db (f (db w)) w).

Declare Scope service_scope.
Delimit Scope service_scope with service.

Notation "x <- c1 ;; c2" := (bind c1 (fun x => c2))
  (at level 100, c1 at next level, right associativity) : service_scope.
Notation "c1 ;; c2" := (bind c1 (fun _ => c2))
  (at level 100, right associativity) : service_scope.

Local Open Scope service_scope.

(** [if (c) throw e;] *)
Definition throw_if (c : bool) (e : Exn) : M unit :=
  if c then throw e else ret tt.

(* ------------------------------------------------------------------ *)
(** *** The ORM calls the service makes

    Queries and writes are taken not to fail on their own; a primary key
    is generated from the counter [uuids]. *)

Definition fresh_id : M Id :=
  fun w =>
    (Ok ("uuid-" ++ string_of_Z (Z.of_nat (uuids w))),
     mkWorld (db w) (tx w) (S (uuids w)) (clock w) (disk w) (activities w)
             (notifications w)).

(** [sequelize.transaction()] *)
Definition transaction_begin : M unit :=
  modify (fun w => with_tx (Some (db w)) w).

(** [transaction.commit()] *)
Definition transaction_commit : M unit :=
  modify (with_tx None).

(** [transaction.rollback()]: undoes the writes made since the transaction
    began; on a transaction that is already finished it throws. *)
Definition transaction_rollback : M unit :=
  fun w =>
    match tx w with
    | Some d => (Ok tt, with_tx None (with_db d w))
    | None =>
        (Throw (Error "Transaction cannot be rolled back because it has been finished with state: commit"), w)
    end.

Definition Record_findByPk (id : Id) : M (option RecordRow) :=
  gets (fun w => find (fun r => r_id r =? id) (records (db w))).

Definition Cabinet_findByPk (id : Id) : M (option Cabinet) :=
  gets (fun w => find (fun c => cab_id c =? id) (cabinets (db w))).

Definition User_findByPk (id : Id) : M (option User) :=
  gets (fun w => find (fun u => u_id u =? id) (users (db w))).


(** The row of greatest [version] ([order: [['version', 'DESC']]] with
    [findOne]); among equal versions the first in table order. *)
Fixpoint latest_by {A : Type} (version : A -> Z) (rows : list A) : option A :=
  match rows with
  | [] => None
  | r :: rows' =>
      match latest_by version rows' with
      | Some r' => if (version r <? version r')%Z then Some r' else Some r
      | None => Some r
      end
  end.

Definition versions_of (recordId : Id) (d : Db) : list RecordVersion :=
  filter (fun v => rv_recordId v =? recordId) (recordVersions d).

Definition snapshots_of (recordId : Id) (d : Db) : list RecordOtherVersion :=
  filter (fun v => ov_originalRecordId v =? recordId) (recordOtherVersions d).

(** [CabinetMember.findOne({ where: { cabinetId, userId, role } })] *)
Definition CabinetMember_findOne (cabinetId userId : Id) (role : string)
  : M (option CabinetMember) :=
  gets (fun w =>
    find (fun m => (cm_cabinetId m =? cabinetId) && (cm_userId m =? userId)
                   && (cm_role m =? role))
         (cabinetMembers (db w))).

(** [record.update(...)] on a loaded row: applies the assignment [f] to
    the row of that primary key and to the loaded instance, which is
    returned. *)
Definition Record_update (record : RecordRow) (f : RecordRow -> RecordRow)
  : M RecordRow :=
  modify_db (fun d =>
    with_records
      (map (fun r => if r_id r =? r_id record then f r else r) (records d)) d) ;;
  ret (f record).

Definition RecordVersion_findLatest (recordId : Id) : M (option RecordVersion) :=
  gets (fun w => latest_by rv_version (versions_of recordId (db w))).

Definition RecordOtherVersion_findLatest (recordId : Id)
  : M (option RecordOtherVersion) :=
  gets (fun w => latest_by ov_version (snapshots_of recordId (db w))).

(* ================================================================== *)
(** ** What the service takes from its host *)

(** Built-ins of the JavaScript runtime whose results the service only
    tests or passes on. *)
Record Runtime : Type := mkRuntime {
  (** [n.toString()] *)
  Number_toString : JsNumber -> string;
  (** [parseFloat(s)] *)
  parseFloat : string -> JsNumber;
  (** [Number(s)] for a string, and for an object or array *)
  StringToNumber : string -> JsNumber;
  ObjectToNumber : JsValue -> JsNumber;
  (** [new Date(v).getTime()] and [new Date(v).toISOString()] *)
  Date_getTime : JsValue -> JsNumber;
  Date_toISOString : JsValue -> string
}.

(** The collaborators outside this file.  [pdf_extraction] stands for the
    body of [extractPdfContent] (scratch file written and removed,
    pdf.js-extract, line reconstruction and [analyzeTextStructure]): it
    gives the extracted content or the exception raised on the way.  The
    other fields say when a disk write or an external service call fails. *)
Record Host : Type := mkHost {
  UPLOAD_DIR : string;
  path_join : string -> string -> string;
  pdf_extraction : MulterFile -> World -> Outcome PdfExtractResult;
  writeFile_failure : string -> option Exn;
  logActivity_failure : ActivityEntry -> option Exn;
  notification_failure : NotificationCall -> option Exn;
  has_createRecordRejectionNotification : bool
}.

(* ================================================================== *)
(** ** Custom field validator *)

(** [new AppError(400, `Field '${field.name}' ...`)] *)
Definition field_error (field : CustomField) (what : string) : Exn :=
  AppError 400 ("Field '" ++ f_name field ++ "' " ++ what).

(** [field.characterLimit && s.length > field.characterLimit] *)
Definition exceeds_characterLimit (field : CustomField) (s : string) : bool :=
  match f_characterLimit field with
  | Some limit => negb (limit =? 0)%Z && (limit <? Z.of_nat (String.length s))%Z
  | None => false
  end.

Definition characterLimit_error (field : CustomField) : Exn :=
  field_error field
    ("exceeds character limit of " ++
     match f_characterLimit field with
     | Some limit => string_of_Z limit
     | None => "undefined"
     end).

(** [typeof v === 'object' && v !== null] *)
Definition is_object (v : JsValue) : bool :=
  (typeof v =? "object") && negb (is_null v).

(** The validated entry [{ fieldId: field.id, type: field.type, value }]. *)
Definition field_entry (field : CustomField) (value : JsValue) : JsValue :=
  JObj [("fieldId", field_id_value (f_id field));
        ("type", JStr (f_type field));
        ("value", value)].

(** Extract value from complex object if needed (lines 523-526). *)
Definition actual_value (value : JsValue) : JsValue :=
  if is_object value
  then if negb (is_undefined (js_get value "value")) then js_get value "value" else value
  else value.

(** For attachment fields, check if there's a valid value object (lines
    466-468). *)
Definition hasValidValue (submittedField : JsValue) : bool :=
  truthy submittedField &&
  ((truthy (js_get submittedField "value")
    && (0 <? Object_keys_length (js_get submittedField "value"))%nat)
   || ((typeof submittedField =? "object")
       && (truthy (js_get submittedField "filePath")
           || truthy (js_get submittedField "fileName")))).

(** For non-attachment fields (line 480). *)
Definition hasValue (submittedField : JsValue) : bool :=
  negb (is_undefined submittedField) && negb (is_null submittedField)
  && negb (is_empty_string submittedField).

Section Validator.

Variable rt : Runtime.

(** [Number(v)] *)
Definition js_Number (v : JsValue) : JsNumber :=
  match v with
  | JUndefined => NaN
  | JNull => number_of_Z 0
  | JBool b => number_of_Z (if b then 1 else 0)
  | JNum n => n
  | JStr s => StringToNumber rt s
  | JArr _ | JObj _ => ObjectToNumber rt v
  end.

(** [validateFieldValue(value, field)], lines 518-635. *)
Definition validateFieldValue (value : JsValue) (field : CustomField) : M JsValue :=
  if is_undefined value || is_null value then ret JNull
  else
    let actualValue := actual_value value in
    if f_type field =? "Text/Number with Special Symbols" then
      if is_null actualValue || is_undefined actualValue || is_empty_string actualValue
      then ret JNull
      else
        let stringValue :=
          match actualValue with
          | JNum n => JStr (Number_toString rt n)
          | _ => actualValue
          end in
        match stringValue with
        | JStr s =>
            throw_if (exceeds_characterLimit field s) (characterLimit_error field) ;;
            ret (JStr s)
        | _ => throw (field_error field "must be text, number or special symbols")
        end
    else if f_type field =? "Text Only" then
      let textValue :=
        if is_object actualValue && js_in "value" actualValue
        then js_get actualValue "value"
        else actualValue in
      match textValue with
      | JStr s =>
          throw_if (exceeds_characterLimit field s) (characterLimit_error field) ;;
          ret (JStr s)
      | _ => throw (field_error field "must be text")
      end
    else if f_type field =? "Number Only" then
      if is_null actualValue || is_undefined actualValue || is_empty_string actualValue
      then ret JNull
      else
        match actualValue with
        | JNum n =>
            throw_if (isNaN n) (field_error field "must be a valid number") ;;
            ret (JNum n)
        | JStr s =>
            let num := parseFloat rt (trim s) in
            throw_if (isNaN num) (field_error field "must be a valid number") ;;
            ret (JNum num)
        | _ => throw (field_error field "must be a valid number")
        end
    else if f_type field =? "Currency" then
      let amount := js_Number actualValue in
      throw_if (isNaN amount) (field_error field "must be a valid currency amount") ;;
      ret (JNum amount)
    else if (f_type field =? "Date") || (f_type field =? "Time")
            || (f_type field =? "Time and Date") then
      if (typeof actualValue =? "string") && negb (isNaN (Date_getTime rt actualValue))
      then ret actualValue
      else
        throw_if (isNaN (Date_getTime rt actualValue))
                 (field_error field "must be a valid date/time") ;;
        ret (JStr (Date_toISOString rt actualValue))
    else if f_type field =? "Yes/No" then
      match actualValue with
      | JBool b => ret (JBool b)
      | _ => throw (field_error field "must be a boolean")
      end
    else if f_type field =? "Tags/Labels" then
      match actualValue with
      | JArr items => ret (JArr items)
      | _ => throw (field_error field "must be an array of tags")
      end
    else if f_type field =? "Attachment" then
      throw_if (negb (truthy actualValue) || negb (typeof actualValue =? "object"))
               (field_error field "must be a valid file upload") ;;
      throw_if (negb (truthy (js_get actualValue "fileName"))
                || negb (truthy (js_get actualValue "filePath")))
               (field_error field "is missing required file information") ;;
      ret actualValue
    else ret actualValue.

(** The mandatory-field block of the loop body, lines 460-491. *)
Definition mandatory_check (field : CustomField) (submittedField : JsValue) : M unit :=
  if f_isMandatory field then
    if f_type field =? "Attachment" then
      throw_if (negb (hasValidValue submittedField)) (field_error field "is mandatory")
    else
      throw_if (negb (hasValue submittedField)) (field_error field "is mandatory")
  else ret tt.

(** The type-processing block of the loop body, lines 493-510. *)
Definition process_field (field : CustomField) (submittedField : JsValue)
    (validatedFields : JsObject) : M JsObject :=
  if f_type field =? "Attachment" then
    if truthy submittedField
    then ret (obj_set (field_key (f_id field)) (field_entry field submittedField)
                      validatedFields)
    else ret validatedFields
  else
    if negb (is_undefined submittedField)
    then value <- validateFieldValue submittedField field ;;
         ret (obj_set (field_key (f_id field)) (field_entry field value) validatedFields)
    else ret validatedFields.

(** [for (const field of cabinetFields) { ... }], lines 454-513. *)
Fixpoint validate_loop (submittedFields : JsObject) (cabinetFields : list CustomField)
    (validatedFields : JsObject) : M JsObject :=
  match cabinetFields with
  | [] => ret validatedFields
  | field :: rest =>
      let submittedField := obj_get submittedFields (field_key (f_id field)) in
      mandatory_check field submittedField ;;
      validatedFields' <- process_field field submittedField validatedFields ;;
      validate_loop submittedFields rest validatedFields'
  end.

(** [validateCustomFields(submittedFields, cabinetFields)], lines 447-516. *)
Definition validateCustomFields (submittedFields : JsObject)
    (cabinetFields : list CustomField) : M JsObject :=
  validate_loop submittedFields cabinetFields [].

End Validator.

(* ================================================================== *)
(** ** Record service *)

Record CreateRecordData : Type := mkCreateRecordData {
  c_title : string;
  c_cabinetId : Id;
  c_creatorId : Id;
  c_customFields : JsObject;
  c_status : RecordStatus;
  c_isTemplate : bool;
  c_isActive : bool;
  c_tags : list string;
  c_pdfFile : option MulterFile
}.

Record VersionData : Type := mkVersionData {
  vd_file : FileDescriptor;
  vd_uploadedBy : Id;
  vd_note : option string
}.

Record ModifyRecordData : Type := mkModifyRecordData {
  m_recordId : Id;
  m_title : string;
  m_cabinetId : Id;
  m_creatorId : Id;
  m_customFields : JsObject;
  m_status : string;
  m_tags : list string;
  m_pdfFile : option MulterFile
}.

(** [Partial<Record>]: the columns a caller may assign. *)
Record RecordPatch : Type := mkRecordPatch {
  p_title : option string;
  p_description : option (option string);
  p_cabinetId : option Id;
  p_creatorId : option Id;
  p_status : option RecordStatus;
  p_customFields : option JsObject;
  p_tags : option (list string);
  p_version : option Z;
  p_file : option FileDescriptor;
  p_isTemplate : option bool;
  p_isActive : option bool;
  p_lastModifiedBy : option Id
}.

Definition or_else {A : Type} (o : option A) (a : A) : A :=
  match o with Some x => x | None => a end.

(** [{ ...data }] laid over a row. *)
Definition apply_patch (data : option RecordPatch) (r : RecordRow) : RecordRow :=
  match data with
  | None => r
  | Some p =>
      mkRecord (r_id r)
        (or_else (p_title p) (r_title r))
        (or_else (p_description p) (r_description r))
        (or_else (p_cabinetId p) (r_cabinetId r))
        (or_else (p_creatorId p) (r_creatorId r))
        (or_else (p_status p) (r_status r))
        (or_else (p_customFields p) (r_customFields r))
        (or_else (p_tags p) (r_tags r))
        (or_else (p_version p) (r_version r))
        (or_else (p_file p) (r_file r))
        (or_else (p_isTemplate p) (r_isTemplate r))
        (or_else (p_isActive p) (r_isActive r))
        (or_else (p_lastModifiedBy p) (r_lastModifiedBy r))
  end.

Definition set_status (st : RecordStatus) (by_ : Id) (r : RecordRow) : RecordRow :=
  mkRecord (r_id r) (r_title r) (r_description r) (r_cabinetId r) (r_creatorId r)
    st (r_customFields r) (r_tags r) (r_version r) (r_file r)
    (r_isTemplate r) (r_isActive r) by_.

(** The assignment [{ filePath, fileName, fileSize, fileType, fileHash,
    version, lastModifiedBy }] of [createNewVersion] and [deleteVersion]. *)
Definition set_active_file (f : FileDescriptor) (version : Z) (by_ : Id)
    (r : RecordRow) : RecordRow :=
  mkRecord (r_id r) (r_title r) (r_description r) (r_cabinetId r) (r_creatorId r)
    (r_status r) (r_customFields r) (r_tags r) version f
    (r_isTemplate r) (r_isActive r) by_.

(** [Math.round(a / b)] for integers [a] and [b > 0] whose quotient is a
    double without rounding, as is the case of a byte count over 1024:
    the integer nearest to [a / b], a half going up. *)
Definition Math_round_div (a b : Z) : Z := ((2 * a + b) / (2 * b))%Z.

(** The fallback literal of lines 321-328, 383-390 and 1213-1220. *)
Definition pdf_fallback (file : MulterFile) : PdfExtractResult :=
  mkPdfExtractResult
    "PDF text extraction failed"
    [("Document Name", originalname file);
     ("File Size", string_of_Z (Math_round_div (size file) 1024) ++ " KB")]
    1.

(** A missing property leaves its column at the default [NULL]. *)
Definition column (v : JsValue) : JsValue :=
  if is_undefined v then JNull else v.

Definition file_of_info (fileInfo : JsValue) : FileDescriptor :=
  mkFile (column (js_get fileInfo "fileName")) (column (js_get fileInfo "filePath"))
         (column (js_get fileInfo "fileSize")) (column (js_get fileInfo "fileType"))
         (column (js_get fileInfo "fileHash")).

(** [v === s] for a string literal [s] *)
Definition is_string_literal (v : JsValue) (s : string) : bool :=
  match v with JStr t => t =? s | _ => false end.

(** The search loop of lines 281-288 over the visited properties. *)
Fixpoint first_attachment (visited : JsObject) : JsValue :=
  match visited with
  | [] => JNull
  | (_, field) :: rest =>
      if is_string_literal (js_get field "type") "Attachment"
         && truthy (js_get field "value")
      then js_get field "value"
      else first_attachment rest
  end.

(** [note || fallback] *)
Definition string_or (note : option string) (fallback : string) : string :=
  match note with
  | Some s => if s =? "" then fallback else s
  | None => fallback
  end.

(** [cabinet.approvers?.some(approver => approver.userId === userId) ?? false] *)
Definition isApprover (cabinet : Cabinet) (userId : Id) : bool :=
  match cab_approvers cabinet with
  | Some approvers => existsb (fun approver => approver =? userId) approvers
  | None => false
  end.

Section Service.

Variable rt : Runtime.
Variable host : Host.

(** [writeFileAsync(path, data)] *)
Definition writeFileAsync (path : string) (data : list byte) : M unit :=
  match writeFile_failure host path with
  | Some e => throw e
  | None =>
      modify (fun w =>
        mkWorld (db w) (tx w) (uuids w) (clock w) ((path, data) :: disk w)
                (activities w) (notifications w))
  end.

(** [ActivityService.logActivity(entry)] *)
Definition logActivity (entry : ActivityEntry) : M unit :=
  match logActivity_failure host entry with
  | Some e => throw e
  | None =>
      modify (fun w =>
        mkWorld (db w) (tx w) (uuids w) (clock w) (disk w)
                (activities w ++ [entry])%list (notifications w))
  end.

(** A call to [NotificationService]. *)
Definition notify (call : NotificationCall) : M unit :=
  match notification_failure host call with
  | Some e => throw e
  | None =>
      modify (fun w =>
        mkWorld (db w) (tx w) (uuids w) (clock w) (disk w)
                (activities w) (notifications w ++ [call])%list)
  end.

(** [extractPdfContent(file)], lines 66-146: whatever goes wrong inside is
    rethrown as [AppError(500, ...)]. *)
Definition extractPdfContent (file : MulterFile) : M PdfExtractResult :=
  try_catch (fun w => (pdf_extraction host file w, w))
            (fun _ => throw (AppError 500 "Failed to process PDF file")).

(** [processPdfFile(file)], lines 376-392. *)
Definition processPdfFile (file : MulterFile) : M PdfExtractResult :=
  try_catch (extractPdfContent file)
            (fun _ => ret (pdf_fallback file)).

(** Lines 1207-1239 and 313-342: extraction with fallback, then the
    upload is written under a timestamped name; gives the path written
    and the extracted data.  The upload directory is taken to exist (it is
    created when the module is loaded, lines 28-31). *)
Definition store_upload (pdf : MulterFile) : M (string * PdfExtractResult) :=
  pdfData <- try_catch (extractPdfContent pdf) (fun _ => ret (pdf_fallback pdf)) ;;
  timestamp <- gets clock ;;
  let pdfFileName :=
    string_of_Z timestamp ++ "-" ++ replace_whitespace_runs (originalname pdf) in
  let pdfFilePath := path_join host (UPLOAD_DIR host) pdfFileName in
  writeFileAsync pdfFilePath (buffer pdf) ;;
  ret (pdfFilePath, pdfData).

(** Lines 311-361 of [createRecord]: if a PDF file was provided, try to
    process it, but do not fail record creation if that fails. *)
Definition persist_pdf (record : RecordRow) (pdfFile : option MulterFile) : M unit :=
  match pdfFile with
  | Some pdf =>
      try_catch
        (stored <- store_upload pdf ;;
         modify_db (fun d =>
           with_pdfFiles
             (pdfFiles d ++
              [mkPdfFile (r_id record) (originalname pdf) (fst stored) (size pdf)
                 "N/A" (pageCount (snd stored)) (extractedText (snd stored))
                 (extractedFields (snd stored))])%list d))
        (fun _ => ret tt)
  | None => ret tt
  end.

(** [createRecord(data)], lines 249-371. *)
Definition createRecord (data : CreateRecordData) : M RecordRow :=
  (* Validate title *)
  throw_if ((c_title data =? "") || (trim (c_title data) =? ""))
           (AppError 400 "Record title is required") ;;
  cabinet <- Cabinet_findByPk (c_cabinetId data) ;;
  match cabinet with
  | None => throw (AppError 400 "Cabinet not found")
  | Some cabinet =>
  creator <- User_findByPk (c_creatorId data) ;;
  match creator with
  | None => throw (AppError 400 "Creator not found")
  | Some _ =>
  validatedFields <-
    validateCustomFields rt (c_customFields data) (cab_customFields cabinet) ;;
  (* Find the first attachment field if any *)
  let fileInfo := first_attachment (for_in_order validatedFields) in
  transaction_begin ;;
  try_catch
    (id <- fresh_id ;;
     let record :=
       mkRecord id (trim (c_title data)) None (c_cabinetId data) (c_creatorId data)
         (c_status data) validatedFields (c_tags data) 1
         (if truthy fileInfo then file_of_info fileInfo else no_file)
         (c_isTemplate data) (c_isActive data) (c_creatorId data) in
     modify_db (fun d => with_records (records d ++ [record])%list d) ;;
     persist_pdf record (c_pdfFile data) ;;
     transaction_commit ;;
     ret record)
    (fun error => transaction_rollback ;; throw error)
  end
  end.

(** [createNewVersion(recordId, versionData)], lines 877-918. *)
Definition createNewVersion (recordId : Id) (versionData : VersionData)
  : M RecordVersion :=
  record <- Record_findByPk recordId ;;
  match record with
  | None => throw (AppError 404 "Record not found")
  | Some record =>
  (* Get the current version number and increment it *)
  latestVersion <- RecordVersion_findLatest recordId ;;
  let newVersionNumber :=
    match latestVersion with
    | Some latest => (rv_version latest + 1)%Z
    | None => 1%Z
    end in
  id <- fresh_id ;;
  let version :=
    mkRecordVersion id recordId newVersionNumber (vd_file versionData)
                    (vd_uploadedBy versionData) (vd_note versionData) in
  modify_db (fun d => with_recordVersions (recordVersions d ++ [version])%list d) ;;
  (* Update the record with the latest file info *)
  Record_update record
    (set_active_file (vd_file versionData) newVersionNumber
                     (vd_uploadedBy versionData)) ;;
  ret version
  end.

(** [deleteVersion(recordId, versionId, userId)], lines 941-995. *)
Definition deleteVersion (recordId versionId userId : Id) : M bool :=
  record <- Record_findByPk recordId ;;
  match record with
  | None => throw (AppError 404 "Record not found")
  | Some record =>
  cabinet <- Cabinet_findByPk (r_cabinetId record) ;;
  match cabinet with
  | None => throw (AppError 404 "Cabinet not found")
  | Some cabinet =>
  throw_if (negb (r_creatorId record =? userId)
            && negb (cab_createdById cabinet =? userId))
           (AppError 403 "You do not have permission to delete this version") ;;
  version <- gets (fun w =>
    find (fun v => (rv_id v =? versionId) && (rv_recordId v =? recordId))
         (recordVersions (db w))) ;;
  match version with
  | None => throw (AppError 404 "Version not found")
  | Some version =>
  (* Don't allow deletion of the only version *)
  versionsCount <- gets (fun w => List.length (versions_of recordId (db w))) ;;
  throw_if (versionsCount =? 1)%nat
           (AppError 400 "Cannot delete the only version of the record") ;;
  (* If deleting the latest version, point the record to the previous one *)
  (if (rv_version version =? r_version record)%Z then
     previousVersion <- gets (fun w =>
       latest_by rv_version
         (filter (fun v => (rv_version v <? rv_version version)%Z)
                 (versions_of recordId (db w)))) ;;
     match previousVersion with
     | Some previous =>
         Record_update record
           (set_active_file (rv_file previous) (rv_version previous) userId) ;;
         ret tt
     | None => ret tt
     end
   else ret tt) ;;
  (* Delete the version *)
  modify_db (fun d =>
    with_recordVersions
      (filter (fun v => negb (rv_id v =? rv_id version)) (recordVersions d)) d) ;;
  ret true
  end
  end
  end.

(** [modifyRecord(data)], lines 1174-1299. *)
Definition modifyRecord (data : ModifyRecordData) : M RecordOtherVersion :=
  originalRecord <- Record_findByPk (m_recordId data) ;;
  match originalRecord with
  | None => throw (AppError 404 "Record not found")
  | Some originalRecord =>
  cabinet <- Cabinet_findByPk (m_cabinetId data) ;;
  match cabinet with
  | None => throw (AppError 400 "Cabinet not found")
  | Some cabinet =>
  creator <- User_findByPk (m_creatorId data) ;;
  match creator with
  | None => throw (AppError 400 "Creator not found")
  | Some _ =>
  validatedFields <-
    validateCustomFields rt (m_customFields data) (cab_customFields cabinet) ;;
  latestVersion <- RecordOtherVersion_findLatest (m_recordId data) ;;
  let newVersion :=
    match latestVersion with
    | Some latest => (ov_version latest + 1)%Z
    | None => 2%Z
    end in
  pdfFileInfo <-
    match m_pdfFile data with
    | Some pdf =>
        try_catch
          (stored <- store_upload pdf ;;
           ret (Some (mkFile (JStr (originalname pdf)) (JStr (fst stored))
                             (JNum (number_of_Z (size pdf))) (JStr (mimetype pdf))
                             (JStr "N/A"))))
          (fun _ => ret None)
    | None => ret None
    end ;;
  transaction_begin ;;
  try_catch
    (id <- fresh_id ;;
     let newRecordVersion :=
       mkRecordOtherVersion id (m_recordId data) (trim (m_title data))
         (r_description originalRecord) (m_cabinetId data) (m_creatorId data)
         validatedFields (m_status data) (m_tags data)
         (r_isTemplate originalRecord) (r_isActive originalRecord)
         (m_creatorId data) newVersion (or_else pdfFileInfo no_file) in
     modify_db (fun d =>
       with_recordOtherVersions (recordOtherVersions d ++ [newRecordVersion])%list d) ;;
     transaction_commit ;;
     logActivity
       (mkActivity (m_creatorId data) UPDATE RECORD (m_recordId data) (m_title data)
                   "Record modified") ;;
     notify
       (CreateNotification (cab_createdById cabinet) "Record Modified"
          ("Record " ++ double_quote ++ m_title data ++ double_quote
           ++ " has been modified. New version: " ++ string_of_Z newVersion)
          "record_update" "record" (m_recordId data)) ;;
     ret newRecordVersion)
    (fun error => transaction_rollback ;; throw error)
  end
  end
  end.

(** [rejectRecord(recordId, userId, note, comments, data)], lines 1376-1492. *)
Definition rejectRecord (recordId userId : Id) (note comments : option string)
    (data : option RecordPatch) : M (option RecordRow) :=
  transaction_begin ;;
  try_catch
    (record <- Record_findByPk recordId ;;
     match record with
     | None => throw (AppError 404 "Record or cabinet not found")
     | Some record =>
     included <- Cabinet_findByPk (r_cabinetId record) ;;
     match included with
     | None => throw (AppError 404 "Record or cabinet not found")
     | Some _ =>
     cabinet <- Cabinet_findByPk (r_cabinetId record) ;;
     match cabinet with
     | None => throw (AppError 404 "Cabinet not found")
     | Some cabinet =>
     (if negb (isApprover cabinet userId) then
        cabinetMember <- CabinetMember_findOne (r_cabinetId record) userId "member_full" ;;
        match cabinetMember with
        | None => throw (AppError 403 "User is not authorized to reject this record")
        | Some _ => ret tt
        end
      else ret tt) ;;
     throw_if (negb (RecordStatus_eqb (r_status record) PENDING))
              (AppError 400 "Only pending records can be rejected") ;;
     record' <- Record_update record
                  (fun r => set_status REJECTED userId (apply_patch data r)) ;;
     (match comments with
      | Some content =>
          if negb (content =? "") then
            modify_db (fun d =>
              with_recordNoteComments
                (recordNoteComments d ++
                 [mkNote recordId content "comment" (Some "reject") userId])%list d)
          else ret tt
      | None => ret tt
      end) ;;
     transaction_commit ;;
     logActivity
       (mkActivity userId REJECT RECORD recordId (r_title record')
                   (string_or note "Record rejected")) ;;
     (if has_createRecordRejectionNotification host then
        notify (RecordRejectionNotification (r_creatorId record') recordId
                  (r_title record') (string_or note ""))
      else ret tt) ;;
     updatedRecord <- Record_findByPk recordId ;;
     ret updatedRecord
     end
     end
     end)
    (fun error =>
       try_catch transaction_rollback (fun _ => ret tt) ;;
       throw error).

End Service.

(* ================================================================== *)
(** ** Record service: reading, updating, approving and deleting *)

(** [a || b] *)
Definition js_or (a b : JsValue) : JsValue := if truthy a then a else b.

(** [v.k = x] on an object (the service assigns only to objects). *)
Definition js_set (v : JsValue) (k : string) (x : JsValue) : JsValue :=
  match v with
  | JObj props => JObj (obj_set k x props)
  | _ => v
  end.

(** [field.value.k || field.k] *)
Definition file_property (field : JsValue) (k : string) : JsValue :=
  js_or (js_get (js_get field "value") k) (js_get field k).

(** The body of the loop of lines 719-731, 753-764 and 1147-1158: the
    value of an Attachment entry is rebuilt from its own file properties,
    each falling back on the entry's property of the same name. *)
Definition normalize_attachment (field : JsValue) : JsValue :=
  if is_string_literal (js_get field "type") "Attachment"
     && truthy (js_get field "value")
  then
    js_set field "value"
      (JObj [("fileName", file_property field "fileName");
             ("filePath", file_property field "filePath");
             ("fileSize", file_property field "fileSize");
             ("fileType", file_property field "fileType");
             ("fileHash", file_property field "fileHash")])
  else field.

(** Reading [field.type] throws a TypeError when the entry is null or
    undefined. *)
Definition unreadable (field : JsValue) : option Exn :=
  match field with
  | JUndefined => Some (Error "Cannot read properties of undefined (reading 'type')")
  | JNull => Some (Error "Cannot read properties of null (reading 'type')")
  | _ => None
  end.

Fixpoint first_unreadable (visited : JsObject) : option Exn :=
  match visited with
  | [] => None
  | (_, field) :: rest =>
      match unreadable field with
      | Some e => Some e
      | None => first_unreadable rest
      end
  end.

(** [for (const fieldId in customFields) { ... }] of the three read paths:
    the entries are visited in enumeration order and rewritten in place. *)
Definition normalize_customFields (customFields : JsObject) : M JsObject :=
  match first_unreadable (for_in_order customFields) with
  | Some e => throw e
  | None =>
      ret (map (fun kv => (fst kv, normalize_attachment (snd kv))) customFields)
  end.

Definition set_customFields (customFields : JsObject) (r : RecordRow) : RecordRow :=
  mkRecord (r_id r) (r_title r) (r_description r) (r_cabinetId r) (r_creatorId r)
    (r_status r) customFields (r_tags r) (r_version r) (r_file r)
    (r_isTemplate r) (r_isActive r) (r_lastModifiedBy r).

Definition set_snapshot_customFields (customFields : JsObject)
    (v : RecordOtherVersion) : RecordOtherVersion :=
  mkRecordOtherVersion (ov_id v) (ov_originalRecordId v) (ov_title v)
    (ov_description v) (ov_cabinetId v) (ov_creatorId v) customFields
    (ov_status v) (ov_tags v) (ov_isTemplate v) (ov_isActive v)
    (ov_lastModifiedBy v) (ov_version v) (ov_file v).

(** Rows in the order asked of [findAll]: [precedes x y] says that [x] may
    come before [y]; rows that tie keep their table order. *)
Fixpoint insert_ordered {A : Type} (precedes : A -> A -> bool) (x : A) (l : list A)
  : list A :=
  match l with
  | [] => [x]
  | y :: l' => if precedes x y then x :: l else y :: insert_ordered precedes x l'
  end.

Fixpoint order_by {A : Type} (precedes : A -> A -> bool) (rows : list A) : list A :=
  match rows with
  | [] => []
  | x :: rows' => insert_ordered precedes x (order_by precedes rows')
  end.

(** [order: [['version', 'ASC']]] and [order: [['version', 'DESC']]] *)
Definition version_ASC {A : Type} (version : A -> Z) (x y : A) : bool :=
  (version x <=? version y)%Z.

Definition version_DESC {A : Type} (version : A -> Z) (x y : A) : bool :=
  (version y <=? version x)%Z.

(** [data] of [updateRecord]: [Partial<Record> & { note?, comments? }]. *)
Record UpdateRecordData : Type := mkUpdateRecordData {
  up_fields : RecordPatch;
  up_note : option string;
  up_comments : option string
}.

(** [data] of [createRecordWithFiles]. *)
Record CreateRecordWithFilesData : Type := mkCreateRecordWithFilesData {
  cf_title : string;
  cf_cabinetId : Id;
  cf_creatorId : Id;
  cf_customFields : JsObject;
  cf_status : RecordStatus;
  cf_isTemplate : bool;
  cf_isActive : bool;
  cf_tags : list string;
  cf_fileIds : option (list Id)
}.

(** Collaborators of the methods below.  The approval notification is a
    method the service tests for before calling it; it is given with the
    exception it raises, if any.  [RecordFile] and [File] are models whose
    tables are outside [Db]: the two writes of [createRecordWithFiles] to
    them are given by the exception they raise, if any. *)
Record Desk : Type := mkDesk {
  createRecordApprovalNotification : option (Id -> Id -> string -> option Exn);
  allocate_files_failure : Id -> list Id -> option Exn
}.

Section Desk.

Variable rt : Runtime.
Variable host : Host.
Variable desk : Desk.

(** [getRecordById(id)], lines 637-738.  The answer is the row; the
    associations loaded with it (cabinet, creator, notes, comments), none
    of them required, are left out. *)
Definition getRecordById (id : Id) : M RecordRow :=
  record <- Record_findByPk id ;;
  match record with
  | None => throw (AppError 400 "Record not found")
  | Some record =>
      (* Process customFields to ensure file information is properly structured *)
      customFields <- normalize_customFields (r_customFields record) ;;
      ret (set_customFields customFields record)
  end.

(** [versions.forEach(version => { ... })], lines 751-766. *)
Fixpoint normalize_snapshots (versions : list RecordOtherVersion)
  : M (list RecordOtherVersion) :=
  match versions with
  | [] => ret []
  | version :: rest =>
      customFields <- normalize_customFields (ov_customFields version) ;;
      rest' <- normalize_snapshots rest ;;
      ret (set_snapshot_customFields customFields version :: rest')
  end.

(** [getOtherRecordsByOriginalId(originalRecordId)], lines 740-769. *)
Definition getOtherRecordsByOriginalId (originalRecordId : Id)
  : M (list RecordOtherVersion) :=
  versions <- gets (fun w =>
    order_by (version_ASC ov_version) (snapshots_of originalRecordId (db w))) ;;
  throw_if (List.length versions =? 0)%nat
           (AppError 404 "No versions found for this record") ;;
  normalize_snapshots versions.

(** [getRecordVersions(recordId)], lines 920-939.  The title of the record
    loaded with each version is left out. *)
Definition getRecordVersions (recordId : Id) : M (list RecordVersion) :=
  record <- Record_findByPk recordId ;;
  match record with
  | None => throw (AppError 404 "Record not found")
  | Some _ =>
      gets (fun w => order_by (version_DESC rv_version) (versions_of recordId (db w)))
  end.

(** [deleteRecord(id, userId)], lines 771-838.  The cabinet is included
    with [required: true], so a record without its cabinet is not found.
    [destroy] takes the rows out of what later queries see; referential
    actions of the storage layer are not modelled. *)
Definition deleteRecord (id userId : Id) : M bool :=
  record <- Record_findByPk id ;;
  match record with
  | None => throw (AppError 404 "Record not found")
  | Some record =>
  cabinet <- Cabinet_findByPk (r_cabinetId record) ;;
  match cabinet with
  | None => throw (AppError 404 "Record not found")
  | Some cabinet =>
  (* Check if user has permission (creator, cabinet owner, approver, or member_full) *)
  let isCreator := r_creatorId record =? userId in
  let isCabinetOwner := cab_createdById cabinet =? userId in
  member <- CabinetMember_findOne (cab_id cabinet) userId "member_full" ;;
  let isMemberFull := match member with Some _ => true | None => false end in
  throw_if (negb isCreator && negb isCabinetOwner
            && negb (isApprover cabinet userId) && negb isMemberFull)
           (AppError 403 "You do not have permission to delete this record") ;;
  transaction_begin ;;
  try_catch
    ((* Delete all versions first *)
     modify_db (fun d =>
       with_recordVersions
         (filter (fun v => negb (rv_recordId v =? id)) (recordVersions d)) d) ;;
     (* Then delete the record *)
     modify_db (fun d =>
       with_records (filter (fun r => negb (r_id r =? r_id record)) (records d)) d) ;;
     transaction_commit ;;
     ret true)
    (fun error => transaction_rollback ;; throw error)
  end
  end.

(** [updateRecord(id, data, userId)], lines 998-1171.  The answer is the
    row read back, without the associations loaded with it. *)
Definition updateRecord (id : Id) (data : UpdateRecordData) (userId : Id)
  : M RecordRow :=
  transaction_begin ;;
  try_catch
    (record <- Record_findByPk id ;;
     match record with
     | None => throw (AppError 404 "Record not found")
     | Some record =>
     record' <- Record_update record
                  (fun r =>
                     let r' := apply_patch (Some (up_fields data)) r in
                     mkRecord (r_id r') (r_title r') (r_description r')
                       (r_cabinetId r') (r_creatorId r') (r_status r')
                       (r_customFields r') (r_tags r') (r_version r') (r_file r')
                       (r_isTemplate r') (r_isActive r') userId) ;;
     (match up_comments data with
      | Some content =>
          if negb (content =? "") then
            modify_db (fun d =>
              with_recordNoteComments
                (recordNoteComments d ++
                 [mkNote id content "comment" None userId])%list d)
          else ret tt
      | None => ret tt
      end) ;;
     transaction_commit ;;
     logActivity host
       (mkActivity userId UPDATE RECORD id (r_title record')
                   (string_or (up_note data) "Record updated")) ;;
     cabinet <- Cabinet_findByPk (r_cabinetId record') ;;
     (match cabinet with
      | Some cabinet =>
          notify host
            (CreateNotification (cab_createdById cabinet) "Record Updated"
               ("Record " ++ double_quote ++ r_title record' ++ double_quote
                ++ " has been updated.")
               "record_update" "record" (r_id record'))
      | None => ret tt
      end) ;;
     updatedRecord <- Record_findByPk id ;;
     match updatedRecord with
     | None => throw (AppError 404 "Updated record not found")
     | Some updatedRecord =>
         customFields <- normalize_customFields (r_customFields updatedRecord) ;;
         ret (set_customFields customFields updatedRecord)
     end
     end)
    (fun error =>
       try_catch transaction_rollback (fun _ => ret tt) ;;
       throw error).

(** [approveRecord(recordId, userId, note, data)], lines 1301-1374.  The
    answer is the row read back, without its notes and comments. *)
Definition approveRecord (recordId userId : Id) (note : option string)
    (data : option RecordPatch) : M (option RecordRow) :=
  transaction_begin ;;
  try_catch
    (record <- Record_findByPk recordId ;;
     match record with
     | None => throw (AppError 404 "Record not found")
     | Some record =>
     record' <- Record_update record
                  (fun r => set_status APPROVED userId (apply_patch data r)) ;;
     modify_db (fun d =>
       with_recordNoteComments
         (recordNoteComments d ++
          [mkNote recordId (string_or note "Record approved") "system"
                  (Some "approve") userId])%list d) ;;
     transaction_commit ;;
     logActivity host
       (mkActivity userId APPROVE RECORD recordId (r_title record')
                   "Record approved") ;;
     (match createRecordApprovalNotification desk with
      | Some send =>
          match send (r_creatorId record') recordId (r_title record') with
          | Some e => throw e
          | None => ret tt
          end
      | None => ret tt
      end) ;;
     updatedRecord <- Record_findByPk recordId ;;
     ret updatedRecord
     end)
    (fun error =>
       try_catch transaction_rollback (fun _ => ret tt) ;;
       throw error).

(** [createRecordWithFiles(data)], lines 1673-1763. *)
Definition createRecordWithFiles (data : CreateRecordWithFilesData) : M RecordRow :=
  (* Validate title *)
  throw_if ((cf_title data =? "") || (trim (cf_title data) =? ""))
           (AppError 400 "Record title is required") ;;
  cabinet <- Cabinet_findByPk (cf_cabinetId data) ;;
  match cabinet with
  | None => throw (AppError 400 "Cabinet not found")
  | Some cabinet =>
  creator <- User_findByPk (cf_creatorId data) ;;
  match creator with
  | None => throw (AppError 400 "Creator not found")
  | Some _ =>
  validatedFields <-
    validateCustomFields rt (cf_customFields data) (cab_customFields cabinet) ;;
  (* Find the first attachment field if any *)
  let fileInfo := first_attachment (for_in_order validatedFields) in
  transaction_begin ;;
  try_catch
    (id <- fresh_id ;;
     let record :=
       mkRecord id (trim (cf_title data)) None (cf_cabinetId data) (cf_creatorId data)
         (cf_status data) validatedFields (cf_tags data) 1
         (if truthy fileInfo then file_of_info fileInfo else no_file)
         (cf_isTemplate data) (cf_isActive data) (cf_creatorId data) in
     modify_db (fun d => with_records (records d ++ [record])%list d) ;;
     (* Associate files if provided *)
     (match cf_fileIds data with
      | Some fileIds =>
          if (0 <? List.length fileIds)%nat then
            match allocate_files_failure desk (r_id record) fileIds with
            | Some e => throw e
            | None => ret tt
            end
          else ret tt
      | None => ret tt
      end) ;;
     transaction_commit ;;
     ret record)
    (fun error => transaction_rollback ;; throw error)
  end
  end.

End Desk.

(* ================================================================== *)
(** ** A concrete deployment for the closed examples *)

(** A runtime restricted to integers: numerals are runs of decimal digits,
    dates are not recognised.  The examples below do not depend on what it
    answers elsewhere. *)
Definition integer_runtime : Runtime :=
  mkRuntime
    (fun n => match n with
              | NaN => "NaN"
              | Infinity neg => if neg then "-Infinity" else "Infinity"
              | Finite m e => string_of_Z (m * 2 ^ e)
              end)
    (fun s => if all_digits s && negb (s =? "")
              then number_of_Z (digits_value 0 s) else NaN)
    (fun s => if all_digits s then number_of_Z (digits_value 0 s) else NaN)
    (fun _ => NaN)
    (fun _ => NaN)
    (fun _ => "").

(** A host whose PDF parser rejects every upload and whose other
    collaborators always succeed. *)
Definition failing_pdf_host : Host :=
  mkHost "/srv/uploads" (fun dir name => dir ++ "/" ++ name)
         (fun _ _ => Throw (Error "Invalid PDF structure"))
         (fun _ => None) (fun _ => None) (fun _ => None) true.

Definition subject_field : CustomField :=
  mkCustomField (IdNum 1) "Subject" "Text Only" true (Some 5%Z).

Definition confirmed_field : CustomField :=
  mkCustomField (IdNum 2) "Confirmed" "Yes/No" true None.

Definition pages_field : CustomField :=
  mkCustomField (IdNum 3) "Pages" "Number Only" true None.

Definition scan_field : CustomField :=
  mkCustomField (IdNum 4) "Scan" "Attachment" true None.

Definition urgent_field : CustomField :=
  mkCustomField (IdNum 5) "Urgent" "Yes/No" false None.

Definition invoices : Cabinet :=
  mkCabinet "cab-1" "Invoices" [subject_field] (Some ["approver-1"]) "owner-1".

Definition scans : Cabinet :=
  mkCabinet "cab-2" "Scans" [scan_field] None "owner-1".

Definition approved_record : RecordRow :=
  mkRecord "rec-1" "March invoice" None "cab-1" "creator-1" APPROVED [] [] 1 no_file
           false true "creator-1".

Definition office_db : Db :=
  mkDb [approved_record] [] [] [invoices; scans]
       [mkUser "creator-1"; mkUser "owner-1"; mkUser "approver-1"; mkUser "outsider-1"]
       [] [] [].

Definition office : World := mkWorld office_db None 0 1700000000000 [] [] [].

Definition foo_data : CreateRecordData :=
  mkCreateRecordData "  Foo  " "cab-1" "creator-1" [("1", JStr "Hello")] DRAFT
                     false true [] None.


(** The row [createRecord] stores for [foo_data] in [office]. *)
Definition foo_record : RecordRow :=
  mkRecord "uuid-0" "Foo" None "cab-1" "creator-1" DRAFT
           [("1", field_entry subject_field (JStr "Hello"))] [] 1 no_file
           false true "creator-1".

Definition corrupt_pdf : MulterFile :=
  mkMulterFile "scan 01.pdf" "application/pdf" 2048 [].

Definition descriptor_a : FileDescriptor :=
  mkFile (JStr "a.pdf") (JStr "/srv/uploads/a.pdf") (JNum (number_of_Z 10))
         (JStr "application/pdf") (JStr "N/A").

Definition descriptor_b : FileDescriptor :=
  mkFile (JStr "b.pdf") (JStr "/srv/uploads/b.pdf") (JNum (number_of_Z 20))
         (JStr "application/pdf") (JStr "N/A").

Definition upload_a : VersionData := mkVersionData descriptor_a "creator-1" None.

Definition upload_b : VersionData :=
  mkVersionData descriptor_b "owner-1" (Some "rescanned").

(** [office] after a first upload for rec-1. *)
Definition office_with_one_version : World :=
  snd (createNewVersion "rec-1" upload_a office).

Definition modify_data : ModifyRecordData :=
  mkModifyRecordData "rec-1" " March invoice (edited) " "cab-1" "creator-1"
                     [("1", JStr "Hello")] "draft" ["edited"] None.


(** An Attachment entry of an older layout: the path beside the value. *)
Definition legacy_scan_entry : JsValue :=
  JObj [("fieldId", JNum (number_of_Z 4)); ("type", JStr "Attachment");
        ("value", JObj [("fileName", JStr "a.pdf")]);
        ("filePath", JStr "/srv/uploads/a.pdf")].

Definition foo_with_pdf : CreateRecordData :=
  mkCreateRecordData "  Foo  " "cab-1" "creator-1" [("1", JStr "Hello")] DRAFT
                     false true [] (Some corrupt_pdf).

(** [office] after a second upload for rec-1. *)
Definition office_with_two_versions : World :=
  snd (createNewVersion "rec-1" upload_b office_with_one_version).

(** [office] after [createRecord] on [foo_data]: the draft [foo_record] is
    stored beside rec-1. *)
Definition office_with_draft : World :=
  snd (createRecord integer_runtime failing_pdf_host foo_data office).

(** A desk without approval notification, and one whose approval
    notification always fails; both allocate files without failure. *)
Definition quiet_desk : Desk := mkDesk None (fun _ _ => None).

Definition unreachable_desk : Desk :=
  mkDesk (Some (fun _ _ _ => Some (Error "Mail server unreachable")))
         (fun _ _ => None).

(** A record submitted for approval, and [office] once it is stored. *)
Definition pending_data : CreateRecordData :=
  mkCreateRecordData "Contract" "cab-1" "creator-1" [("1", JStr "Hello")] PENDING
                     false true [] None.

Definition pending_record : RecordRow :=
  mkRecord "uuid-0" "Contract" None "cab-1" "creator-1" PENDING
           [("1", field_entry subject_field (JStr "Hello"))] [] 1 no_file
           false true "creator-1".

Definition office_with_pending : World :=
  snd (createRecord integer_runtime failing_pdf_host pending_data office).

(** A new title for a record, sent with a comment. *)
Definition retitle : UpdateRecordData :=
  mkUpdateRecordData
    (mkRecordPatch (Some "April invoice") None None None None None None None None None None None)
    None (Some "typo").

(** [office] after a first modification of rec-1. *)
Definition office_with_snapshot : World :=
  snd (modifyRecord integer_runtime failing_pdf_host modify_data office).

(** A desk that knows none of the file ids it is given. *)
Definition orphan_desk : Desk :=
  mkDesk None (fun _ _ => Some (Error "Unknown file id")).

(** Validated fields with two attachments, the field of greater id stored
    first. *)
Definition two_scans : JsObject :=
  [("10", JObj [("fieldId", JNum (number_of_Z 10)); ("type", JStr "Attachment");
                ("value", JObj [("fileName", JStr "b.pdf")])]);
   ("9", JObj [("fieldId", JNum (number_of_Z 9)); ("type", JStr "Attachment");
               ("value", JObj [("fileName", JStr "a.pdf")])])].

(** A host whose activity log is out of reach. *)
Definition offline_log_host : Host :=
  mkHost "/srv/uploads" (fun dir name => dir ++ "/" ++ name)
         (fun _ _ => Throw (Error "Invalid PDF structure"))
         (fun _ => None) (fun _ => Some (Error "Activity log unavailable"))
         (fun _ => None) true.

(* ================================================================== *)
(** ** Vocabulary of the properties *)

(** The first, respectively last, character of [t] is whitespace. *)
Definition starts_with_whitespace (t : string) : bool :=
  match t with
  | EmptyString => false
  | String c _ => is_whitespace c
  end.

Fixpoint ends_with_whitespace (t : string) : bool :=
  match t with
  | EmptyString => false
  | String c EmptyString => is_whitespace c
  | String _ t' => ends_with_whitespace t'
  end.

(** [t] is [s] without its leading and trailing whitespace. *)
Definition trimmed_form (s t : string) : Prop :=
  (exists l r, s = l ++ t ++ r /\ all_whitespace l = true /\ all_whitespace r = true)
  /\ starts_with_whitespace t = false
  /\ ends_with_whitespace t = false.

(** The call [m] gives the same outcome in every world and changes none. *)
Definition pure_call {A : Type} (m : M A) : Prop :=
  exists r, forall w, m w = (r, w).

(** The property keys of the fields of a schema. *)
Definition schema_keys (schema : list CustomField) : list string :=
  map (fun field => field_key (f_id field)) schema.

(** The entry [e] stored under [k] was written for a field of the schema
    with that key: an Attachment field whose submitted value is truthy and
    stored as it came, or another field whose submitted value is not
    [undefined] and passed [validateFieldValue]. *)
Definition entry_origin (rt : Runtime) (submitted : JsObject)
    (schema : list CustomField) (k : string) (e : JsValue) : Prop :=
  exists field value,
    In field schema /\ field_key (f_id field) = k /\ e = field_entry field value /\
    if f_type field =? "Attachment"
    then value = obj_get submitted k /\ truthy (obj_get submitted k) = true
    else is_undefined (obj_get submitted k) = false /\
         forall w, validateFieldValue rt (obj_get submitted k) field w = (Ok value, w).

(** The number [createNewVersion] gives to the next version of a record. *)
Definition next_version (recordId : Id) (d : Db) : Z :=
  match latest_by rv_version (versions_of recordId d) with
  | Some latest => (rv_version latest + 1)%Z
  | None => 1%Z
  end.

(** [createNewVersion] called once for each element of [calls], in order. *)
Fixpoint createNewVersion_calls (recordId : Id) (calls : list VersionData)
  : M (list RecordVersion) :=
  match calls with
  | [] => ret []
  | versionData :: rest =>
      version <- createNewVersion recordId versionData ;;
      versions <- createNewVersion_calls recordId rest ;;
      ret (version :: versions)
  end.

(** The numbers [first], [first + 1], ... ([count] of them). *)
Fixpoint numbers_from (first : Z) (count : nat) : list Z :=
  match count with
  | O => []
  | S count' => first :: numbers_from (first + 1)%Z count'
  end.

(** The errors [deleteVersion] throws. *)
Definition deleteVersion_errors : list Exn :=
  [AppError 404 "Record not found";
   AppError 404 "Cabinet not found";
   AppError 403 "You do not have permission to delete this version";
   AppError 404 "Version not found";
   AppError 400 "Cannot delete the only version of the record"].

(** The caller may reject records of the cabinet: a listed approver, or a
    member of the record's cabinet with role member_full. *)
Definition may_reject (d : Db) (record : RecordRow) (cabinet : Cabinet)
    (userId : Id) : bool :=
  isApprover cabinet userId
  || match find (fun m => (cm_cabinetId m =? r_cabinetId record)
                          && (cm_userId m =? userId) && (cm_role m =? "member_full"))
                (cabinetMembers d) with
     | Some _ => true
     | None => false
     end.

(** The number [modifyRecord] gives to the next snapshot of a record. *)
Definition next_snapshot_version (recordId : Id) (d : Db) : Z :=
  match latest_by ov_version (snapshots_of recordId d) with
  | Some latest => (ov_version latest + 1)%Z
  | None => 2%Z
  end.

(** The inputs [modifyRecord] checks before it writes: the record, the
    cabinet and the creator exist and the custom fields validate. *)
Definition modification_accepted (rt : Runtime) (data : ModifyRecordData)
    (w : World) : Prop :=
  exists original cabinet creator validated,
    find (fun r => r_id r =? m_recordId data) (records (db w)) = Some original
    /\ find (fun c => cab_id c =? m_cabinetId data) (cabinets (db w)) = Some cabinet
    /\ find (fun u => u_id u =? m_creatorId data) (users (db w)) = Some creator
    /\ validateCustomFields rt (m_customFields data) (cab_customFields cabinet) w
       = (Ok validated, w).

(** What [validateCustomFields] may store as the value of a field: for an
    Attachment field any truthy value; for another field null, or a value
    of the field's type (a string within the character limit, a number
    that is not NaN, a string for the date types, a boolean, an array);
    anything for a type outside the vocabulary. *)
Definition stored_value_ok (field : CustomField) (v : JsValue) : bool :=
  if f_type field =? "Attachment" then truthy v
  else if is_null v then true
  else if (f_type field =? "Text/Number with Special Symbols")
          || (f_type field =? "Text Only") then
    match v with JStr s => negb (exceeds_characterLimit field s) | _ => false end
  else if (f_type field =? "Number Only") || (f_type field =? "Currency") then
    match v with JNum n => negb (isNaN n) | _ => false end
  else if (f_type field =? "Date") || (f_type field =? "Time")
          || (f_type field =? "Time and Date") then
    match v with JStr _ => true | _ => false end
  else if f_type field =? "Yes/No" then
    match v with JBool _ => true | _ => false end
  else if f_type field =? "Tags/Labels" then
    match v with JArr _ => true | _ => false end
  else true.

(** A stored value that validates to itself when its entry is submitted
    again: a non-null value of a text, number, boolean or tag field (the
    empty string excepted for Text/Number with Special Symbols). *)
Definition resubmittable (field : CustomField) (v : JsValue) : bool :=
  negb (is_null v)
  && (((f_type field =? "Text/Number with Special Symbols")
       && negb (is_empty_string v))
      || (f_type field =? "Text Only")
      || (f_type field =? "Number Only")
      || (f_type field =? "Currency")
      || (f_type field =? "Yes/No")
      || (f_type field =? "Tags/Labels")).

(** The primary key the next [create] will generate. *)
Definition next_uuid (w : World) : Id :=
  "uuid-" ++ string_of_Z (Z.of_nat (uuids w)).

(** The row [createRecord] stores for [data] once the custom fields have
    validated to [validated]. *)
Definition created_record (data : CreateRecordData) (validated : JsObject)
    (id : Id) : RecordRow :=
  mkRecord id (trim (c_title data)) None (c_cabinetId data) (c_creatorId data)
    (c_status data) validated (c_tags data) 1
    (if truthy (first_attachment (for_in_order validated))
     then file_of_info (first_attachment (for_in_order validated)) else no_file)
    (c_isTemplate data) (c_isActive data) (c_creatorId data).

(** The world in which the PDF of [createRecord] is processed: the record
    is inserted and the transaction is open. *)
Definition record_inserted (record : RecordRow) (w : World) : World :=
  mkWorld (with_records (records (db w) ++ [record])%list (db w)) (Some (db w))
          (S (uuids w)) (clock w) (disk w) (activities w) (notifications w).

(** Where an upload received at time [timestamp] is written. *)
Definition upload_path (host : Host) (timestamp : Z) (pdf : MulterFile) : string :=
  path_join host (UPLOAD_DIR host)
    (string_of_Z timestamp ++ "-" ++ replace_whitespace_runs (originalname pdf)).

(** The [PdfFile] rows a call of [persist_pdf] adds. *)
Definition pdf_rows (host : Host) (recordId : Id) (pdfFile : option MulterFile)
    (w : World) : list PdfFile :=
  match pdfFile with
  | None => []
  | Some pdf =>
      match writeFile_failure host (upload_path host (clock w) pdf) with
      | Some _ => []
      | None =>
          let pdfData := match pdf_extraction host pdf w with
                         | Ok extracted => extracted
                         | Throw _ => pdf_fallback pdf
                         end in
          [mkPdfFile recordId (originalname pdf) (upload_path host (clock w) pdf)
             (size pdf) "N/A" (pageCount pdfData) (extractedText pdfData)
             (extractedFields pdfData)]
      end
  end.

(** The request [data] of [createRecord] as a request to
    [createRecordWithFiles], with the file ids [fileIds]. *)
Definition with_fileIds (data : CreateRecordData) (fileIds : option (list Id))
  : CreateRecordWithFilesData :=
  mkCreateRecordWithFilesData (c_title data) (c_cabinetId data) (c_creatorId data)
    (c_customFields data) (c_status data) (c_isTemplate data) (c_isActive data)
    (c_tags data) fileIds.

(** The caller may delete the record: its creator, the owner of its
    cabinet, a listed approver, or a member of the cabinet with role
    member_full. *)
Definition may_delete (d : Db) (record : RecordRow) (cabinet : Cabinet)
    (userId : Id) : bool :=
  (r_creatorId record =? userId)
  || (cab_createdById cabinet =? userId)
  || isApprover cabinet userId
  || match find (fun m => (cm_cabinetId m =? cab_id cabinet)
                          && (cm_userId m =? userId) && (cm_role m =? "member_full"))
                (cabinetMembers d) with
     | Some _ => true
     | None => false
     end.

(** The rows of [records] once [deleteVersion] has deleted [version] of
    [record] for [userId]. *)
Definition records_after_deleteVersion (recordId userId : Id) (record : RecordRow)
    (version : RecordVersion) (d : Db) : list RecordRow :=
  if (rv_version version =? r_version record)%Z then
    match latest_by rv_version
            (filter (fun v => (rv_version v <? rv_version version)%Z)
                    (versions_of recordId d)) with
    | Some previous =>
        map (fun r => if r_id r =? r_id record
                      then set_active_file (rv_file previous) (rv_version previous)
                             userId r
                      else r) (records d)
    | None => records d
    end
  else records d.

(** The system note [approveRecord] stores. *)
Definition approval_note (recordId userId : Id) (note : option string)
  : RecordNoteComment :=
  mkNote recordId (string_or note "Record approved") "system" (Some "approve") userId.

(** What [approveRecord] answers once the approval of [approved] is
    committed: the error of the activity log or of the approval
    notification, if one of them fails, and the stored record otherwise. *)
Definition approval_outcome (host : Host) (desk : Desk) (recordId userId : Id)
    (approved : RecordRow) : Outcome (option RecordRow) :=
  match logActivity_failure host
          (mkActivity userId APPROVE RECORD recordId (r_title approved)
                      "Record approved") with
  | Some e => Throw e
  | None =>
      match createRecordApprovalNotification desk with
      | Some send =>
          match send (r_creatorId approved) recordId (r_title approved) with
          | Some e => Throw e
          | None => Ok (Some approved)
          end
      | None => Ok (Some approved)
      end
  end.








(** The row [updateRecord] stores for [record]: the patch laid over it,
    with the caller as last modifier. *)
Definition updated_record (data : UpdateRecordData) (userId : Id) (record : RecordRow)
  : RecordRow :=
  let r' := apply_patch (Some (up_fields data)) record in
  mkRecord (r_id r') (r_title r') (r_description r') (r_cabinetId r') (r_creatorId r')
    (r_status r') (r_customFields r') (r_tags r') (r_version r') (r_file r')
    (r_isTemplate r') (r_isActive r') userId.

(** The rows [updateRecord] adds to the notes and comments. *)
Definition update_comments (id userId : Id) (comments : option string)
  : list RecordNoteComment :=
  match comments with
  | Some content =>
      if content =? "" then [] else [mkNote id content "comment" None userId]
  | None => []
  end.

(** A row as the read paths answer it: its Attachment entries rebuilt. *)
Definition normalized_record (r : RecordRow) : RecordRow :=
  set_customFields
    (map (fun kv => (fst kv, normalize_attachment (snd kv))) (r_customFields r)) r.

(** A snapshot as [getOtherRecordsByOriginalId] answers it: its Attachment
    entries rebuilt. *)
Definition normalized_snapshot (v : RecordOtherVersion) : RecordOtherVersion :=
  set_snapshot_customFields
    (map (fun kv => (fst kv, normalize_attachment (snd kv))) (ov_customFields v)) v.

(** No custom field of the snapshot is null or undefined. *)
Definition readable_snapshot (v : RecordOtherVersion) : Prop :=
  first_unreadable (for_in_order (ov_customFields v)) = None.

(** The test of the search loop of [createRecord]:
    [field.type === 'Attachment' && field.value]. *)
Definition attachment_entry (field : JsValue) : bool :=
  is_string_literal (js_get field "type") "Attachment"
  && truthy (js_get field "value").

(** The error of [transaction.rollback()] on a committed transaction. *)
Definition rollback_after_commit : Exn :=
  Error "Transaction cannot be rolled back because it has been finished with state: commit".

(* ================================================================== *)
(** * Properties *)

(** ** Trimming *)

Lemma trimStart_all_whitespace (s : string) :
  all_whitespace s = true -> trimStart s = "".
Proof.
  induction s as [|c s IH]; simpl; [reflexivity|].
  intros H. apply andb_true_iff in H as [Hc Hs]. rewrite Hc. auto.
Qed.

Lemma trim_all_whitespace (s : string) :
  all_whitespace s = true -> trim s = "".
Proof.
  intros H. unfold trim. rewrite trimStart_all_whitespace by assumption. reflexivity.
Qed.

Lemma trimStart_starts (s : string) :
  starts_with_whitespace (trimStart s) = false.
Proof.
  induction s as [|c s IH]; simpl; [reflexivity|].
  destruct (is_whitespace c) eqn:Hc; [assumption|]. simpl. assumption.
Qed.

Lemma trimEnd_starts (s : string) :
  starts_with_whitespace s = false -> starts_with_whitespace (trimEnd s) = false.
Proof.
  destruct s as [|c s]; simpl; [reflexivity|].
  intros Hc. destruct (trimEnd s); [rewrite Hc|]; simpl; assumption.
Qed.

Lemma trimEnd_ends (s : string) : ends_with_whitespace (trimEnd s) = false.
Proof.
  induction s as [|c s IH]; simpl; [reflexivity|].
  destruct (trimEnd s) as [|a t] eqn:E.
  - destruct (is_whitespace c) eqn:Hc; simpl; [reflexivity|assumption].
  - exact IH.
Qed.

Lemma trimStart_split (s : string) :
  exists l, s = l ++ trimStart s /\ all_whitespace l = true.
Proof.
  induction s as [|c s [l [Hl Hw]]]; simpl.
  - exists "". split; reflexivity.
  - destruct (is_whitespace c) eqn:Hc.
    + exists (String c l). simpl. rewrite Hc, Hw. split; [f_equal; assumption|reflexivity].
    + exists "". split; reflexivity.
Qed.

Lemma trimEnd_split (s : string) :
  exists r, s = trimEnd s ++ r /\ all_whitespace r = true.
Proof.
  induction s as [|c s [r [Hr Hw]]]; simpl.
  - exists "". split; reflexivity.
  - destruct (trimEnd s) as [|a t] eqn:E.
    + destruct (is_whitespace c) eqn:Hc.
      * exists (String c r). simpl in *. rewrite Hc, Hw. split; [f_equal; assumption|reflexivity].
      * exists r. simpl in *. split; [f_equal; assumption|assumption].
    + exists r. split; [|assumption]. simpl. f_equal. assumption.
Qed.

Lemma append_assoc (a b c : string) : (a ++ b) ++ c = a ++ (b ++ c).
Proof. induction a as [|x a IH]; simpl; [reflexivity|]. f_equal. exact IH. Qed.

Lemma trim_trimmed_form (s : string) : trimmed_form s (trim s).
Proof.
  unfold trimmed_form, trim. split; [|split].
  - destruct (trimStart_split s) as [l [Hl Hwl]].
    destruct (trimEnd_split (trimStart s)) as [r [Hr Hwr]].
    exists l, r. split; [|split; assumption].
    rewrite <- Hr. exact Hl.
  - apply trimEnd_starts, trimStart_starts.
  - apply trimEnd_ends.
Qed.

Lemma trim_empty_all_whitespace (s : string) :
  trim s = "" -> all_whitespace s = true.
Proof.
  intros H. destruct (trim_trimmed_form s) as [[l [r [Hs [Hl Hr]]]] _].
  rewrite H in Hs. simpl in Hs. subst s.
  clear H. induction l as [|c l IH]; simpl in *; [assumption|].
  apply andb_true_iff in Hl as [Hc Hl]. rewrite Hc. simpl. auto.
Qed.

(** ** Calls that neither read nor write the world *)

Lemma pure_ret {A : Type} (a : A) : pure_call (ret a).
Proof. exists (Ok a). reflexivity. Qed.

Lemma pure_throw {A : Type} (e : Exn) : pure_call (@throw A e).
Proof. exists (Throw e). reflexivity. Qed.

Lemma pure_throw_if (c : bool) (e : Exn) : pure_call (throw_if c e).
Proof. destruct c; [apply pure_throw|apply pure_ret]. Qed.

Lemma pure_bind {A B : Type} (m : M A) (k : A -> M B) :
  pure_call m -> (forall a, pure_call (k a)) -> pure_call (bind m k).
Proof.
  intros [r Hr] Hk. destruct r as [a|e].
  - destruct (Hk a) as [r' Hr']. exists r'. intros w. unfold bind.
    rewrite Hr. apply Hr'.
  - exists (Throw e). intros w. unfold bind. rewrite Hr. reflexivity.
Qed.

Create HintDb pure.
#[local] Hint Resolve pure_ret pure_throw pure_throw_if : pure.

Ltac pure_step :=
  match goal with
  | |- pure_call (bind _ _) => apply pure_bind; [|intros]
  | |- pure_call (if ?c then _ else _) => destruct c
  | |- pure_call (match ?x with _ => _ end) => destruct x
  | |- pure_call _ => solve [auto with pure]
  end.

Lemma validateFieldValue_pure (rt : Runtime) (value : JsValue) (field : CustomField) :
  pure_call (validateFieldValue rt value field).
Proof. unfold validateFieldValue. cbv zeta. repeat pure_step. Qed.

Lemma mandatory_check_pure (field : CustomField) (submittedField : JsValue) :
  pure_call (mandatory_check field submittedField).
Proof. unfold mandatory_check. cbv zeta. repeat pure_step. Qed.

Lemma process_field_pure (rt : Runtime) (field : CustomField) (v : JsValue)
    (acc : JsObject) :
  pure_call (process_field rt field v acc).
Proof.
  unfold process_field.
  destruct (f_type field =? "Attachment"); [destruct (truthy v); auto with pure|].
  destruct (negb (is_undefined v)); [|auto with pure].
  apply pure_bind; [apply validateFieldValue_pure|intros; auto with pure].
Qed.

Lemma validate_loop_pure (rt : Runtime) (submitted : JsObject)
    (fields : list CustomField) :
  forall acc, pure_call (validate_loop rt submitted fields acc).
Proof.
  induction fields as [|field rest IH]; intros acc; simpl.
  - apply pure_ret.
  - apply pure_bind; [apply mandatory_check_pure|intros _].
    apply pure_bind; [apply process_field_pure|intros acc']. apply IH.
Qed.

Lemma validateCustomFields_pure (rt : Runtime) (submitted : JsObject)
    (schema : list CustomField) :
  pure_call (validateCustomFields rt submitted schema).
Proof. apply validate_loop_pure. Qed.

Lemma pure_call_world {A : Type} (m : M A) (w : World) :
  pure_call m -> snd (m w) = w.
Proof. intros [r Hr]. rewrite Hr. reflexivity. Qed.

Lemma pure_call_result {A : Type} (m : M A) (w1 w2 : World) :
  pure_call m -> fst (m w1) = fst (m w2).
Proof. intros [r Hr]. rewrite !Hr. reflexivity. Qed.

(** ** Objects *)

Lemma obj_lookup_set_same (k : string) (v : JsValue) (o : JsObject) :
  obj_lookup k (obj_set k v o) = Some v.
Proof.
  induction o as [|[k' v'] o IH]; simpl.
  - rewrite String.eqb_refl. reflexivity.
  - destruct (k' =? k) eqn:E; simpl.
    + rewrite String.eqb_refl. reflexivity.
    + rewrite E. exact IH.
Qed.

Lemma obj_lookup_set_other (k k' : string) (v : JsValue) (o : JsObject) :
  k <> k' -> obj_lookup k (obj_set k' v o) = obj_lookup k o.
Proof.
  intros Hne. induction o as [|[k0 v0] o IH]; simpl.
  - destruct (k' =? k) eqn:E; [apply String.eqb_eq in E; congruence|reflexivity].
  - destruct (k0 =? k') eqn:E0; simpl.
    + apply String.eqb_eq in E0. subst k0.
      destruct (k' =? k) eqn:E; [apply String.eqb_eq in E; congruence|reflexivity].
    + destruct (k0 =? k); [reflexivity|exact IH].
Qed.

Lemma obj_keys_lookup (k : string) (o : JsObject) :
  In k (obj_keys o) -> exists v, obj_lookup k o = Some v.
Proof.
  induction o as [|[k' v'] o IH]; simpl; [intros []|].
  intros [Hk|Hk].
  - subst k'. rewrite String.eqb_refl. eauto.
  - destruct (k' =? k); eauto.
Qed.

(** ** What an entry of the validator's output says about the input *)

Lemma process_field_origin (rt : Runtime) (submitted : JsObject)
    (schema : list CustomField) (field : CustomField) (acc acc' : JsObject)
    (w w' : World) :
  In field schema ->
  process_field rt field (obj_get submitted (field_key (f_id field))) acc w
    = (Ok acc', w') ->
  (forall k e, obj_lookup k acc = Some e -> entry_origin rt submitted schema k e) ->
  forall k e, obj_lookup k acc' = Some e -> entry_origin rt submitted schema k e.
Proof.
  intros Hin Hrun Hacc k e Hk.
  unfold process_field in Hrun.
  set (key := field_key (f_id field)) in *.
  set (v := obj_get submitted key) in *.
  destruct (f_type field =? "Attachment") eqn:Ety.
  - destruct (truthy v) eqn:Htr; inversion Hrun; subst acc' w'; [|eauto].
    destruct (String.eqb_spec k key) as [->|Hne].
    + rewrite obj_lookup_set_same in Hk. inversion Hk; subst e.
      exists field, v. rewrite Ety. repeat split; assumption.
    + rewrite obj_lookup_set_other in Hk by assumption. eauto.
  - destruct (is_undefined v) eqn:Hun; simpl in Hrun;
      [inversion Hrun; subst; eauto|].
    destruct (validateFieldValue_pure rt v field) as [r Hr].
    unfold bind in Hrun. rewrite Hr in Hrun.
    destruct r as [value|err]; inversion Hrun; subst acc' w'.
    destruct (String.eqb_spec k key) as [->|Hne].
    + rewrite obj_lookup_set_same in Hk. inversion Hk; subst e.
      exists field, value. rewrite Ety. repeat split; assumption.
    + rewrite obj_lookup_set_other in Hk by assumption. eauto.
Qed.

Lemma validate_loop_origin (rt : Runtime) (submitted : JsObject)
    (schema : list CustomField) (fields : list CustomField) :
  incl fields schema ->
  forall acc out w w',
    validate_loop rt submitted fields acc w = (Ok out, w') ->
    (forall k e, obj_lookup k acc = Some e -> entry_origin rt submitted schema k e) ->
    forall k e, obj_lookup k out = Some e -> entry_origin rt submitted schema k e.
Proof.
  induction fields as [|field rest IH]; intros Hincl acc out w w' Hrun Hacc; simpl in Hrun.
  - inversion Hrun; subst. assumption.
  - unfold bind in Hrun.
    destruct (mandatory_check field _ w) as [[[]|err] w1]; [|discriminate].
    destruct (process_field rt field _ acc w1) as [[acc1|err] w2] eqn:Hstep;
      [|discriminate].
    apply (IH (fun f Hf => Hincl f (or_intror Hf)) acc1 out w2 w' Hrun).
    eapply process_field_origin; eauto. apply Hincl. left. reflexivity.
Qed.

Lemma validateCustomFields_origin (rt : Runtime) (submitted : JsObject)
    (schema : list CustomField) (out : JsObject) (w w' : World) :
  validateCustomFields rt submitted schema w = (Ok out, w') ->
  forall k e, obj_lookup k out = Some e -> entry_origin rt submitted schema k e.
Proof.
  intros Hrun. eapply validate_loop_origin; eauto.
  - apply incl_refl.
  - simpl. discriminate.
Qed.

(** A field that is not mandatory and has nothing submitted is passed over. *)
Lemma validate_loop_skip_absent (rt : Runtime) (submitted : JsObject)
    (field : CustomField) (after : list CustomField) :
  f_isMandatory field = false ->
  obj_get submitted (field_key (f_id field)) = JUndefined ->
  forall before acc w,
    validate_loop rt submitted (before ++ field :: after)%list acc w
    = validate_loop rt submitted (before ++ after)%list acc w.
Proof.
  intros Hman Habs. induction before as [|b before IH]; intros acc w; simpl.
  - unfold mandatory_check, process_field. rewrite Hman, Habs. simpl.
    destruct (f_type field =? "Attachment"); reflexivity.
  - unfold bind.
    destruct (mandatory_check b _ w) as [[[]|err] w1]; [|reflexivity].
    destruct (process_field rt b _ acc w1) as [[acc1|err] w2]; [|reflexivity].
    apply IH.
Qed.

(** The validator reads the submission only at the keys of the schema. *)
Lemma validate_loop_reads_schema_keys (rt : Runtime) (s1 s2 : JsObject)
    (fields : list CustomField) :
  (forall field, In field fields ->
     obj_get s1 (field_key (f_id field)) = obj_get s2 (field_key (f_id field))) ->
  forall acc w, validate_loop rt s1 fields acc w = validate_loop rt s2 fields acc w.
Proof.
  induction fields as [|field rest IH]; intros Hsame acc w; simpl; [reflexivity|].
  rewrite (Hsame field (or_introl eq_refl)). unfold bind.
  destruct (mandatory_check field _ w) as [[[]|err] w1]; [|reflexivity].
  destruct (process_field rt field _ acc w1) as [[acc1|err] w2]; [|reflexivity].
  apply IH. intros f Hf. apply Hsame. right. assumption.
Qed.

(* ================================================================== *)
(** ** Custom field validator: the claims *)

(** C9. Validation is deterministic: whatever the state of the database,
    the disk and the logs, two runs of [validateCustomFields] on the same
    submission and schema end with the same mapping or the same error, and
    a run leaves the world as it found it (so a run cannot influence the
    next one).  The runtime built-ins are those of one process. *)
Theorem validateCustomFields_deterministic (rt : Runtime) (submitted : JsObject)
    (schema : list CustomField) (w1 w2 : World) :
  fst (validateCustomFields rt submitted schema w1)
  = fst (validateCustomFields rt submitted schema w2)
  /\ snd (validateCustomFields rt submitted schema w1) = w1.
Proof.
  split.
  - apply pure_call_result, validateCustomFields_pure.
  - apply pure_call_world, validateCustomFields_pure.
Qed.

(** C7. The output of [validateCustomFields] has no key outside the keys
    of the schema, and none for which nothing was submitted; a submitted
    field outside the schema changes nothing (the validator reads the
    submission at the schema's keys only); a field that is not mandatory
    and absent from the submission is passed over, so nothing, not even
    null, is stored for it; and an entry of type Attachment is in the
    output only when the submitted value is truthy. *)
Theorem validateCustomFields_output_keys (rt : Runtime) (submitted : JsObject)
    (schema : list CustomField) (w : World) :
  (forall out w',
     validateCustomFields rt submitted schema w = (Ok out, w') ->
     (forall k, In k (obj_keys out) ->
        In k (schema_keys schema) /\ obj_get submitted k <> JUndefined)
     /\ (forall k e, obj_lookup k out = Some e ->
           is_string_literal (js_get e "type") "Attachment" = true ->
           truthy (obj_get submitted k) = true))
  /\ (forall submitted',
        (forall field, In field schema ->
           obj_get submitted' (field_key (f_id field))
           = obj_get submitted (field_key (f_id field))) ->
        validateCustomFields rt submitted' schema w
        = validateCustomFields rt submitted schema w)
  /\ (forall before field after,
        schema = (before ++ field :: after)%list ->
        f_isMandatory field = false ->
        obj_get submitted (field_key (f_id field)) = JUndefined ->
        validateCustomFields rt submitted schema w
        = validateCustomFields rt submitted (before ++ after)%list w).
Proof.
  split; [|split].
  - intros out w' Hrun.
    pose proof (validateCustomFields_origin rt submitted schema out w w' Hrun) as Horigin.
    split.
    + intros k Hk. destruct (obj_keys_lookup k out Hk) as [e He].
      destruct (Horigin k e He) as [field [value [Hin [Hkey [_ Hcase]]]]].
      split.
      * subst k. unfold schema_keys. apply in_map_iff. exists field. auto.
      * intros Habs. rewrite Habs in Hcase.
        destruct (f_type field =? "Attachment");
          destruct Hcase as [? ?]; simpl in *; discriminate.
    + intros k e He Hty.
      destruct (Horigin k e He) as [field [value [_ [_ [He' Hcase]]]]].
      subst e. simpl in Hty. rewrite Hty in Hcase. apply Hcase.
  - intros submitted' Hsame. apply validate_loop_reads_schema_keys. assumption.
  - intros before field after -> Hman Habs.
    apply validate_loop_skip_absent; assumption.
Qed.

Lemma validateCustomFields_output_keys_witness :
  validateCustomFields integer_runtime
    [("1", JStr "Hello"); ("9", JStr "not in the schema")]
    [subject_field; urgent_field] office
  = (Ok [("1", field_entry subject_field (JStr "Hello"))], office)
  /\ (In "1" (schema_keys [subject_field; urgent_field])
      /\ obj_get [("1", JStr "Hello"); ("9", JStr "not in the schema")] "1"
         <> JUndefined)
  /\ validateCustomFields integer_runtime
       [("1", JStr "Hello"); ("9", JStr "not in the schema")]
       [subject_field; urgent_field] office
     = validateCustomFields integer_runtime
         [("1", JStr "Hello"); ("9", JStr "not in the schema")]
         [subject_field] office.
Proof.
  pose proof (validateCustomFields_output_keys integer_runtime
                [("1", JStr "Hello"); ("9", JStr "not in the schema")]
                [subject_field; urgent_field] office) as [Hkeys [_ Hskip]].
  split; [reflexivity|split].
  - exact (proj1 (Hkeys [("1", field_entry subject_field (JStr "Hello"))] office
                        eq_refl)
                 "1" (or_introl eq_refl)).
  - exact (Hskip [subject_field] urgent_field [] eq_refl eq_refl eq_refl).
Defined.

(** The end-to-end case of the specification: one mandatory Text Only
    field limited to five characters. *)
Example subject_too_long :
  validateCustomFields integer_runtime [("1", JStr "TooLong")] [subject_field] office
  = (Throw (AppError 400 "Field 'Subject' exceeds character limit of 5"), office).
Proof. reflexivity. Qed.

Example subject_missing :
  validateCustomFields integer_runtime [] [subject_field] office
  = (Throw (AppError 400 "Field 'Subject' is mandatory"), office).
Proof. reflexivity. Qed.

(** Counterexample to C5 as stated: a mandatory Attachment field whose
    submitted value is an object with a fileName but no filePath passes
    [validateCustomFields] and is stored as it came. *)
Lemma attachment_without_filePath_is_accepted :
  validateCustomFields integer_runtime
    [("4", JObj [("fileName", JStr "a.pdf")])] [scan_field] office
  = (Ok [("4", field_entry scan_field (JObj [("fileName", JStr "a.pdf")]))], office).
Proof. reflexivity. Qed.

(** Validation of a schema goes field by field in schema order. *)
Lemma validate_loop_app (rt : Runtime) (submitted : JsObject)
    (before after : list CustomField) :
  forall acc w,
    validate_loop rt submitted (before ++ after)%list acc w
    = match validate_loop rt submitted before acc w with
      | (Ok acc', w') => validate_loop rt submitted after acc' w'
      | (Throw e, w') => (Throw e, w')
      end.
Proof.
  induction before as [|field before IH]; intros acc w; simpl; [reflexivity|].
  unfold bind.
  destruct (mandatory_check field _ w) as [[[]|e] w1]; [|reflexivity].
  destruct (process_field rt field _ acc w1) as [[acc1|e] w2]; [|reflexivity].
  apply IH.
Qed.

(** C5, amended.  For an Attachment field of a cabinet schema, wherever it
    stands among the other fields, [validateCustomFields] makes no check
    of fileName and filePath.  The step of the loop for the field, on any
    fields validated so far and with any fields to follow, only tests a
    mandatory field by [hasValidValue]; it then stores a truthy submitted
    value as it came, leaves a falsy one out, and goes on with the rest of
    the schema: [validateFieldValue] is not called for the field.  Hence
    in a schema whose fields before the Attachment field validate, the
    outcome is that of the rest of the schema on top of the value as
    submitted.  The check the claim describes is the Attachment case of
    [validateFieldValue]: there a value other than undefined and null
    fails unless, once unwrapped, it is an object with a truthy fileName
    and a truthy filePath. *)
Theorem attachment_field_handling (rt : Runtime) (field : CustomField)
    (submitted : JsObject) (w : World) :
  f_type field = "Attachment" ->
  (forall rest validated,
     validate_loop rt submitted (field :: rest) validated w
     = if f_isMandatory field
          && negb (hasValidValue (obj_get submitted (field_key (f_id field))))
       then (Throw (field_error field "is mandatory"), w)
       else validate_loop rt submitted rest
              (if truthy (obj_get submitted (field_key (f_id field)))
               then obj_set (field_key (f_id field))
                      (field_entry field
                         (obj_get submitted (field_key (f_id field))))
                      validated
               else validated) w)
  /\ (forall before rest validated,
        validateCustomFields rt submitted before w = (Ok validated, w) ->
        validateCustomFields rt submitted (before ++ field :: rest)%list w
        = if f_isMandatory field
             && negb (hasValidValue (obj_get submitted (field_key (f_id field))))
          then (Throw (field_error field "is mandatory"), w)
          else validate_loop rt submitted rest
                 (if truthy (obj_get submitted (field_key (f_id field)))
                  then obj_set (field_key (f_id field))
                         (field_entry field
                            (obj_get submitted (field_key (f_id field))))
                         validated
                  else validated) w)
  /\ (forall value,
        is_undefined value || is_null value = false ->
        validateFieldValue rt value field w
        = ((if negb (truthy (actual_value value))
               || negb (typeof (actual_value value) =? "object")
            then Throw (field_error field "must be a valid file upload")
            else if negb (truthy (js_get (actual_value value) "fileName"))
                    || negb (truthy (js_get (actual_value value) "filePath"))
            then Throw (field_error field "is missing required file information")
            else Ok (actual_value value)), w)).
Proof.
  intros Hty.
  assert (Hstep : forall rest validated,
            validate_loop rt submitted (field :: rest) validated w
            = if f_isMandatory field
                 && negb (hasValidValue
                            (obj_get submitted (field_key (f_id field))))
              then (Throw (field_error field "is mandatory"), w)
              else validate_loop rt submitted rest
                     (if truthy (obj_get submitted (field_key (f_id field)))
                      then obj_set (field_key (f_id field))
                             (field_entry field
                                (obj_get submitted (field_key (f_id field))))
                             validated
                      else validated) w).
  { intros rest validated. cbn [validate_loop].
    unfold mandatory_check, process_field, bind, throw_if, throw, ret.
    rewrite Hty. cbn [String.eqb Ascii.eqb Bool.eqb].
    destruct (f_isMandatory field); cbn [andb];
      [destruct (hasValidValue (obj_get submitted (field_key (f_id field))));
       cbn [negb]|];
      destruct (truthy (obj_get submitted (field_key (f_id field))));
      reflexivity. }
  split; [exact Hstep|split].
  - intros before rest validated Hbefore. unfold validateCustomFields in *.
    rewrite validate_loop_app, Hbefore. apply Hstep.
  - intros value Hv. unfold validateFieldValue. rewrite Hv, Hty. simpl.
    unfold bind, throw_if.
    destruct (negb (truthy (actual_value value))
              || negb (typeof (actual_value value) =? "object")); [reflexivity|].
    destruct (negb (truthy (js_get (actual_value value) "fileName"))
              || negb (truthy (js_get (actual_value value) "filePath")));
      reflexivity.
Qed.

Lemma attachment_field_handling_witness :
  validateCustomFields integer_runtime
    [("1", JStr "Hello"); ("4", JObj [("fileName", JStr "a.pdf")])]
    [subject_field; scan_field; urgent_field] office
  = (Ok [("1", field_entry subject_field (JStr "Hello"));
         ("4", field_entry scan_field (JObj [("fileName", JStr "a.pdf")]))], office)
  /\ validateFieldValue integer_runtime (JObj [("fileName", JStr "a.pdf")])
       scan_field office
     = (Throw (field_error scan_field "is missing required file information"), office).
Proof.
  pose proof (attachment_field_handling integer_runtime scan_field
                [("1", JStr "Hello"); ("4", JObj [("fileName", JStr "a.pdf")])]
                office eq_refl) as [_ [H1 H2]].
  split.
  - exact (H1 [subject_field] [urgent_field]
              [("1", field_entry subject_field (JStr "Hello"))] eq_refl).
  - exact (H2 (JObj [("fileName", JStr "a.pdf")]) eq_refl).
Defined.

Lemma hasValue_false_iff (v : JsValue) :
  hasValue v = false <-> v = JUndefined \/ v = JNull \/ v = JStr "".
Proof.
  unfold hasValue. split.
  - destruct v as [| | b | n | s | items | props]; simpl; auto; try discriminate.
    destruct (String.eqb_spec s ""); simpl; [subst; auto|discriminate].
  - intros [->|[->| ->]]; reflexivity.
Qed.

(** C10. For a mandatory field that is not an Attachment, the presence
    check of [validateCustomFields] throws (Field ... is mandatory) exactly
    when the submitted value is undefined, null or the empty string; any
    other value passes the check and goes on to [validateFieldValue].  In
    particular [false] for a mandatory Yes/No field and [0] for a mandatory
    Number Only field are accepted and stored. *)
Theorem mandatory_presence_check (rt : Runtime) (field : CustomField)
    (submitted : JsObject) (rest : list CustomField) (v : JsValue) (w : World) :
  f_isMandatory field = true ->
  f_type field <> "Attachment" ->
  obj_get submitted (field_key (f_id field)) = v ->
  (mandatory_check field v w = (Throw (field_error field "is mandatory"), w)
   <-> v = JUndefined \/ v = JNull \/ v = JStr "")
  /\ (~ (v = JUndefined \/ v = JNull \/ v = JStr "") ->
      mandatory_check field v w = (Ok tt, w))
  /\ (v = JUndefined \/ v = JNull \/ v = JStr "" ->
      validateCustomFields rt submitted (field :: rest) w
      = (Throw (field_error field "is mandatory"), w))
  /\ (~ (v = JUndefined \/ v = JNull \/ v = JStr "") ->
      validateCustomFields rt submitted (field :: rest) w
      = (value <- validateFieldValue rt v field ;;
         validate_loop rt submitted rest
           [(field_key (f_id field), field_entry field value)]) w)
  /\ (f_type field = "Yes/No" -> v = JBool false ->
      validateCustomFields rt submitted [field] w
      = (Ok [(field_key (f_id field), field_entry field (JBool false))], w))
  /\ (f_type field = "Number Only" -> v = JNum (number_of_Z 0) ->
      validateCustomFields rt submitted [field] w
      = (Ok [(field_key (f_id field), field_entry field (JNum (number_of_Z 0)))], w)).
Proof.
  intros Hman Hty Hv. apply String.eqb_neq in Hty.
  assert (Hcheck : mandatory_check field v w
                   = (if hasValue v then Ok tt
                      else Throw (field_error field "is mandatory"), w)).
  { unfold mandatory_check, throw_if. rewrite Hman, Hty.
    destruct (hasValue v); reflexivity. }
  assert (Hpresent : ~ (v = JUndefined \/ v = JNull \/ v = JStr "") ->
                     hasValue v = true).
  { intros Hn. destruct (hasValue v) eqn:E; [reflexivity|].
    apply hasValue_false_iff in E. contradiction. }
  assert (Hpass : forall others,
      ~ (v = JUndefined \/ v = JNull \/ v = JStr "") ->
      validateCustomFields rt submitted (field :: others) w
      = (value <- validateFieldValue rt v field ;;
         validate_loop rt submitted others
           [(field_key (f_id field), field_entry field value)]) w).
  { intros others Hn. unfold validateCustomFields. simpl. rewrite Hv.
    unfold bind at 1. rewrite Hcheck, (Hpresent Hn).
    unfold process_field. rewrite Hty.
    assert (Hdef : is_undefined v = false).
    { destruct v; try reflexivity. exfalso. apply Hn. auto. }
    rewrite Hdef. simpl. unfold bind, ret.
    destruct (validateFieldValue rt v field w) as [[value|err] w1]; reflexivity. }
  repeat split.
  - rewrite Hcheck. intros H. apply hasValue_false_iff.
    destruct (hasValue v); [discriminate|reflexivity].
  - intros H. rewrite Hcheck. apply hasValue_false_iff in H. rewrite H. reflexivity.
  - intros Hn. rewrite Hcheck, (Hpresent Hn). reflexivity.
  - intros H. unfold validateCustomFields. simpl. rewrite Hv.
    unfold bind at 1. rewrite Hcheck.
    apply hasValue_false_iff in H. rewrite H. reflexivity.
  - apply Hpass.
  - intros Hyn ->. rewrite Hpass.
    + unfold validateFieldValue. rewrite Hyn. reflexivity.
    + intros [H|[H|H]]; discriminate.
  - intros Hno ->. rewrite Hpass.
    + unfold validateFieldValue. rewrite Hno. reflexivity.
    + intros [H|[H|H]]; discriminate.
Qed.

Lemma mandatory_presence_check_witness :
  validateCustomFields integer_runtime [("2", JBool false)] [confirmed_field] office
  = (Ok [("2", field_entry confirmed_field (JBool false))], office).
Proof.
  assert (Hty : f_type confirmed_field <> "Attachment") by discriminate.
  pose proof (mandatory_presence_check integer_runtime confirmed_field
                [("2", JBool false)] [] (JBool false) office eq_refl Hty eq_refl)
    as [_ [_ [_ [_ [Hyes _]]]]].
  exact (Hyes eq_refl eq_refl).
Defined.

(* ================================================================== *)
(** ** PDF fallback *)

Lemma Math_round_div_nearest (a b : Z) :
  (0 < b)%Z ->
  (2 * a - b < 2 * b * Math_round_div a b <= 2 * a + b)%Z.
Proof.
  intros Hb. unfold Math_round_div.
  pose proof (Z.mul_div_le (2 * a + b) (2 * b) ltac:(lia)).
  pose proof (Z.mul_succ_div_gt (2 * a + b) (2 * b) ltac:(lia)).
  lia.
Qed.

(** C8. [processPdfFile] never raises: it returns what the extraction
    returned, and when the extraction throws it returns the fallback
    (extractedText PDF text extraction failed, the two fields Document Name
    and File Size, pageCount 1), whose size string is the byte size over
    1024 rounded to the nearest integer, followed by KB; 2048 bytes give
    2 KB. *)
Theorem processPdfFile_never_raises (host : Host) (file : MulterFile) (w : World) :
  (exists result w', processPdfFile host file w = (Ok result, w'))
  /\ (forall e w', extractPdfContent host file w = (Throw e, w') ->
        processPdfFile host file w = (Ok (pdf_fallback file), w'))
  /\ (forall r w', extractPdfContent host file w = (Ok r, w') ->
        processPdfFile host file w = (Ok r, w'))
  /\ pdf_fallback file
     = mkPdfExtractResult "PDF text extraction failed"
         [("Document Name", originalname file);
          ("File Size", string_of_Z (Math_round_div (size file) 1024) ++ " KB")]
         1
  /\ (size file - 512 < 1024 * Math_round_div (size file) 1024 <= size file + 512)%Z
  /\ (size file = 2048%Z ->
      extractedFields (pdf_fallback file)
      = [("Document Name", originalname file); ("File Size", "2 KB")]).
Proof.
  repeat split.
  - unfold processPdfFile, try_catch.
    destruct (extractPdfContent host file w) as [[r|e] w1]; unfold ret; eauto.
  - intros e w' H. unfold processPdfFile, try_catch. rewrite H. reflexivity.
  - intros r w' H. unfold processPdfFile, try_catch. rewrite H. reflexivity.
  - pose proof (Math_round_div_nearest (size file) 1024 ltac:(lia)). lia.
  - pose proof (Math_round_div_nearest (size file) 1024 ltac:(lia)). lia.
  - intros Hsize. unfold pdf_fallback. rewrite Hsize. reflexivity.
Qed.

Lemma processPdfFile_never_raises_witness :
  processPdfFile failing_pdf_host corrupt_pdf office
  = (Ok (mkPdfExtractResult "PDF text extraction failed"
           [("Document Name", "scan 01.pdf"); ("File Size", "2 KB")] 1), office).
Proof.
  pose proof (processPdfFile_never_raises failing_pdf_host corrupt_pdf office)
    as [_ [Hfail _]].
  exact (Hfail (AppError 500 "Failed to process PDF file") office eq_refl).
Defined.

(* ================================================================== *)
(** ** Record creation *)

Lemma store_upload_db (host : Host) (pdf : MulterFile) (w : World) :
  db (snd (store_upload host pdf w)) = db w
  /\ tx (snd (store_upload host pdf w)) = tx w
  /\ uuids (snd (store_upload host pdf w)) = uuids w.
Proof.
  cbv beta iota zeta delta [store_upload bind try_catch extractPdfContent gets
                              writeFileAsync ret throw modify].
  destruct (pdf_extraction host pdf w); cbv beta iota;
    match goal with
    | |- context [writeFile_failure host ?p] => destruct (writeFile_failure host p)
    end; simpl; auto.
Qed.

Lemma persist_pdf_run (host : Host) (record : RecordRow)
    (pdfFile : option MulterFile) (w : World) :
  exists w', persist_pdf host record pdfFile w = (Ok tt, w')
    /\ records (db w') = records (db w)
    /\ recordVersions (db w') = recordVersions (db w)
    /\ recordOtherVersions (db w') = recordOtherVersions (db w)
    /\ tx w' = tx w.
Proof.
  unfold persist_pdf. destruct pdfFile as [pdf|]; [|exists w; auto].
  unfold try_catch, bind.
  destruct (store_upload_db host pdf w) as [Hdb [Htx _]].
  destruct (store_upload host pdf w) as [[stored|e] w1]; simpl in *.
  - eexists. split; [reflexivity|]. simpl. rewrite Hdb, Htx. auto.
  - exists w1. rewrite Hdb, Htx. auto.
Qed.

(** What a successful [createRecord] did. *)
Lemma createRecord_ok (rt : Runtime) (host : Host) (data : CreateRecordData)
    (w w' : World) (record : RecordRow) :
  createRecord rt host data w = (Ok record, w') ->
  all_whitespace (c_title data) = false
  /\ r_title record = trim (c_title data)
  /\ r_version record = 1%Z
  /\ records (db w') = (records (db w) ++ [record])%list
  /\ recordVersions (db w') = recordVersions (db w).
Proof.
  unfold createRecord. unfold bind at 1. unfold throw_if.
  destruct ((c_title data =? "") || (trim (c_title data) =? "")) eqn:Htitle;
    [discriminate|].
  apply orb_false_iff in Htitle as [_ Htrim]. apply String.eqb_neq in Htrim.
  unfold ret at 1. unfold bind at 1, Cabinet_findByPk, gets.
  destruct (find _ (cabinets (db w))) as [cabinet|]; [|discriminate].
  unfold bind at 1, User_findByPk, gets.
  destruct (find _ (users (db w))) as [creator|]; [|discriminate].
  unfold bind at 1.
  destruct (validateCustomFields_pure rt (c_customFields data)
              (cab_customFields cabinet)) as [r Hr].
  rewrite Hr. destruct r as [validated|e]; [|discriminate].
  unfold bind at 1, transaction_begin, modify. unfold try_catch.
  unfold bind at 1, fresh_id. unfold bind at 1, modify_db, modify.
  unfold bind at 1.
  match goal with
  | |- context [persist_pdf host ?r ?p ?w0] =>
      destruct (persist_pdf_run host r p w0) as [w2 [Hp [Hrec [Hver _]]]];
      rewrite Hp
  end.
  unfold bind, transaction_commit, modify, ret. intros H. inversion H; subst; clear H.
  simpl in *. repeat split; try assumption.
  destruct (all_whitespace (c_title data)) eqn:E; [|reflexivity].
  exfalso. apply Htrim, trim_all_whitespace, E.
Qed.



(* ================================================================== *)
(** ** Record versions *)

Lemma latest_by_None {A : Type} (version : A -> Z) (rows : list A) :
  latest_by version rows = None -> rows = [].
Proof.
  destruct rows as [|r rows]; [reflexivity|]. simpl.
  destruct (latest_by version rows) as [r'|]; [|discriminate].
  destruct (version r <? version r')%Z; discriminate.
Qed.

(** [latest_by] returns a row of the list, of greatest version. *)
Lemma latest_by_Some {A : Type} (version : A -> Z) (rows : list A) (m : A) :
  latest_by version rows = Some m ->
  In m rows /\ forall r, In r rows -> (version r <= version m)%Z.
Proof.
  revert m. induction rows as [|r rows IH]; intros m; simpl; [discriminate|].
  destruct (latest_by version rows) as [r'|] eqn:E.
  - destruct (IH r' eq_refl) as [Hin Hmax].
    destruct (version r <? version r')%Z eqn:Hlt; intros H; inversion H; subst m.
    + apply Z.ltb_lt in Hlt. split; [right; assumption|].
      intros x [<-|Hx]; [lia|auto].
    + apply Z.ltb_ge in Hlt. split; [left; reflexivity|].
      intros x [<-|Hx]; [lia|]. specialize (Hmax x Hx). lia.
  - intros H. inversion H; subst m. apply latest_by_None in E. subst rows.
    split; [left; reflexivity|]. intros x [<-|[]]. lia.
Qed.

(** A row above all the others, added last, becomes the latest. *)
Lemma latest_by_app_above {A : Type} (version : A -> Z) (rows : list A) (v : A) :
  (forall r, In r rows -> (version r < version v)%Z) ->
  exists m, latest_by version (rows ++ [v])%list = Some m /\ version m = version v.
Proof.
  induction rows as [|r rows IH]; intros Habove; simpl.
  - exists v. split; reflexivity.
  - destruct IH as [m [Hm Hv]]; [intros x Hx; apply Habove; right; assumption|].
    rewrite Hm. destruct (version r <? version m)%Z eqn:Hlt.
    + exists m. split; [reflexivity|assumption].
    + apply Z.ltb_ge in Hlt. specialize (Habove r (or_introl eq_refl)). lia.
Qed.

Lemma find_map_update (id : Id) (f : RecordRow -> RecordRow) (rows : list RecordRow) :
  (forall r, r_id (f r) = r_id r) ->
  find (fun r => r_id r =? id) (map (fun r => if r_id r =? id then f r else r) rows)
  = option_map f (find (fun r => r_id r =? id) rows).
Proof.
  intros Hid. induction rows as [|r rows IH]; simpl; [reflexivity|].
  destruct (r_id r =? id) eqn:E; simpl.
  - rewrite Hid, E. reflexivity.
  - rewrite E. exact IH.
Qed.

Lemma filter_swap {A : Type} (p q : A -> bool) (l : list A) :
  filter p (filter q l) = filter q (filter p l).
Proof.
  induction l as [|a l IH]; simpl; [reflexivity|].
  destruct (p a) eqn:Hp, (q a) eqn:Hq; simpl; rewrite ?Hp, ?Hq, IH; reflexivity.
Qed.

Lemma next_version_spec (recordId : Id) (d : Db) :
  (versions_of recordId d = [] -> next_version recordId d = 1%Z)
  /\ (forall v, In v (versions_of recordId d) ->
        (rv_version v < next_version recordId d)%Z)
  /\ (versions_of recordId d <> [] ->
      exists v, In v (versions_of recordId d)
                /\ next_version recordId d = (rv_version v + 1)%Z).
Proof.
  unfold next_version.
  destruct (latest_by rv_version (versions_of recordId d)) as [m|] eqn:E.
  - destruct (latest_by_Some _ _ _ E) as [Hin Hmax]. split; [|split].
    + intros Hnil. rewrite Hnil in E. discriminate.
    + intros v Hv. specialize (Hmax v Hv). lia.
    + intros _. exists m. auto.
  - apply latest_by_None in E. rewrite E. split; [|split].
    + reflexivity.
    + intros v [].
    + intros H. contradiction.
Qed.

(** One call of [createNewVersion] on an existing record. *)
Lemma createNewVersion_run (recordId : Id) (versionData : VersionData) (w : World)
    (record : RecordRow) :
  find (fun r => r_id r =? recordId) (records (db w)) = Some record ->
  exists version w',
    createNewVersion recordId versionData w = (Ok version, w')
    /\ rv_recordId version = recordId
    /\ rv_version version = next_version recordId (db w)
    /\ rv_file version = vd_file versionData
    /\ recordVersions (db w') = (recordVersions (db w) ++ [version])%list
    /\ find (fun r => r_id r =? recordId) (records (db w'))
       = Some (set_active_file (vd_file versionData) (next_version recordId (db w))
                               (vd_uploadedBy versionData) record).
Proof.
  intros Hfind.
  assert (Hid : r_id record = recordId).
  { apply find_some in Hfind as [_ H]. apply String.eqb_eq. exact H. }
  cbv beta iota zeta delta [createNewVersion bind Record_findByPk gets
    RecordVersion_findLatest fresh_id modify_db modify Record_update ret].
  rewrite Hfind. cbv beta iota.
  eexists. eexists. split; [reflexivity|]. simpl.
  repeat split.
  rewrite Hid. rewrite find_map_update by reflexivity.
  rewrite Hfind. reflexivity.
Qed.

Lemma versions_of_app (recordId : Id) (d : Db) (d' : Db) (v : RecordVersion) :
  recordVersions d' = (recordVersions d ++ [v])%list ->
  rv_recordId v = recordId ->
  versions_of recordId d' = (versions_of recordId d ++ [v])%list.
Proof.
  intros Hrows Hid. unfold versions_of. rewrite Hrows, filter_app. simpl.
  rewrite Hid, String.eqb_refl. reflexivity.
Qed.

Lemma next_version_after (recordId : Id) (d d' : Db) (v : RecordVersion) :
  versions_of recordId d' = (versions_of recordId d ++ [v])%list ->
  rv_version v = next_version recordId d ->
  next_version recordId d' = (next_version recordId d + 1)%Z.
Proof.
  intros Hrows Hv.
  destruct (latest_by_app_above rv_version (versions_of recordId d) v) as [m [Hm Hmv]].
  - intros r Hr. rewrite Hv. apply next_version_spec. assumption.
  - unfold next_version at 1. rewrite Hrows, Hm, Hmv, Hv. reflexivity.
Qed.

Lemma createNewVersion_calls_run (recordId : Id) (calls : list VersionData) :
  forall (w : World) (record : RecordRow),
    find (fun r => r_id r =? recordId) (records (db w)) = Some record ->
    exists versions w' record',
      createNewVersion_calls recordId calls w = (Ok versions, w')
      /\ map rv_version versions
         = numbers_from (next_version recordId (db w)) (List.length calls)
      /\ map rv_file versions = map vd_file calls
      /\ find (fun r => r_id r =? recordId) (records (db w')) = Some record'
      /\ next_version recordId (db w')
         = (next_version recordId (db w) + Z.of_nat (List.length calls))%Z
      /\ (calls <> [] ->
          r_version record' = (next_version recordId (db w')  - 1)%Z
          /\ r_file record' = vd_file (last calls (mkVersionData no_file "" None))).
Proof.
  induction calls as [|versionData rest IH]; intros w record Hfind.
  - exists [], w, record. simpl. unfold ret.
    repeat split; try assumption; try lia; try congruence.
  - destruct (createNewVersion_run recordId versionData w record Hfind)
      as [version [w1 [Hrun [Hrid [Hnum [Hfile [Hrows Hfind1]]]]]]].
    pose proof (versions_of_app recordId (db w) (db w1) version Hrows Hrid) as Hvs.
    pose proof (next_version_after recordId (db w) (db w1) version Hvs Hnum) as Hnext.
    destruct (IH w1 _ Hfind1)
      as [versions [w' [record' [Hruns [Hnums [Hfiles [Hfind' [Hnext' Hlast]]]]]]]].
    exists (version :: versions), w', record'.
    simpl createNewVersion_calls. unfold bind at 1. rewrite Hrun.
    unfold bind at 1. rewrite Hruns. unfold ret.
    split; [reflexivity|].
    split; [simpl; rewrite Hnums, Hnum, Hnext; reflexivity|].
    split; [simpl; rewrite Hfiles, Hfile; reflexivity|].
    split; [assumption|].
    split; [rewrite Hnext', Hnext; simpl List.length; lia|].
    intros _. destruct rest as [|next rest'].
    + simpl in Hruns. unfold ret in Hruns. inversion Hruns; subst versions w'.
      rewrite Hfind1 in Hfind'. inversion Hfind'; subst record'.
      rewrite Hnext. simpl. split; [lia|reflexivity].
    + change (last (versionData :: next :: rest') (mkVersionData no_file "" None))
        with (last (next :: rest') (mkVersionData no_file "" None)).
      apply Hlast. discriminate.
Qed.

(** C1. On an existing record, [createNewVersion] gives the new
    RecordVersion the number [next_version]: 1 when the record has no
    version, otherwise one more than the greatest version number the record
    has; the row is added to the record's versions, and the Record row then
    carries the new entry's file descriptor and version number.  Hence N
    calls on a record without versions return the numbers 1, 2, ..., N in
    call order, and the Record ends with version N and the last call's
    file descriptor. *)
Theorem createNewVersion_numbering (recordId : Id) (w : World) (record : RecordRow) :
  find (fun r => r_id r =? recordId) (records (db w)) = Some record ->
  (forall versionData, exists version w' record',
     createNewVersion recordId versionData w = (Ok version, w')
     /\ rv_version version = next_version recordId (db w)
     /\ versions_of recordId (db w') = (versions_of recordId (db w) ++ [version])%list
     /\ find (fun r => r_id r =? recordId) (records (db w')) = Some record'
     /\ rv_file version = vd_file versionData
     /\ r_file record' = rv_file version
     /\ r_version record' = rv_version version)
  /\ ((versions_of recordId (db w) = [] -> next_version recordId (db w) = 1%Z)
      /\ (forall v, In v (versions_of recordId (db w)) ->
            (rv_version v < next_version recordId (db w))%Z)
      /\ (versions_of recordId (db w) <> [] ->
          exists v, In v (versions_of recordId (db w))
                    /\ next_version recordId (db w) = (rv_version v + 1)%Z))
  /\ (versions_of recordId (db w) = [] ->
      forall calls, exists versions w' record',
        createNewVersion_calls recordId calls w = (Ok versions, w')
        /\ map rv_version versions = numbers_from 1 (List.length calls)
        /\ find (fun r => r_id r =? recordId) (records (db w')) = Some record'
        /\ (calls <> [] ->
            r_version record' = Z.of_nat (List.length calls)
            /\ r_file record' = vd_file (last calls (mkVersionData no_file "" None)))).
Proof.
  intros Hfind. split; [|split].
  - intros versionData.
    destruct (createNewVersion_run recordId versionData w record Hfind)
      as [version [w' [Hrun [Hrid [Hnum [Hfile [Hrows Hfind']]]]]]].
    exists version, w'. eexists. split; [exact Hrun|].
    split; [exact Hnum|].
    split; [apply versions_of_app; assumption|].
    split; [exact Hfind'|].
    split; [exact Hfile|]. simpl. rewrite Hfile, Hnum. split; reflexivity.
  - apply next_version_spec.
  - intros Hfresh calls.
    destruct (createNewVersion_calls_run recordId calls w record Hfind)
      as [versions [w' [record' [Hruns [Hnums [_ [Hfind' [Hnext Hlast]]]]]]]].
    pose proof (proj1 (next_version_spec recordId (db w)) Hfresh) as Hone.
    exists versions, w', record'. rewrite Hone in Hnums, Hnext.
    split; [exact Hruns|]. split; [exact Hnums|]. split; [exact Hfind'|].
    intros Hne. destruct (Hlast Hne) as [Hv Hf]. split; [lia|exact Hf].
Qed.

Lemma createNewVersion_numbering_witness :
  exists versions w' record',
    createNewVersion_calls "rec-1" [upload_a; upload_b] office = (Ok versions, w')
    /\ map rv_version versions = [1%Z; 2%Z]
    /\ find (fun r => r_id r =? "rec-1") (records (db w')) = Some record'
    /\ ([upload_a; upload_b] <> [] ->
        r_version record' = 2%Z /\ r_file record' = descriptor_b).
Proof.
  exact (proj2 (proj2 (createNewVersion_numbering "rec-1" office approved_record eq_refl))
               eq_refl [upload_a; upload_b]).
Defined.

(** [deleteVersion] either throws and leaves the world as it was, or finds
    the version, sees that it is not the only one, and deletes the rows of
    its primary key. *)
Lemma deleteVersion_cases (recordId versionId userId : Id) (w : World) :
  (exists e, deleteVersion recordId versionId userId w = (Throw e, w)
             /\ In e deleteVersion_errors)
  \/ (exists version w',
        find (fun v => (rv_id v =? versionId) && (rv_recordId v =? recordId))
             (recordVersions (db w)) = Some version
        /\ List.length (versions_of recordId (db w)) <> 1%nat
        /\ deleteVersion recordId versionId userId w = (Ok true, w')
        /\ recordVersions (db w')
           = filter (fun v => negb (rv_id v =? rv_id version)) (recordVersions (db w))).
Proof.
  cbv beta iota zeta delta [deleteVersion bind Record_findByPk Cabinet_findByPk gets
    throw_if throw ret modify_db modify Record_update].
  destruct (find (fun r => r_id r =? recordId) (records (db w))) as [record|];
    [|left; eexists; split; [reflexivity|simpl; auto 6]].
  destruct (find (fun c => cab_id c =? r_cabinetId record) (cabinets (db w)))
    as [cabinet|]; [|left; eexists; split; [reflexivity|simpl; auto 6]].
  destruct (negb (r_creatorId record =? userId)
            && negb (cab_createdById cabinet =? userId)); [left; eexists; split; [reflexivity|simpl; auto 6]|].
  destruct (find (fun v => (rv_id v =? versionId) && (rv_recordId v =? recordId))
                 (recordVersions (db w))) as [version|]; [|left; eexists; split; [reflexivity|simpl; auto 6]].
  destruct (List.length (versions_of recordId (db w)) =? 1)%nat eqn:Hcount;
    [left; eexists; split; [reflexivity|simpl; auto 6]|].
  apply Nat.eqb_neq in Hcount.
  right. exists version.
  destruct (rv_version version =? r_version record)%Z.
  - destruct (latest_by rv_version _) as [previous|];
      eexists; (split; [reflexivity|split; [assumption|split; reflexivity]]).
  - eexists. split; [reflexivity|split; [assumption|split; reflexivity]].
Qed.

Lemma deleteVersion_only_version (recordId versionId userId : Id) (w : World)
    (record : RecordRow) (cabinet : Cabinet) (version : RecordVersion) :
  find (fun r => r_id r =? recordId) (records (db w)) = Some record ->
  find (fun c => cab_id c =? r_cabinetId record) (cabinets (db w)) = Some cabinet ->
  r_creatorId record = userId \/ cab_createdById cabinet = userId ->
  find (fun v => (rv_id v =? versionId) && (rv_recordId v =? recordId))
       (recordVersions (db w)) = Some version ->
  List.length (versions_of recordId (db w)) = 1%nat ->
  deleteVersion recordId versionId userId w
  = (Throw (AppError 400 "Cannot delete the only version of the record"), w).
Proof.
  intros Hrecord Hcabinet Hperm Hversion Hcount.
  cbv beta iota zeta delta [deleteVersion bind Record_findByPk Cabinet_findByPk gets
    throw_if throw ret].
  rewrite Hrecord, Hcabinet.
  assert (Hallowed : negb (r_creatorId record =? userId)
                     && negb (cab_createdById cabinet =? userId) = false).
  { destruct Hperm as [<-|<-]; rewrite String.eqb_refl; simpl;
      [reflexivity|apply andb_false_r]. }
  rewrite Hallowed, Hversion, Hcount. reflexivity.
Qed.

Lemma another_version_survives (rows : list RecordVersion) (x : RecordVersion) :
  NoDup (map rv_id rows) ->
  In x rows ->
  List.length rows <> 1%nat ->
  filter (fun v => negb (rv_id v =? rv_id x)) rows <> [].
Proof.
  intros Hnodup Hin Hlen.
  destruct rows as [|a [|b rows]]; [destruct Hin|simpl in Hlen; congruence|].
  simpl in Hnodup. inversion Hnodup as [|? ? Ha _]; subst.
  simpl. destruct (String.eqb_spec (rv_id a) (rv_id x)) as [Hax|Hax]; simpl;
    [|discriminate].
  destruct (String.eqb_spec (rv_id b) (rv_id x)) as [Hbx|Hbx]; simpl;
    [|discriminate].
  exfalso. apply Ha. left. congruence.
Qed.

(** Counterexample to C3 as stated: [createRecord] succeeds and the record
    it stores has no RecordVersion. *)
Lemma created_record_has_no_version :
  fst (createRecord integer_runtime failing_pdf_host foo_data office) = Ok foo_record
  /\ In foo_record
        (records (db (snd (createRecord integer_runtime failing_pdf_host foo_data office))))
  /\ versions_of (r_id foo_record)
        (db (snd (createRecord integer_runtime failing_pdf_host foo_data office))) = [].
Proof. split; [reflexivity|split; [right; left; reflexivity|reflexivity]]. Qed.

(** C3, amended.  [createRecord] stores the record at version 1 and adds
    no RecordVersion row, so a new record has none until [createNewVersion]
    is called.  [deleteVersion] on a record that has exactly one
    RecordVersion always throws one of [deleteVersion_errors] and deletes
    nothing; the error is 400 (Cannot delete the only version of the
    record) when the record and its cabinet exist, the caller is the
    creator or the cabinet owner and the version id is that of a version of
    the record.  With distinct primary
    keys, a record that has a RecordVersion still has one after any call of
    [deleteVersion]. *)
Theorem record_versions_floor (rt : Runtime) (host : Host) (w : World) :
  (forall data record w',
     createRecord rt host data w = (Ok record, w') ->
     r_version record = 1%Z /\ recordVersions (db w') = recordVersions (db w))
  /\ (forall recordId versionId userId,
        List.length (versions_of recordId (db w)) = 1%nat ->
        (exists e, deleteVersion recordId versionId userId w = (Throw e, w)
                   /\ In e deleteVersion_errors)
        /\ (forall record cabinet version,
              find (fun r => r_id r =? recordId) (records (db w)) = Some record ->
              find (fun c => cab_id c =? r_cabinetId record) (cabinets (db w))
              = Some cabinet ->
              r_creatorId record = userId \/ cab_createdById cabinet = userId ->
              find (fun v => (rv_id v =? versionId) && (rv_recordId v =? recordId))
                   (recordVersions (db w)) = Some version ->
              deleteVersion recordId versionId userId w
              = (Throw (AppError 400 "Cannot delete the only version of the record"),
                 w)))
  /\ (forall recordId versionId userId outcome w',
        deleteVersion recordId versionId userId w = (outcome, w') ->
        NoDup (map rv_id (versions_of recordId (db w))) ->
        versions_of recordId (db w) <> [] ->
        versions_of recordId (db w') <> []).
Proof.
  split; [|split].
  - intros data record w' Hrun.
    destruct (createRecord_ok rt host data w w' record Hrun)
      as [_ [_ [Hversion [_ Hrows]]]]. auto.
  - intros recordId versionId userId Hcount. split.
    + destruct (deleteVersion_cases recordId versionId userId w)
        as [Hthrow|[version [w' [_ [Hne _]]]]]; [assumption|contradiction].
    + intros record cabinet version Hrecord Hcabinet Hperm Hversion.
      eapply deleteVersion_only_version; eauto.
  - intros recordId versionId userId outcome w' Hrun Hnodup Hsome.
    destruct (deleteVersion_cases recordId versionId userId w)
      as [[e Hthrow]|[version [w1 [Hversion [Hne [Hok Hrows]]]]]].
    + destruct Hthrow as [Hthrow _].
      rewrite Hthrow in Hrun. inversion Hrun; subst. assumption.
    + rewrite Hok in Hrun. inversion Hrun; subst outcome w1.
      unfold versions_of at 1. rewrite Hrows, filter_swap.
      apply another_version_survives; try assumption.
      apply find_some in Hversion as [Hin Hpred].
      apply andb_true_iff in Hpred as [_ Hrid].
      apply filter_In. split; assumption.
Qed.

Lemma record_versions_floor_witness :
  deleteVersion "rec-1" "uuid-0" "creator-1" office_with_one_version
  = (Throw (AppError 400 "Cannot delete the only version of the record"),
     office_with_one_version).
Proof.
  exact (proj2 (proj1 (proj2 (record_versions_floor integer_runtime failing_pdf_host
                                office_with_one_version))
                      "rec-1" "uuid-0" "creator-1" eq_refl)
               _ _ _ eq_refl eq_refl (or_introl eq_refl) eq_refl).
Defined.

(* ================================================================== *)
(** ** Rejection *)

(** Counterexample to C2 as stated: rec-1 is approved, not pending, and a
    caller who is neither approver nor full member gets 403, not 400. *)
Lemma reject_by_outsider_is_forbidden :
  find (fun r => r_id r =? "rec-1") (records (db office)) = Some approved_record
  /\ r_status approved_record = APPROVED
  /\ fst (rejectRecord failing_pdf_host "rec-1" "outsider-1" None None None office)
     = Throw (AppError 403 "User is not authorized to reject this record").
Proof. repeat split. Qed.

(** C2, amended.  The authorization check comes first.  On a record whose
    status is not pending, [rejectRecord] fails with 400 (Only pending
    records can be rejected) for every caller who is an approver of the
    cabinet or a member_full of it, and with 403 (User is not authorized to
    reject this record) for every other caller; in both cases the database
    is left as it was. *)
Theorem rejectRecord_not_pending (host : Host) (recordId userId : Id)
    (note comments : option string) (data : option RecordPatch) (w : World)
    (record : RecordRow) (cabinet : Cabinet) :
  find (fun r => r_id r =? recordId) (records (db w)) = Some record ->
  find (fun c => cab_id c =? r_cabinetId record) (cabinets (db w)) = Some cabinet ->
  r_status record <> PENDING ->
  fst (rejectRecord host recordId userId note comments data w)
  = Throw (if may_reject (db w) record cabinet userId
           then AppError 400 "Only pending records can be rejected"
           else AppError 403 "User is not authorized to reject this record")
  /\ db (snd (rejectRecord host recordId userId note comments data w)) = db w.
Proof.
  intros Hrecord Hcabinet Hstatus.
  assert (Hnot : RecordStatus_eqb (r_status record) PENDING = false).
  { destruct (r_status record); try reflexivity. contradiction. }
  cbv beta iota zeta delta [rejectRecord bind try_catch transaction_begin modify
    Record_findByPk Cabinet_findByPk CabinetMember_findOne gets throw_if throw ret
    transaction_rollback may_reject].
  cbn [db with_tx with_db tx].
  rewrite Hrecord. cbv beta iota. cbn [db with_tx with_db tx].
  rewrite Hcabinet. cbv beta iota. cbn [db with_tx with_db tx].
  rewrite Hcabinet. cbv beta iota.
  destruct (isApprover cabinet userId); cbn [negb orb]; cbv beta iota.
  - rewrite Hnot. split; reflexivity.
  - cbn [db with_tx with_db tx].
    destruct (find _ (cabinetMembers (db w))) as [member|]; cbv beta iota.
    + rewrite Hnot. split; reflexivity.
    + split; reflexivity.
Qed.

Lemma rejectRecord_not_pending_witness :
  fst (rejectRecord failing_pdf_host "rec-1" "approver-1" None None None office)
  = Throw (AppError 400 "Only pending records can be rejected")
  /\ db (snd (rejectRecord failing_pdf_host "rec-1" "approver-1" None None None office))
     = db office.
Proof.
  assert (Hstatus : r_status approved_record <> PENDING) by discriminate.
  exact (rejectRecord_not_pending failing_pdf_host "rec-1" "approver-1" None None None
           office approved_record invoices eq_refl eq_refl Hstatus).
Defined.

(* ================================================================== *)
(** ** Snapshots *)

Lemma next_snapshot_version_spec (recordId : Id) (d : Db) :
  (snapshots_of recordId d = [] -> next_snapshot_version recordId d = 2%Z)
  /\ (forall v, In v (snapshots_of recordId d) ->
        (ov_version v < next_snapshot_version recordId d)%Z)
  /\ (snapshots_of recordId d <> [] ->
      exists v, In v (snapshots_of recordId d)
                /\ next_snapshot_version recordId d = (ov_version v + 1)%Z).
Proof.
  unfold next_snapshot_version.
  destruct (latest_by ov_version (snapshots_of recordId d)) as [m|] eqn:E.
  - destruct (latest_by_Some _ _ _ E) as [Hin Hmax]. split; [|split].
    + intros Hnil. rewrite Hnil in E. discriminate.
    + intros v Hv. specialize (Hmax v Hv). lia.
    + intros _. exists m. auto.
  - apply latest_by_None in E. rewrite E. split; [|split].
    + reflexivity.
    + intros v [].
    + intros H. contradiction.
Qed.

(** [modifyRecord] on accepted inputs: the snapshot is committed, whatever
    the activity and notification services do afterwards. *)
Lemma modifyRecord_run (rt : Runtime) (host : Host) (data : ModifyRecordData)
    (w : World) (original : RecordRow) (cabinet : Cabinet) (creator : User)
    (validated : JsObject) :
  find (fun r => r_id r =? m_recordId data) (records (db w)) = Some original ->
  find (fun c => cab_id c =? m_cabinetId data) (cabinets (db w)) = Some cabinet ->
  find (fun u => u_id u =? m_creatorId data) (users (db w)) = Some creator ->
  validateCustomFields rt (m_customFields data) (cab_customFields cabinet) w
  = (Ok validated, w) ->
  exists snapshot outcome w',
    modifyRecord rt host data w = (outcome, w')
    /\ db w' = with_recordOtherVersions
                 (recordOtherVersions (db w) ++ [snapshot])%list (db w)
    /\ ov_originalRecordId snapshot = m_recordId data
    /\ ov_version snapshot = next_snapshot_version (m_recordId data) (db w)
    /\ ov_title snapshot = trim (m_title data)
    /\ ov_customFields snapshot = validated
    /\ (outcome = Ok snapshot \/ exists e, outcome = Throw e)
    /\ ((forall a, logActivity_failure host a = None) ->
        (forall n, notification_failure host n = None) -> outcome = Ok snapshot).
Proof.
  intros Hrecord Hcabinet Hcreator Hvalid.
  unfold modifyRecord.
  unfold bind at 1, Record_findByPk, gets. rewrite Hrecord.
  unfold bind at 1, Cabinet_findByPk, gets. rewrite Hcabinet.
  unfold bind at 1, User_findByPk, gets. rewrite Hcreator.
  unfold bind at 1. rewrite Hvalid.
  unfold bind at 1, RecordOtherVersion_findLatest, gets.
  fold (next_snapshot_version (m_recordId data) (db w)).
  unfold bind at 1.
  match goal with
  | |- context [let (o, w') := ?m w in _] =>
      assert (Hpdf : exists info w1, m w = (Ok info, w1) /\ db w1 = db w)
  end.
  { destruct (m_pdfFile data) as [pdf|]; [|exists None, w; split; reflexivity].
    unfold try_catch, bind.
    destruct (store_upload_db host pdf w) as [Hdb _].
    destruct (store_upload host pdf w) as [[stored|e] w1]; simpl in *;
      eexists; eexists; (split; [reflexivity|assumption]). }
  destruct Hpdf as [info [w1 [Hpdf Hdb]]]. rewrite Hpdf. clear Hpdf.
  cbv beta iota zeta delta [bind transaction_begin modify try_catch fresh_id modify_db
    transaction_commit logActivity notify ret throw transaction_rollback].
  cbn [db with_db with_tx tx uuids clock disk activities notifications].
  match goal with
  | |- context [logActivity_failure host ?a] =>
      destruct (logActivity_failure host a) as [e1|] eqn:Hlog
  end; cbv beta iota;
    cbn [db with_db with_tx tx uuids clock disk activities notifications].
  - eexists. eexists. eexists. split; [reflexivity|].
    cbn [db with_db with_tx tx]. rewrite Hdb.
    repeat (split; [reflexivity|]). split; [right; eauto|].
    intros Hact _. rewrite Hact in Hlog. discriminate.
  - match goal with
    | |- context [notification_failure host ?n] =>
        destruct (notification_failure host n) as [e2|] eqn:Hnot
    end; cbv beta iota;
      cbn [db with_db with_tx tx uuids clock disk activities notifications].
    + eexists. eexists. eexists. split; [reflexivity|].
      cbn [db with_db with_tx tx]. rewrite Hdb.
      repeat (split; [reflexivity|]). split; [right; eauto|].
      intros _ Hn. rewrite Hn in Hnot. discriminate.
    + eexists. eexists. eexists. split; [reflexivity|].
      cbn [db with_db with_tx tx]. rewrite Hdb.
      repeat (split; [reflexivity|]). split; [left; reflexivity|].
      intros _ _. reflexivity.
Qed.

(** Either [modifyRecord] throws before writing anything, or its inputs
    were accepted. *)
Lemma modifyRecord_rejected_or_accepted (rt : Runtime) (host : Host)
    (data : ModifyRecordData) (w : World) :
  (exists e, modifyRecord rt host data w = (Throw e, w))
  \/ modification_accepted rt data w.
Proof.
  unfold modifyRecord.
  unfold bind at 1, Record_findByPk, gets.
  destruct (find _ (records (db w))) as [original|] eqn:H1; [|left; unfold throw; eauto].
  unfold bind at 1, Cabinet_findByPk, gets.
  destruct (find _ (cabinets (db w))) as [cabinet|] eqn:H2; [|left; unfold throw; eauto].
  unfold bind at 1, User_findByPk, gets.
  destruct (find _ (users (db w))) as [creator|] eqn:H3; [|left; unfold throw; eauto].
  unfold bind at 1.
  destruct (validateCustomFields_pure rt (m_customFields data)
              (cab_customFields cabinet)) as [r Hr].
  rewrite Hr. destruct r as [validated|e]; [|left; unfold throw; eauto].
  right. exists original, cabinet, creator, validated. rewrite Hr.
  split; [exact H1|split; [exact H2|split; [exact H3|reflexivity]]].
Qed.

Lemma modification_accepted_same_tables (rt : Runtime) (data : ModifyRecordData)
    (w w1 : World) :
  records (db w1) = records (db w) ->
  cabinets (db w1) = cabinets (db w) ->
  users (db w1) = users (db w) ->
  modification_accepted rt data w -> modification_accepted rt data w1.
Proof.
  intros Hr Hc Hu [original [cabinet [creator [validated [H1 [H2 [H3 H4]]]]]]].
  exists original, cabinet, creator, validated. rewrite Hr, Hc, Hu.
  repeat (split; [assumption|]).
  destruct (validateCustomFields_pure rt (m_customFields data)
              (cab_customFields cabinet)) as [r Hpure].
  rewrite Hpure in *. inversion H4; subst. reflexivity.
Qed.

Lemma modifyRecord_accepted_step (rt : Runtime) (host : Host)
    (data : ModifyRecordData) (w w' : World) (outcome : Outcome RecordOtherVersion) :
  modification_accepted rt data w ->
  modifyRecord rt host data w = (outcome, w') ->
  exists snapshot,
    db w' = with_recordOtherVersions
              (recordOtherVersions (db w) ++ [snapshot])%list (db w)
    /\ ov_originalRecordId snapshot = m_recordId data
    /\ ov_version snapshot = next_snapshot_version (m_recordId data) (db w)
    /\ snapshots_of (m_recordId data) (db w')
       = (snapshots_of (m_recordId data) (db w) ++ [snapshot])%list
    /\ (forall s, outcome = Ok s -> s = snapshot)
    /\ ((forall a, logActivity_failure host a = None) ->
        (forall n, notification_failure host n = None) -> outcome = Ok snapshot).
Proof.
  intros [original [cabinet [creator [validated [H1 [H2 [H3 H4]]]]]]] Hrun.
  destruct (modifyRecord_run rt host data w original cabinet creator validated
              H1 H2 H3 H4)
    as [snapshot [outcome0 [w0 [Hrun0 [Hdb [Hid [Hversion [_ [_ [Hout Hok]]]]]]]]]].
  rewrite Hrun0 in Hrun. inversion Hrun; subst outcome0 w0.
  exists snapshot. repeat (split; [assumption|]). split; [|split; [|exact Hok]].
  - unfold snapshots_of. rewrite Hdb. simpl. rewrite filter_app. simpl.
    rewrite Hid, String.eqb_refl. reflexivity.
  - intros s Hs. destruct Hout as [Hout|[e Hout]]; congruence.
Qed.

(** C4. [modifyRecord] never changes the rows of [records]: the original
    Record keeps all its fields, version and title included.  A snapshot it
    returns is added to [records_other_versions] with the version
    [next_snapshot_version]: 2 when the record has no snapshot, otherwise
    one more than the greatest snapshot version of the record.  On accepted
    inputs (record, cabinet and creator exist, custom fields validate) the
    snapshot is committed.  Two modifications of a record without snapshots
    leave snapshots 2 and 3. *)
Theorem modifyRecord_snapshot (rt : Runtime) (host : Host) (data : ModifyRecordData)
    (w : World) :
  (forall outcome w',
     modifyRecord rt host data w = (outcome, w') ->
     records (db w') = records (db w)
     /\ (forall snapshot, outcome = Ok snapshot ->
           ov_originalRecordId snapshot = m_recordId data
           /\ ov_version snapshot = next_snapshot_version (m_recordId data) (db w)
           /\ recordOtherVersions (db w')
              = (recordOtherVersions (db w) ++ [snapshot])%list))
  /\ ((snapshots_of (m_recordId data) (db w) = [] ->
       next_snapshot_version (m_recordId data) (db w) = 2%Z)
      /\ (forall v, In v (snapshots_of (m_recordId data) (db w)) ->
            (ov_version v < next_snapshot_version (m_recordId data) (db w))%Z)
      /\ (snapshots_of (m_recordId data) (db w) <> [] ->
          exists v, In v (snapshots_of (m_recordId data) (db w))
                    /\ next_snapshot_version (m_recordId data) (db w)
                       = (ov_version v + 1)%Z))
  /\ (modification_accepted rt data w ->
      exists snapshot outcome w',
        modifyRecord rt host data w = (outcome, w')
        /\ recordOtherVersions (db w')
           = (recordOtherVersions (db w) ++ [snapshot])%list
        /\ ov_version snapshot = next_snapshot_version (m_recordId data) (db w)
        /\ ((forall a, logActivity_failure host a = None) ->
            (forall n, notification_failure host n = None) ->
            outcome = Ok snapshot))
  /\ (forall data2 o1 w1 o2 w2,
        m_recordId data2 = m_recordId data ->
        snapshots_of (m_recordId data) (db w) = [] ->
        modification_accepted rt data w ->
        modification_accepted rt data2 w ->
        modifyRecord rt host data w = (o1, w1) ->
        modifyRecord rt host data2 w1 = (o2, w2) ->
        map ov_version (snapshots_of (m_recordId data) (db w2)) = [2%Z; 3%Z]
        /\ (forall s, o1 = Ok s -> ov_version s = 2%Z)
        /\ (forall s, o2 = Ok s -> ov_version s = 3%Z)
        /\ records (db w2) = records (db w)).
Proof.
  split; [|split; [|split]].
  - intros outcome w' Hrun.
    destruct (modifyRecord_rejected_or_accepted rt host data w) as [[e He]|Hacc].
    + rewrite He in Hrun. inversion Hrun; subst. split; [reflexivity|].
      intros snapshot Hs. discriminate.
    + destruct (modifyRecord_accepted_step rt host data w w' outcome Hacc Hrun)
        as [snapshot [Hdb [Hid [Hversion [_ [Hsame _]]]]]].
      rewrite Hdb. split; [reflexivity|].
      intros s Hs. rewrite (Hsame s Hs). auto.
  - apply next_snapshot_version_spec.
  - intros Hacc.
    destruct (modifyRecord rt host data w) as [outcome w'] eqn:Hrun.
    destruct (modifyRecord_accepted_step rt host data w w' outcome Hacc Hrun)
      as [snapshot [Hdb [_ [Hversion [_ [_ Hok]]]]]].
    exists snapshot, outcome, w'. rewrite Hdb. auto.
  - intros data2 o1 w1 o2 w2 Hid Hfresh Hacc1 Hacc2 Hrun1 Hrun2.
    destruct (modifyRecord_accepted_step rt host data w w1 o1 Hacc1 Hrun1)
      as [s1 [Hdb1 [_ [Hv1 [Hsnaps1 [Hsame1 _]]]]]].
    assert (Hacc2' : modification_accepted rt data2 w1).
    { apply (modification_accepted_same_tables rt data2 w w1);
        try assumption; rewrite Hdb1; reflexivity. }
    destruct (modifyRecord_accepted_step rt host data2 w1 w2 o2 Hacc2' Hrun2)
      as [s2 [Hdb2 [_ [Hv2 [Hsnaps2 [Hsame2 _]]]]]].
    rewrite Hid in Hv2, Hsnaps2.
    rewrite (proj1 (next_snapshot_version_spec _ _) Hfresh) in Hv1.
    rewrite Hfresh in Hsnaps1. simpl in Hsnaps1.
    unfold next_snapshot_version in Hv2. rewrite Hsnaps1 in Hv2. simpl in Hv2.
    rewrite Hv1 in Hv2. simpl in Hv2.
    rewrite Hsnaps2, Hsnaps1. simpl. rewrite Hv1, Hv2.
    split; [reflexivity|]. split; [|split].
    + intros s Hs. rewrite (Hsame1 s Hs). assumption.
    + intros s Hs. rewrite (Hsame2 s Hs). assumption.
    + rewrite Hdb2. simpl. rewrite Hdb1. reflexivity.
Qed.

Lemma modifyRecord_snapshot_witness :
  map ov_version
      (snapshots_of "rec-1"
         (db (snd (modifyRecord integer_runtime failing_pdf_host modify_data
                     (snd (modifyRecord integer_runtime failing_pdf_host modify_data
                             office))))))
  = [2%Z; 3%Z]
  /\ records
       (db (snd (modifyRecord integer_runtime failing_pdf_host modify_data
                   (snd (modifyRecord integer_runtime failing_pdf_host modify_data
                           office)))))
     = records (db office).
Proof.
  assert (Hacc : modification_accepted integer_runtime modify_data office).
  { exists approved_record, invoices, (mkUser "creator-1"),
      [("1", field_entry subject_field (JStr "Hello"))].
    split; [reflexivity|split; [reflexivity|split; reflexivity]]. }
  destruct (modifyRecord integer_runtime failing_pdf_host modify_data office)
    as [o1 w1] eqn:H1.
  cbn [snd].
  destruct (modifyRecord integer_runtime failing_pdf_host modify_data w1)
    as [o2 w2] eqn:H2.
  cbn [snd].
  destruct (proj2 (proj2 (proj2 (modifyRecord_snapshot integer_runtime failing_pdf_host
                                   modify_data office)))
              modify_data o1 w1 o2 w2 eq_refl eq_refl Hacc Hacc H1 H2)
    as [Hversions [_ [_ Hrecords]]].
  split; [exact Hversions|exact Hrecords].
Defined.

(** With collaborators that succeed, the first modification of rec-1
    returns snapshot 2. *)
Example modifyRecord_first_snapshot :
  option_map ov_version
    (match fst (modifyRecord integer_runtime failing_pdf_host modify_data office) with
     | Ok snapshot => Some snapshot
     | Throw _ => None
     end)
  = Some 2%Z.
Proof. reflexivity. Qed.

(* ================================================================== *)
(** * Further properties of the record service *)

(** ** Validator *)

Ltac grind_validation H :=
  repeat match type of H with
         | context [if ?c then _ else _] => destruct c eqn:?
         | context [match ?x with _ => _ end] => destruct x eqn:?
         end.

Lemma validateFieldValue_stored_value_ok (rt : Runtime) (value v : JsValue)
    (field : CustomField) (w w' : World) :
  f_type field <> "Attachment" ->
  validateFieldValue rt value field w = (Ok v, w') ->
  stored_value_ok field v = true.
Proof.
  intros Hty Hrun. apply String.eqb_neq in Hty.
  unfold stored_value_ok. rewrite Hty.
  unfold validateFieldValue, bind, throw_if, throw, ret in Hrun.
  destruct (is_undefined value || is_null value);
    [inversion Hrun; reflexivity|].
  destruct (f_type field =? "Text/Number with Special Symbols") eqn:E1.
  { grind_validation Hrun; try discriminate; inversion Hrun; subst;
      simpl; try reflexivity;
      match goal with H : exceeds_characterLimit _ _ = false |- _ => rewrite H end;
      reflexivity. }
  destruct (f_type field =? "Text Only") eqn:E2.
  { grind_validation Hrun; try discriminate; inversion Hrun; subst; simpl;
      match goal with H : exceeds_characterLimit _ _ = false |- _ => rewrite H end;
      reflexivity. }
  destruct (f_type field =? "Number Only") eqn:E3.
  { grind_validation Hrun; try discriminate; inversion Hrun; subst;
      simpl; try reflexivity;
      match goal with H : isNaN _ = false |- _ => rewrite H end; reflexivity. }
  destruct (f_type field =? "Currency") eqn:E4.
  { grind_validation Hrun; try discriminate; inversion Hrun; subst; simpl;
      match goal with H : isNaN _ = false |- _ => rewrite H end; reflexivity. }
  destruct ((f_type field =? "Date") || (f_type field =? "Time")
            || (f_type field =? "Time and Date")) eqn:E5.
  { simpl. destruct (typeof (actual_value value) =? "string") eqn:Es; simpl in Hrun;
      destruct (isNaN (Date_getTime rt (actual_value value))); simpl in Hrun;
      inversion Hrun; subst; try reflexivity;
      destruct (actual_value value); try discriminate; reflexivity. }
  simpl.
  destruct (f_type field =? "Yes/No") eqn:E6.
  { grind_validation Hrun; try discriminate; inversion Hrun; subst; reflexivity. }
  destruct (f_type field =? "Tags/Labels") eqn:E7.
  { grind_validation Hrun; try discriminate; inversion Hrun; subst; reflexivity. }
  destruct (is_null v); reflexivity.
Qed.

(** X1.  Every value that [validateCustomFields] stores is of its field's type:
    the output maps each key to the entry of a schema field of that key
    whose value satisfies [stored_value_ok]. *)
Theorem validateCustomFields_stores_typed_values (rt : Runtime)
    (submitted : JsObject) (schema : list CustomField) (out : JsObject)
    (w w' : World) :
  validateCustomFields rt submitted schema w = (Ok out, w') ->
  forall k e,
    obj_lookup k out = Some e ->
    exists field v,
      In field schema /\ field_key (f_id field) = k
      /\ e = field_entry field v /\ stored_value_ok field v = true.
Proof.
  intros Hrun k e He.
  destruct (validateCustomFields_origin rt submitted schema out w w' Hrun k e He)
    as [field [v [Hin [Hkey [Hentry Hcase]]]]].
  exists field, v. repeat (split; [assumption|]).
  destruct (f_type field =? "Attachment") eqn:Ety.
  - destruct Hcase as [-> Htruthy]. unfold stored_value_ok. rewrite Ety. assumption.
  - destruct Hcase as [_ Hvalid].
    apply (validateFieldValue_stored_value_ok rt (obj_get submitted k) v field w w).
    + apply String.eqb_neq. assumption.
    + apply Hvalid.
Qed.

Lemma validateCustomFields_stores_typed_values_witness :
  exists field v,
    In field [subject_field; urgent_field] /\ field_key (f_id field) = "1"
    /\ field_entry subject_field (JStr "Hello") = field_entry field v
    /\ stored_value_ok field v = true.
Proof.
  exact (validateCustomFields_stores_typed_values integer_runtime
           [("1", JStr "Hello")] [subject_field; urgent_field]
           [("1", field_entry subject_field (JStr "Hello"))] office office
           eq_refl "1" (field_entry subject_field (JStr "Hello")) eq_refl).
Defined.

(** X2.  Validation is fail-fast in schema order: once the fields of a prefix
    of the schema fail with an error, that error is the outcome whatever
    fields follow; and when they pass, the fields that follow are validated
    on top of what the prefix stored. *)
Theorem validateCustomFields_fail_fast (rt : Runtime) (submitted : JsObject)
    (before after : list CustomField) (w : World) :
  (forall e w',
     validateCustomFields rt submitted before w = (Throw e, w') ->
     validateCustomFields rt submitted (before ++ after)%list w = (Throw e, w'))
  /\ (forall stored w',
        validateCustomFields rt submitted before w = (Ok stored, w') ->
        validateCustomFields rt submitted (before ++ after)%list w
        = validate_loop rt submitted after stored w').
Proof.
  unfold validateCustomFields. split; intros x w' H;
    rewrite validate_loop_app, H; reflexivity.
Qed.

Lemma validateCustomFields_fail_fast_witness :
  validateCustomFields integer_runtime [("1", JStr "TooLong"); ("2", JStr "yes")]
    ([subject_field] ++ [confirmed_field])%list office
  = (Throw (AppError 400 "Field 'Subject' exceeds character limit of 5"), office).
Proof.
  exact (proj1 (validateCustomFields_fail_fast integer_runtime
                  [("1", JStr "TooLong"); ("2", JStr "yes")]
                  [subject_field] [confirmed_field] office)
               _ _ eq_refl).
Defined.

Lemma actual_value_field_entry (field : CustomField) (v : JsValue) :
  is_undefined v = false -> actual_value (field_entry field v) = v.
Proof.
  intros H. destruct v; try discriminate; reflexivity.
Qed.

Ltac known_type E :=
  apply String.eqb_eq in E; rewrite E in *; simpl in *.

Lemma validateFieldValue_resubmit (rt : Runtime) (value v : JsValue)
    (field : CustomField) (w w' : World) :
  validateFieldValue rt value field w = (Ok v, w') ->
  resubmittable field v = true ->
  validateFieldValue rt (field_entry field v) field w = (Ok v, w).
Proof.
  intros Hrun Hres.
  assert (Hty : f_type field <> "Attachment").
  { intros Heq. unfold resubmittable in Hres. rewrite Heq in Hres.
    simpl in Hres. rewrite andb_false_r in Hres. discriminate. }
  pose proof (validateFieldValue_stored_value_ok rt value v field w w' Hty Hrun) as Hok.
  clear Hrun Hty.
  unfold resubmittable in Hres. apply andb_true_iff in Hres as [Hnull Hres].
  apply negb_true_iff in Hnull.
  unfold stored_value_ok in Hok.
  unfold validateFieldValue. cbn [is_undefined is_null field_entry orb].
  unfold bind, throw_if, ret.
  destruct (f_type field =? "Text/Number with Special Symbols") eqn:E1.
  { known_type E1. destruct v; try discriminate.
    rewrite actual_value_field_entry by reflexivity. simpl in *.
    apply negb_true_iff in Hok. rewrite Hok.
    rewrite !orb_false_r in Hres. apply negb_true_iff in Hres. rewrite Hres.
    reflexivity. }
  destruct (f_type field =? "Text Only") eqn:E2.
  { known_type E2. destruct v; try discriminate.
    rewrite actual_value_field_entry by reflexivity. simpl in *.
    apply negb_true_iff in Hok. rewrite Hok. reflexivity. }
  destruct (f_type field =? "Number Only") eqn:E3.
  { known_type E3. destruct v; try discriminate.
    rewrite actual_value_field_entry by reflexivity. simpl in *.
    apply negb_true_iff in Hok. rewrite Hok. reflexivity. }
  destruct (f_type field =? "Currency") eqn:E4.
  { known_type E4. destruct v; try discriminate.
    rewrite actual_value_field_entry by reflexivity. simpl in *.
    apply negb_true_iff in Hok. rewrite Hok. reflexivity. }
  destruct (f_type field =? "Yes/No") eqn:E5.
  { known_type E5. destruct v; try discriminate.
    rewrite actual_value_field_entry by reflexivity. reflexivity. }
  destruct (f_type field =? "Tags/Labels") eqn:E6.
  { known_type E6. destruct v; try discriminate.
    rewrite actual_value_field_entry by reflexivity. reflexivity. }
  simpl in Hres. discriminate.
Qed.

Lemma validate_loop_keeps_other_keys (rt : Runtime) (submitted : JsObject)
    (fields : list CustomField) :
  forall acc out w w' k,
    validate_loop rt submitted fields acc w = (Ok out, w') ->
    ~ In k (schema_keys fields) ->
    obj_lookup k out = obj_lookup k acc.
Proof.
  induction fields as [|field rest IH]; intros acc out w w' k Hrun Hk; simpl in Hrun.
  - inversion Hrun; subst. reflexivity.
  - unfold bind in Hrun.
    destruct (mandatory_check field _ w) as [[[]|e] w1]; [|discriminate].
    destruct (process_field rt field _ acc w1) as [[acc1|e] w2] eqn:Hstep;
      [|discriminate].
    rewrite (IH acc1 out w2 w' k Hrun) by (intros H; apply Hk; right; exact H).
    assert (Hne : k <> field_key (f_id field)) by (intros ->; apply Hk; left; reflexivity).
    unfold process_field, bind, ret in Hstep.
    destruct (f_type field =? "Attachment").
    + destruct (truthy _); inversion Hstep; subst; [|reflexivity].
      apply obj_lookup_set_other. assumption.
    + destruct (negb _); [|inversion Hstep; subst; reflexivity].
      destruct (validateFieldValue rt _ field w1) as [[v|e] w3]; inversion Hstep; subst.
      apply obj_lookup_set_other. assumption.
Qed.

Lemma validate_loop_resubmit (rt : Runtime) (submitted resubmitted : JsObject)
    (fields : list CustomField) :
  NoDup (schema_keys fields) ->
  forall acc out w w',
    validate_loop rt submitted fields acc w = (Ok out, w') ->
    (forall f, In f fields -> obj_lookup (field_key (f_id f)) acc = None) ->
    (forall f, In f fields ->
       obj_get resubmitted (field_key (f_id f)) = obj_get out (field_key (f_id f))) ->
    (forall f v, In f fields ->
       obj_lookup (field_key (f_id f)) out = Some (field_entry f v) ->
       resubmittable f v = true) ->
    validate_loop rt resubmitted fields acc w = (Ok out, w).
Proof.
  induction fields as [|field rest IH]; intros Hnodup acc out w w' Hrun Hfresh Hsame Hres;
    simpl in Hrun.
  - inversion Hrun; subst. reflexivity.
  - simpl in Hnodup. inversion Hnodup as [|? ? Hnotin Hnodup']; subst.
    set (k := field_key (f_id field)) in *.
    unfold bind in Hrun.
    destruct (mandatory_check_pure field (obj_get submitted k)) as [rm Hm].
    rewrite Hm in Hrun. destruct rm as [[]|e]; [|discriminate].
    destruct (process_field_pure rt field (obj_get submitted k) acc) as [rp Hp].
    rewrite Hp in Hrun. destruct rp as [acc1|e]; [|discriminate].
    pose proof (validate_loop_keeps_other_keys rt submitted rest acc1 out w w' k Hrun Hnotin)
      as Hout.
    assert (Hfresh1 : forall f, In f rest -> obj_lookup (field_key (f_id f)) acc1 = None).
    { intros f Hf.
      assert (Hne : field_key (f_id f) <> k).
      { intros Heq. apply Hnotin. rewrite <- Heq. unfold schema_keys.
        apply in_map_iff. exists f. auto. }
      specialize (Hp w). unfold process_field, bind, ret in Hp.
      destruct (f_type field =? "Attachment").
      - destruct (truthy _); inversion Hp; subst;
          [rewrite obj_lookup_set_other by assumption|]; apply Hfresh; right; assumption.
      - destruct (negb _); [|inversion Hp; subst; apply Hfresh; right; assumption].
        destruct (validateFieldValue rt _ field w) as [[v|e] w3]; inversion Hp; subst.
        rewrite obj_lookup_set_other by assumption. apply Hfresh. right. assumption. }
    assert (IH' : validate_loop rt resubmitted rest acc1 w = (Ok out, w)).
    { apply (IH Hnodup' acc1 out w w' Hrun Hfresh1).
      - intros f Hf. apply Hsame. right. assumption.
      - intros f v Hf. apply Hres. right. assumption. }
    subst k. cbn [validate_loop]. rewrite (Hsame field (or_introl eq_refl)).
    unfold obj_get at 1 2. rewrite Hout.
    specialize (Hm w). specialize (Hp w).
    unfold process_field, bind, ret in Hp.
    unfold mandatory_check, throw_if in Hm.
    unfold bind, mandatory_check, process_field, throw_if.
    destruct (f_type field =? "Attachment") eqn:Ety.
    + destruct (truthy (obj_get submitted (field_key (f_id field)))) eqn:Htr; inversion Hp; subst acc1.
      * exfalso. rewrite obj_lookup_set_same in Hout.
        specialize (Hres field _ (or_introl eq_refl) Hout).
        unfold resubmittable in Hres. apply String.eqb_eq in Ety. rewrite Ety in Hres.
        simpl in Hres. rewrite andb_false_r in Hres. discriminate.
      * rewrite (Hfresh field (or_introl eq_refl)). simpl.
        destruct (f_isMandatory field); [|exact IH'].
        unfold hasValidValue in Hm. rewrite Htr in Hm. simpl in Hm. discriminate.
    + destruct (is_undefined (obj_get submitted (field_key (f_id field)))) eqn:Hun; simpl in Hp.
      * inversion Hp; subst acc1. rewrite (Hfresh field (or_introl eq_refl)). simpl.
        destruct (f_isMandatory field); [|exact IH'].
        unfold hasValue in Hm. rewrite Hun in Hm. simpl in Hm. discriminate.
      * destruct (validateFieldValue rt (obj_get submitted (field_key (f_id field))) field w) as [[v|e] w3] eqn:Hv;
          inversion Hp; subst acc1 w3.
        rewrite obj_lookup_set_same in Hout |- *.
        specialize (Hres field v (or_introl eq_refl) Hout).
        pose proof (validateFieldValue_resubmit rt _ v field w w Hv Hres) as Hagain.
        change (hasValue (field_entry field v)) with true.
        change (is_undefined (field_entry field v)) with false.
        cbn [negb]. unfold ret, bind.
        destruct (f_isMandatory field); rewrite Hagain; exact IH'.
Qed.

(** X3.  Stored custom fields can be submitted again as they are: when the
    keys of the schema are distinct and every stored value is
    [resubmittable], validating the output of [validateCustomFields]
    against the same schema gives that output again (the entries
    [{ fieldId, type, value }] are unwrapped to their values). *)
Theorem validateCustomFields_resubmission (rt : Runtime) (submitted : JsObject)
    (schema : list CustomField) (out : JsObject) (w w' : World) :
  NoDup (schema_keys schema) ->
  validateCustomFields rt submitted schema w = (Ok out, w') ->
  (forall f v, In f schema ->
     obj_lookup (field_key (f_id f)) out = Some (field_entry f v) ->
     resubmittable f v = true) ->
  validateCustomFields rt out schema w = (Ok out, w).
Proof.
  intros Hnodup Hrun Hres. unfold validateCustomFields in *.
  apply (validate_loop_resubmit rt submitted out schema Hnodup [] out w w' Hrun).
  - reflexivity.
  - reflexivity.
  - exact Hres.
Qed.

Lemma validateCustomFields_resubmission_witness :
  validateCustomFields integer_runtime
    [("1", field_entry subject_field (JStr "Hello"));
     ("2", field_entry confirmed_field (JBool false))]
    [subject_field; confirmed_field] office
  = (Ok [("1", field_entry subject_field (JStr "Hello"));
         ("2", field_entry confirmed_field (JBool false))], office).
Proof.
  apply (validateCustomFields_resubmission integer_runtime
           [("1", JStr "Hello"); ("2", JBool false)]
           [subject_field; confirmed_field] _ office office).
  - repeat constructor; simpl; intuition discriminate.
  - reflexivity.
  - intros f v [<-|[<-|[]]] H; simpl in H; inversion H; reflexivity.
Defined.

(** ** Normalising Attachment entries on the read paths *)

Lemma obj_set_idempotent (k : string) (v : JsValue) (o : JsObject) :
  obj_set k v (obj_set k v o) = obj_set k v o.
Proof.
  induction o as [|[k' v'] o IH]; simpl.
  - rewrite String.eqb_refl. reflexivity.
  - destruct (k' =? k) eqn:E; simpl.
    + rewrite String.eqb_refl. reflexivity.
    + rewrite E, IH. reflexivity.
Qed.

Lemma js_or_absorb (a b : JsValue) : js_or (js_or a b) b = js_or a b.
Proof.
  unfold js_or. destruct (truthy a) eqn:Ha; [rewrite Ha; reflexivity|].
  destruct (truthy b); reflexivity.
Qed.

Lemma obj_set_keys (k : string) (v : JsValue) (o : JsObject) :
  obj_lookup k o <> None -> obj_keys (obj_set k v o) = obj_keys o.
Proof.
  induction o as [|[k' v'] o IH]; simpl; [congruence|].
  destruct (String.eqb_spec k' k) as [->|Hne]; simpl; [reflexivity|].
  intros H. rewrite IH by assumption. reflexivity.
Qed.

Lemma file_value_get (a1 a2 a3 a4 a5 : JsValue) :
  js_get (JObj [("fileName", a1); ("filePath", a2); ("fileSize", a3);
                ("fileType", a4); ("fileHash", a5)]) "fileName" = a1
  /\ js_get (JObj [("fileName", a1); ("filePath", a2); ("fileSize", a3);
                   ("fileType", a4); ("fileHash", a5)]) "filePath" = a2
  /\ js_get (JObj [("fileName", a1); ("filePath", a2); ("fileSize", a3);
                   ("fileType", a4); ("fileHash", a5)]) "fileSize" = a3
  /\ js_get (JObj [("fileName", a1); ("filePath", a2); ("fileSize", a3);
                   ("fileType", a4); ("fileHash", a5)]) "fileType" = a4
  /\ js_get (JObj [("fileName", a1); ("filePath", a2); ("fileSize", a3);
                   ("fileType", a4); ("fileHash", a5)]) "fileHash" = a5.
Proof. repeat split; reflexivity. Qed.

Lemma normalize_attachment_idempotent (field : JsValue) :
  normalize_attachment (normalize_attachment field) = normalize_attachment field.
Proof.
  destruct (is_string_literal (js_get field "type") "Attachment"
            && truthy (js_get field "value")) eqn:Hc.
  - destruct field as [| | b | n | s | items | props]; try discriminate.
    set (V := JObj [("fileName", file_property (JObj props) "fileName");
                    ("filePath", file_property (JObj props) "filePath");
                    ("fileSize", file_property (JObj props) "fileSize");
                    ("fileType", file_property (JObj props) "fileType");
                    ("fileHash", file_property (JObj props) "fileHash")]).
    assert (Hn : normalize_attachment (JObj props) = JObj (obj_set "value" V props)).
    { unfold normalize_attachment. rewrite Hc. reflexivity. }
    rewrite Hn.
    apply andb_true_iff in Hc as [Hty _].
    assert (Hprop : forall k, k <> "value" ->
              file_property (JObj (obj_set "value" V props)) k
              = js_or (js_get V k) (js_get (JObj props) k)).
    { intros k Hk. unfold file_property. cbn [js_get]. unfold obj_get.
      rewrite obj_lookup_set_same. rewrite obj_lookup_set_other by assumption.
      reflexivity. }
    unfold normalize_attachment.
    assert (Hty' : js_get (JObj (obj_set "value" V props)) "type"
                   = js_get (JObj props) "type").
    { cbn [js_get]. unfold obj_get. rewrite obj_lookup_set_other by discriminate.
      reflexivity. }
    assert (Hval : js_get (JObj (obj_set "value" V props)) "value" = V).
    { cbn [js_get]. unfold obj_get. rewrite obj_lookup_set_same. reflexivity. }
    rewrite Hty', Hty, Hval. cbn [truthy andb js_set].
    rewrite !Hprop by discriminate.
    destruct (file_value_get (file_property (JObj props) "fileName")
                (file_property (JObj props) "filePath")
                (file_property (JObj props) "fileSize")
                (file_property (JObj props) "fileType")
                (file_property (JObj props) "fileHash")) as [H1 [H2 [H3 [H4 H5]]]].
    fold V in H1, H2, H3, H4, H5. rewrite H1, H2, H3, H4, H5.
    unfold file_property at 1 2 3 4 5. rewrite !js_or_absorb.
    rewrite obj_set_idempotent. reflexivity.
  - unfold normalize_attachment. rewrite Hc. rewrite Hc. reflexivity.
Qed.

Lemma unreadable_normalize (field : JsValue) :
  unreadable (normalize_attachment field) = unreadable field.
Proof.
  unfold normalize_attachment.
  destruct (is_string_literal (js_get field "type") "Attachment"
            && truthy (js_get field "value")); [|reflexivity].
  destruct field; reflexivity.
Qed.

Lemma insert_index_map (g : JsValue -> JsValue) (kv : Z * (string * JsValue))
    (l : list (Z * (string * JsValue))) :
  insert_index (fst kv, (fst (snd kv), g (snd (snd kv))))
    (map (fun x => (fst x, (fst (snd x), g (snd (snd x))))) l)
  = map (fun x => (fst x, (fst (snd x), g (snd (snd x))))) (insert_index kv l).
Proof.
  induction l as [|y l IH]; simpl; [reflexivity|].
  destruct (fst kv <? fst y)%Z; simpl; [reflexivity|]. rewrite IH. reflexivity.
Qed.

Lemma split_index_props_map (g : JsValue -> JsValue) (o : JsObject) :
  split_index_props (map (fun kv => (fst kv, g (snd kv))) o)
  = (map (fun x => (fst x, (fst (snd x), g (snd (snd x)))))
         (fst (split_index_props o)),
     map (fun kv => (fst kv, g (snd kv))) (snd (split_index_props o))).
Proof.
  induction o as [|[k v] o IH]; simpl; [reflexivity|].
  rewrite IH. destruct (split_index_props o) as [ix named]. simpl.
  destruct (array_index k) as [n|]; simpl; [|reflexivity].
  rewrite <- (insert_index_map g (n, (k, v)) ix). reflexivity.
Qed.

Lemma for_in_order_map (g : JsValue -> JsValue) (o : JsObject) :
  for_in_order (map (fun kv => (fst kv, g (snd kv))) o)
  = map (fun kv => (fst kv, g (snd kv))) (for_in_order o).
Proof.
  unfold for_in_order. rewrite split_index_props_map.
  destruct (split_index_props o) as [ix named]. simpl.
  rewrite map_app, !map_map. reflexivity.
Qed.

Lemma first_unreadable_map_normalize (o : JsObject) :
  first_unreadable (map (fun kv => (fst kv, normalize_attachment (snd kv))) o)
  = first_unreadable o.
Proof.
  induction o as [|[k v] o IH]; simpl; [reflexivity|].
  rewrite unreadable_normalize, IH. reflexivity.
Qed.

Lemma obj_lookup_map (g : JsValue -> JsValue) (k : string) (o : JsObject) :
  obj_lookup k (map (fun kv => (fst kv, g (snd kv))) o)
  = option_map g (obj_lookup k o).
Proof.
  induction o as [|[k' v] o IH]; simpl; [reflexivity|].
  destruct (k' =? k); [reflexivity|exact IH].
Qed.

(** X4.  The read paths ([getRecordById], [getOtherRecordsByOriginalId],
    [updateRecord]) rebuild Attachment entries without touching the rest:
    normalising custom fields changes neither the world nor the keys, maps
    every entry through [normalize_attachment], and is idempotent; an entry
    that is not an Attachment with a truthy value is returned as it is, and
    the value of one that is becomes an object of exactly the five file
    properties, each taken from the old value or else from the entry. *)
Theorem normalize_customFields_stable (customFields : JsObject) (w : World) :
  (forall normalized w',
     normalize_customFields customFields w = (Ok normalized, w') ->
     w' = w
     /\ obj_keys normalized = obj_keys customFields
     /\ (forall k, obj_lookup k normalized
                   = option_map normalize_attachment (obj_lookup k customFields))
     /\ normalize_customFields normalized w = (Ok normalized, w))
  /\ (forall field,
        is_string_literal (js_get field "type") "Attachment"
        && truthy (js_get field "value") = false ->
        normalize_attachment field = field)
  /\ (forall field,
        is_string_literal (js_get field "type") "Attachment"
        && truthy (js_get field "value") = true ->
        js_get (normalize_attachment field) "type" = js_get field "type"
        /\ exists fileName filePath fileSize fileType fileHash,
             js_get (normalize_attachment field) "value"
             = JObj [("fileName", fileName); ("filePath", filePath);
                     ("fileSize", fileSize); ("fileType", fileType);
                     ("fileHash", fileHash)]
             /\ fileName = file_property field "fileName"
             /\ filePath = file_property field "filePath"
             /\ fileSize = file_property field "fileSize"
             /\ fileType = file_property field "fileType"
             /\ fileHash = file_property field "fileHash").
Proof.
  split; [|split].
  - intros normalized w' Hrun. unfold normalize_customFields in *.
    destruct (first_unreadable (for_in_order customFields)) eqn:Hread;
      [discriminate|].
    unfold ret in Hrun. inversion Hrun; subst. clear Hrun.
    split; [reflexivity|]. split; [|split].
    + unfold obj_keys. rewrite map_map. reflexivity.
    + intros k. apply obj_lookup_map.
    + rewrite for_in_order_map, first_unreadable_map_normalize, Hread.
      unfold ret. apply f_equal2; [apply f_equal|reflexivity].
      rewrite map_map. apply map_ext.
      intros [k v]. simpl. rewrite normalize_attachment_idempotent. reflexivity.
  - intros field Hc. unfold normalize_attachment. rewrite Hc. reflexivity.
  - intros field Hc. unfold normalize_attachment. rewrite Hc.
    destruct field as [| | b | n | s | items | props]; try discriminate.
    unfold js_set, js_get, obj_get. rewrite obj_lookup_set_same.
    rewrite obj_lookup_set_other by discriminate.
    split; [reflexivity|]. do 5 eexists. repeat split; reflexivity.
Qed.

Lemma normalize_customFields_stable_witness :
  js_get (js_get (normalize_attachment legacy_scan_entry) "value") "filePath"
  = JStr "/srv/uploads/a.pdf"
  /\ normalize_customFields [("4", normalize_attachment legacy_scan_entry)] office
     = (Ok [("4", normalize_attachment legacy_scan_entry)], office).
Proof.
  pose proof (normalize_customFields_stable [("4", legacy_scan_entry)] office)
    as [Hstable _].
  split; [reflexivity|].
  exact (proj2 (proj2 (proj2 (Hstable [("4", normalize_attachment legacy_scan_entry)]
                                office eq_refl)))).
Defined.

(** ** Record creation, continued *)

Lemma persist_pdf_rows (host : Host) (record : RecordRow)
    (pdfFile : option MulterFile) (w : World) :
  exists w', persist_pdf host record pdfFile w = (Ok tt, w')
    /\ db w' = with_pdfFiles
                 (pdfFiles (db w) ++ pdf_rows host (r_id record) pdfFile w)%list (db w)
    /\ tx w' = tx w.
Proof.
  unfold persist_pdf, pdf_rows. destruct pdfFile as [pdf|].
  - cbv beta iota zeta delta [try_catch bind store_upload extractPdfContent gets
      writeFileAsync modify_db modify ret throw upload_path].
    destruct (pdf_extraction host pdf w) as [extracted|e]; cbv beta iota;
      destruct (writeFile_failure host _) as [e'|]; cbv beta iota;
      eexists; (split; [reflexivity|]); cbn [db tx with_db fst snd];
      (split; [|reflexivity]);
      try (rewrite app_nil_r; destruct (db w); reflexivity); reflexivity.
  - exists w. unfold ret. split; [reflexivity|]. split; [|reflexivity].
    rewrite app_nil_r. destruct (db w); reflexivity.
Qed.

Lemma createRecord_run (rt : Runtime) (host : Host) (data : CreateRecordData)
    (w : World) (cabinet : Cabinet) (creator : User) (validated : JsObject) :
  all_whitespace (c_title data) = false ->
  find (fun c => cab_id c =? c_cabinetId data) (cabinets (db w)) = Some cabinet ->
  find (fun u => u_id u =? c_creatorId data) (users (db w)) = Some creator ->
  validateCustomFields rt (c_customFields data) (cab_customFields cabinet) w
  = (Ok validated, w) ->
  exists w',
    createRecord rt host data w = (Ok (created_record data validated (next_uuid w)), w')
    /\ db w'
       = with_pdfFiles
           (pdfFiles (db w)
            ++ pdf_rows host (next_uuid w) (c_pdfFile data)
                 (record_inserted (created_record data validated (next_uuid w)) w))%list
           (with_records
              (records (db w) ++ [created_record data validated (next_uuid w)])%list
              (db w))
    /\ tx w' = None.
Proof.
  intros Htitle Hcabinet Hcreator Hvalid.
  unfold createRecord. unfold bind at 1. unfold throw_if.
  assert (Hcheck : (c_title data =? "") || (trim (c_title data) =? "") = false).
  { apply orb_false_iff. split; apply String.eqb_neq; intros Heq.
    - rewrite Heq in Htitle. discriminate.
    - apply trim_empty_all_whitespace in Heq. congruence. }
  rewrite Hcheck. unfold ret at 1.
  unfold bind at 1, Cabinet_findByPk, gets. rewrite Hcabinet.
  unfold bind at 1, User_findByPk, gets. rewrite Hcreator.
  unfold bind at 1. rewrite Hvalid.
  unfold bind at 1, transaction_begin, modify. unfold try_catch.
  unfold bind at 1, fresh_id. unfold bind at 1, modify_db, modify.
  unfold bind at 1.
  fold (next_uuid w). fold (created_record data validated (next_uuid w)).
  match goal with
  | |- context [persist_pdf host ?r ?p ?w0] =>
      destruct (persist_pdf_rows host r p w0) as [w2 [Hp [Hdb Htx]]];
      rewrite Hp
  end.
  unfold bind, transaction_commit, modify, ret.
  eexists. split; [reflexivity|]. cbn [db tx with_tx with_db] in *.
  split; [|reflexivity]. rewrite Hdb. reflexivity.
Qed.

Lemma title_check (title : string) :
  (title =? "") || (trim title =? "") = all_whitespace title.
Proof.
  destruct (all_whitespace title) eqn:H.
  - rewrite (trim_all_whitespace _ H). apply orb_true_r.
  - apply orb_false_iff. split; apply String.eqb_neq; intros Heq.
    + rewrite Heq in H. discriminate.
    + apply trim_empty_all_whitespace in Heq. congruence.
Qed.

Lemma createRecord_throws (rt : Runtime) (host : Host) (data : CreateRecordData)
    (w w' : World) (e : Exn) :
  createRecord rt host data w = (Throw e, w') ->
  w' = w
  /\ ((all_whitespace (c_title data) = true
       /\ e = AppError 400 "Record title is required")
      \/ (find (fun c => cab_id c =? c_cabinetId data) (cabinets (db w)) = None
          /\ e = AppError 400 "Cabinet not found")
      \/ (find (fun u => u_id u =? c_creatorId data) (users (db w)) = None
          /\ e = AppError 400 "Creator not found")
      \/ (exists cabinet,
            find (fun c => cab_id c =? c_cabinetId data) (cabinets (db w))
            = Some cabinet
            /\ validateCustomFields rt (c_customFields data)
                 (cab_customFields cabinet) w = (Throw e, w))).
Proof.
  intros Hrun.
  destruct (all_whitespace (c_title data)) eqn:Htitle.
  { revert Hrun. unfold createRecord. unfold bind at 1. unfold throw_if.
    rewrite title_check, Htitle. unfold throw. intros H. inversion H; subst. auto. }
  destruct (find (fun c => cab_id c =? c_cabinetId data) (cabinets (db w)))
    as [cabinet|] eqn:Hcabinet.
  2:{ revert Hrun. unfold createRecord. unfold bind at 1. unfold throw_if.
      rewrite title_check, Htitle. unfold ret at 1.
      unfold bind at 1, Cabinet_findByPk, gets. rewrite Hcabinet.
      unfold throw. intros H. inversion H; subst. auto. }
  destruct (find (fun u => u_id u =? c_creatorId data) (users (db w)))
    as [creator|] eqn:Hcreator.
  2:{ revert Hrun. unfold createRecord. unfold bind at 1. unfold throw_if.
      rewrite title_check, Htitle. unfold ret at 1.
      unfold bind at 1, Cabinet_findByPk, gets. rewrite Hcabinet.
      unfold bind at 1, User_findByPk, gets. rewrite Hcreator.
      unfold throw. intros H. inversion H; subst. auto 6. }
  destruct (validateCustomFields_pure rt (c_customFields data)
              (cab_customFields cabinet)) as [r Hr].
  destruct r as [validated|e'].
  - destruct (createRecord_run rt host data w cabinet creator validated
                Htitle Hcabinet Hcreator (Hr w)) as [w2 [Hok _]].
    rewrite Hok in Hrun. discriminate.
  - revert Hrun. unfold createRecord. unfold bind at 1. unfold throw_if.
    rewrite title_check, Htitle. unfold ret at 1.
    unfold bind at 1, Cabinet_findByPk, gets. rewrite Hcabinet.
    unfold bind at 1, User_findByPk, gets. rewrite Hcreator.
    unfold bind at 1. rewrite Hr. intros H. inversion H; subst.
    split; [reflexivity|]. right. right. right. exists cabinet. rewrite Hr. auto.
Qed.

(** X5.  [createRecord] throws only before it writes, and never because of the
    PDF: a thrown error leaves the world as it was and is the title error,
    the missing cabinet, the missing creator or the error of the custom
    field validation; otherwise (title not blank, cabinet and creator
    found, fields valid) the record is created. *)
Theorem createRecord_outcome (rt : Runtime) (host : Host) (data : CreateRecordData)
    (w : World) :
  (forall e w',
     createRecord rt host data w = (Throw e, w') ->
     w' = w
     /\ ((all_whitespace (c_title data) = true
          /\ e = AppError 400 "Record title is required")
         \/ (find (fun c => cab_id c =? c_cabinetId data) (cabinets (db w)) = None
             /\ e = AppError 400 "Cabinet not found")
         \/ (find (fun u => u_id u =? c_creatorId data) (users (db w)) = None
             /\ e = AppError 400 "Creator not found")
         \/ (exists cabinet,
               find (fun c => cab_id c =? c_cabinetId data) (cabinets (db w))
               = Some cabinet
               /\ validateCustomFields rt (c_customFields data)
                    (cab_customFields cabinet) w = (Throw e, w))))
  /\ (forall cabinet creator validated,
        all_whitespace (c_title data) = false ->
        find (fun c => cab_id c =? c_cabinetId data) (cabinets (db w)) = Some cabinet ->
        find (fun u => u_id u =? c_creatorId data) (users (db w)) = Some creator ->
        validateCustomFields rt (c_customFields data) (cab_customFields cabinet) w
        = (Ok validated, w) ->
        exists w',
          createRecord rt host data w
          = (Ok (created_record data validated (next_uuid w)), w')
          /\ records (db w')
             = (records (db w) ++ [created_record data validated (next_uuid w)])%list
          /\ tx w' = None).
Proof.
  split.
  - intros e w' Hrun. apply (createRecord_throws rt host data w w' e Hrun).
  - intros cabinet creator validated Htitle Hcabinet Hcreator Hvalid.
    destruct (createRecord_run rt host data w cabinet creator validated
                Htitle Hcabinet Hcreator Hvalid) as [w' [Hok [Hdb Htx]]].
    exists w'. split; [exact Hok|]. rewrite Hdb. split; [reflexivity|exact Htx].
Qed.

Lemma createRecord_outcome_witness :
  exists w',
    createRecord integer_runtime failing_pdf_host foo_data office
    = (Ok (created_record foo_data [("1", field_entry subject_field (JStr "Hello"))]
             (next_uuid office)), w')
    /\ records (db w')
       = (records (db office)
          ++ [created_record foo_data [("1", field_entry subject_field (JStr "Hello"))]
                (next_uuid office)])%list
    /\ tx w' = None.
Proof.
  exact (proj2 (createRecord_outcome integer_runtime failing_pdf_host foo_data office)
               invoices (mkUser "creator-1")
               [("1", field_entry subject_field (JStr "Hello"))]
               eq_refl eq_refl eq_refl eq_refl).
Defined.

(** X6.  The PDF of [createRecord] is best effort.  On accepted inputs the
    record is created whatever happens to the upload: when the file cannot
    be written no [PdfFile] row is stored; when it is written, one row is
    stored for the record, with the extracted content, or, when the
    extraction throws, with the fallback content (one page, PDF text
    extraction failed). *)
Theorem createRecord_pdf_is_best_effort (rt : Runtime) (host : Host)
    (data : CreateRecordData) (w : World) (cabinet : Cabinet) (creator : User)
    (validated : JsObject) (pdf : MulterFile) :
  all_whitespace (c_title data) = false ->
  find (fun c => cab_id c =? c_cabinetId data) (cabinets (db w)) = Some cabinet ->
  find (fun u => u_id u =? c_creatorId data) (users (db w)) = Some creator ->
  validateCustomFields rt (c_customFields data) (cab_customFields cabinet) w
  = (Ok validated, w) ->
  c_pdfFile data = Some pdf ->
  exists w',
    createRecord rt host data w = (Ok (created_record data validated (next_uuid w)), w')
    /\ (writeFile_failure host (upload_path host (clock w) pdf) <> None ->
        pdfFiles (db w') = pdfFiles (db w))
    /\ (writeFile_failure host (upload_path host (clock w) pdf) = None ->
        (forall e,
           pdf_extraction host pdf
             (record_inserted (created_record data validated (next_uuid w)) w)
           = Throw e ->
           pdfFiles (db w')
           = (pdfFiles (db w)
              ++ [mkPdfFile (next_uuid w) (originalname pdf)
                    (upload_path host (clock w) pdf) (size pdf) "N/A" 1
                    "PDF text extraction failed"
                    (extractedFields (pdf_fallback pdf))])%list)
        /\ (forall extracted,
              pdf_extraction host pdf
                (record_inserted (created_record data validated (next_uuid w)) w)
              = Ok extracted ->
              pdfFiles (db w')
              = (pdfFiles (db w)
                 ++ [mkPdfFile (next_uuid w) (originalname pdf)
                       (upload_path host (clock w) pdf) (size pdf) "N/A"
                       (pageCount extracted) (extractedText extracted)
                       (extractedFields extracted)])%list)).
Proof.
  intros Htitle Hcabinet Hcreator Hvalid Hpdf.
  destruct (createRecord_run rt host data w cabinet creator validated
              Htitle Hcabinet Hcreator Hvalid) as [w' [Hok [Hdb _]]].
  exists w'. split; [exact Hok|]. rewrite Hdb, Hpdf. unfold pdf_rows.
  cbn [pdfFiles with_pdfFiles clock record_inserted].
  split.
  - intros Hfail. destruct (writeFile_failure host _); [|congruence].
    apply app_nil_r.
  - intros Hwritten. rewrite Hwritten. split.
    + intros e He. rewrite He. reflexivity.
    + intros extracted He. rewrite He. reflexivity.
Qed.

Lemma createRecord_pdf_is_best_effort_witness :
  exists w',
    createRecord integer_runtime failing_pdf_host foo_with_pdf office
    = (Ok (created_record foo_with_pdf
             [("1", field_entry subject_field (JStr "Hello"))] "uuid-0"), w')
    /\ pdfFiles (db w')
       = [mkPdfFile "uuid-0" "scan 01.pdf" "/srv/uploads/1700000000000-scan_01.pdf"
            2048 "N/A" 1 "PDF text extraction failed"
            [("Document Name", "scan 01.pdf"); ("File Size", "2 KB")]].
Proof.
  destruct (createRecord_pdf_is_best_effort integer_runtime failing_pdf_host
              foo_with_pdf office invoices (mkUser "creator-1")
              [("1", field_entry subject_field (JStr "Hello"))] corrupt_pdf
              eq_refl eq_refl eq_refl eq_refl eq_refl) as [w' [Hok [_ Hrows]]].
  exists w'. split; [exact Hok|].
  exact (proj1 (Hrows eq_refl) (Error "Invalid PDF structure") eq_refl).
Defined.

(** ** Reading a record back *)

Lemma obj_set_Forall (P : string * JsValue -> Prop) (k : string) (v : JsValue)
    (o : JsObject) :
  Forall P o -> P (k, v) -> Forall P (obj_set k v o).
Proof.
  intros Ho Hkv. induction o as [|[k' v'] o IH]; simpl.
  - constructor; [assumption|constructor].
  - inversion Ho; subst. destruct (k' =? k); constructor; auto.
Qed.

Lemma validate_loop_entries (rt : Runtime) (submitted : JsObject)
    (schema fields : list CustomField) :
  incl fields schema ->
  forall acc out w w',
    validate_loop rt submitted fields acc w = (Ok out, w') ->
    Forall (fun kv => exists f v, In f schema /\ snd kv = field_entry f v) acc ->
    Forall (fun kv => exists f v, In f schema /\ snd kv = field_entry f v) out.
Proof.
  induction fields as [|field rest IH]; intros Hincl acc out w w' Hrun Hacc;
    simpl in Hrun.
  - inversion Hrun; subst. assumption.
  - unfold bind in Hrun.
    destruct (mandatory_check field _ w) as [[[]|e] w1]; [|discriminate].
    destruct (process_field rt field _ acc w1) as [[acc1|e] w2] eqn:Hstep;
      [|discriminate].
    apply (IH (fun f Hf => Hincl f (or_intror Hf)) acc1 out w2 w' Hrun).
    assert (Hin : In field schema) by (apply Hincl; left; reflexivity).
    unfold process_field, bind, ret in Hstep.
    destruct (f_type field =? "Attachment").
    + destruct (truthy _); inversion Hstep; subst; [|assumption].
      apply obj_set_Forall; [assumption|]. simpl. eauto.
    + destruct (negb _); [|inversion Hstep; subst; assumption].
      destruct (validateFieldValue rt _ field w1) as [[v|e] w3]; inversion Hstep; subst.
      apply obj_set_Forall; [assumption|]. simpl. eauto.
Qed.

Lemma insert_index_In (kv x : Z * (string * JsValue))
    (l : list (Z * (string * JsValue))) :
  In x (insert_index kv l) -> x = kv \/ In x l.
Proof.
  induction l as [|y l IH]; simpl.
  - intros [<-|[]]. auto.
  - destruct (fst kv <? fst y)%Z; simpl.
    + intros [<-|[<-|H]]; auto.
    + intros [<-|H]; auto. destruct (IH H); auto.
Qed.

Lemma split_index_props_In (o : JsObject) :
  (forall x, In x (fst (split_index_props o)) -> In (snd x) o)
  /\ (forall kv, In kv (snd (split_index_props o)) -> In kv o).
Proof.
  induction o as [|[k v] o [IHix IHnamed]]; simpl; [split; intros ? []|].
  destruct (split_index_props o) as [ix named]. simpl in *.
  destruct (array_index k) as [n|]; simpl; split.
  - intros x Hx. apply insert_index_In in Hx as [->|Hx]; [left; reflexivity|].
    right. apply IHix. assumption.
  - intros kv Hkv. right. apply IHnamed. assumption.
  - intros x Hx. right. apply IHix. assumption.
  - intros kv [<-|Hkv]; [left; reflexivity|]. right. apply IHnamed. assumption.
Qed.

Lemma for_in_order_In (o : JsObject) (kv : string * JsValue) :
  In kv (for_in_order o) -> In kv o.
Proof.
  unfold for_in_order. destruct (split_index_props_In o) as [Hix Hnamed].
  destruct (split_index_props o) as [ix named]. simpl in *.
  intros H. apply in_app_or in H as [H|H]; [|apply Hnamed; assumption].
  apply in_map_iff in H as [x [<- Hx]]. apply Hix. assumption.
Qed.

Lemma first_unreadable_None (o : JsObject) :
  (forall kv, In kv o -> unreadable (snd kv) = None) -> first_unreadable o = None.
Proof.
  induction o as [|[k v] o IH]; intros H; simpl; [reflexivity|].
  pose proof (H (k, v) (or_introl eq_refl)) as Hk. simpl in Hk. rewrite Hk.
  apply IH. intros kv Hkv. apply H.
  right. assumption.
Qed.

Lemma normalize_validated (rt : Runtime) (submitted : JsObject)
    (schema : list CustomField) (out : JsObject) (w w' : World) :
  validateCustomFields rt submitted schema w = (Ok out, w') ->
  forall w0,
    normalize_customFields out w0
    = (Ok (map (fun kv => (fst kv, normalize_attachment (snd kv))) out), w0)
    /\ ((forall f, In f schema -> f_type f <> "Attachment") ->
        map (fun kv => (fst kv, normalize_attachment (snd kv))) out = out).
Proof.
  intros Hrun w0.
  assert (Hentries : Forall (fun kv => exists f v,
                                In f schema /\ snd kv = field_entry f v) out).
  { apply (validate_loop_entries rt submitted schema schema (incl_refl _)
             [] out w w' Hrun). constructor. }
  rewrite Forall_forall in Hentries. split.
  - unfold normalize_customFields. rewrite first_unreadable_None; [reflexivity|].
    intros kv Hkv. apply for_in_order_In in Hkv.
    destruct (Hentries kv Hkv) as [f [v [_ ->]]]. reflexivity.
  - intros Hplain. rewrite <- (map_id out) at 2. apply map_ext_in.
    intros [k e] Hkv. destruct (Hentries (k, e) Hkv) as [f [v [Hf He]]].
    simpl in *. subst e. unfold normalize_attachment. simpl.
    specialize (Hplain f Hf). apply String.eqb_neq in Hplain. rewrite Hplain.
    reflexivity.
Qed.

Lemma find_app_None {A : Type} (p : A -> bool) (l l' : list A) :
  find p l = None -> find p (l ++ l')%list = find p l'.
Proof.
  induction l as [|x l IH]; simpl; [reflexivity|].
  destruct (p x); [discriminate|assumption].
Qed.

Lemma find_app_Some {A : Type} (p : A -> bool) (l l' : list A) (x : A) :
  find p l = Some x -> find p (l ++ l')%list = Some x.
Proof.
  induction l as [|y l IH]; simpl; [discriminate|].
  destruct (p y); [trivial|assumption].
Qed.

(** X7.  A created record can be read back: when no stored row already has
    the generated key, [getRecordById] on the key of the row returned by
    [createRecord] gives that row with its Attachment entries normalised,
    and exactly that row when the cabinet has no Attachment field; nothing
    is written by the read. *)
Theorem createRecord_then_getRecordById (rt : Runtime) (host : Host)
    (data : CreateRecordData) (w w' : World) (record : RecordRow)
    (cabinet : Cabinet) :
  createRecord rt host data w = (Ok record, w') ->
  find (fun c => cab_id c =? c_cabinetId data) (cabinets (db w)) = Some cabinet ->
  find (fun r => r_id r =? next_uuid w) (records (db w)) = None ->
  getRecordById (r_id record) w'
  = (Ok (set_customFields
           (map (fun kv => (fst kv, normalize_attachment (snd kv)))
                (r_customFields record))
           record), w')
  /\ r_title record = trim (c_title data)
  /\ ((forall f, In f (cab_customFields cabinet) -> f_type f <> "Attachment") ->
      getRecordById (r_id record) w' = (Ok record, w')).
Proof.
  intros Hrun Hcabinet Hfresh.
  destruct (all_whitespace (c_title data)) eqn:Htitle.
  { exfalso. revert Hrun. unfold createRecord. unfold bind at 1. unfold throw_if.
    rewrite title_check, Htitle. discriminate. }
  assert (Hcase : exists creator validated,
            find (fun u => u_id u =? c_creatorId data) (users (db w)) = Some creator
            /\ validateCustomFields rt (c_customFields data)
                 (cab_customFields cabinet) w = (Ok validated, w)).
  { destruct (validateCustomFields_pure rt (c_customFields data)
                (cab_customFields cabinet)) as [r Hr].
    destruct (find (fun u => u_id u =? c_creatorId data) (users (db w)))
      as [creator|] eqn:Hcreator.
    2:{ exfalso. revert Hrun. unfold createRecord. unfold bind at 1.
        unfold throw_if. rewrite title_check, Htitle. unfold ret at 1.
        unfold bind at 1, Cabinet_findByPk, gets. rewrite Hcabinet.
        unfold bind at 1, User_findByPk, gets. rewrite Hcreator. discriminate. }
    revert Hrun. unfold createRecord. unfold bind at 1. unfold throw_if.
    rewrite title_check, Htitle. unfold ret at 1.
    unfold bind at 1, Cabinet_findByPk, gets. rewrite Hcabinet.
    unfold bind at 1, User_findByPk, gets. rewrite Hcreator.
    unfold bind at 1. rewrite Hr. destruct r as [validated|e]; [|discriminate].
    intros _. exists creator, validated. try rewrite Hr. auto. }
  destruct Hcase as [creator [validated [Hcreator Hvalid]]].
  destruct (createRecord_run rt host data w cabinet creator validated
              Htitle Hcabinet Hcreator Hvalid) as [w2 [Hok [Hdb _]]].
  rewrite Hok in Hrun. inversion Hrun; subst record w2. clear Hrun.
  destruct (normalize_validated rt _ _ validated w w Hvalid w') as [Hnorm Hplain].
  assert (Hfind : find (fun r => r_id r =? next_uuid w) (records (db w'))
                  = Some (created_record data validated (next_uuid w))).
  { rewrite Hdb. cbn [records with_pdfFiles with_records].
    rewrite (find_app_None _ _ _ Hfresh). simpl. rewrite String.eqb_refl. reflexivity. }
  assert (Hget : getRecordById (next_uuid w) w'
                 = (Ok (set_customFields
                          (map (fun kv => (fst kv, normalize_attachment (snd kv)))
                               validated)
                          (created_record data validated (next_uuid w))), w')).
  { unfold getRecordById, bind, Record_findByPk, gets. rewrite Hfind.
    cbn [r_customFields created_record]. rewrite Hnorm. reflexivity. }
  cbn [r_id r_title r_customFields created_record].
  split; [exact Hget|]. split; [reflexivity|].
  intros Hno. rewrite Hget. rewrite (Hplain Hno). reflexivity.
Qed.

Lemma createRecord_then_getRecordById_witness :
  exists w',
    createRecord integer_runtime failing_pdf_host foo_data office
    = (Ok (created_record foo_data [("1", field_entry subject_field (JStr "Hello"))]
             "uuid-0"), w')
    /\ getRecordById "uuid-0" w'
       = (Ok (created_record foo_data
                [("1", field_entry subject_field (JStr "Hello"))] "uuid-0"), w').
Proof.
  destruct (createRecord_run integer_runtime failing_pdf_host foo_data office
              invoices (mkUser "creator-1")
              [("1", field_entry subject_field (JStr "Hello"))]
              eq_refl eq_refl eq_refl eq_refl) as [w' [Hok _]].
  exists w'. split; [exact Hok|].
  refine (proj2 (proj2 (createRecord_then_getRecordById integer_runtime
                          failing_pdf_host foo_data office w' _ invoices
                          Hok eq_refl eq_refl)) _).
  intros f [<-|[]]; discriminate.
Defined.

Lemma normalize_customFields_read_only (customFields : JsObject) (w : World) :
  snd (normalize_customFields customFields w) = w
  /\ forall status message,
       fst (normalize_customFields customFields w) <> Throw (AppError status message).
Proof.
  unfold normalize_customFields.
  assert (H : forall o e, first_unreadable o = Some e ->
                forall status message, e <> AppError status message).
  { induction o as [|[k v] o IH]; simpl; [discriminate|].
    intros e. destruct v; simpl; try (apply IH); intros He; inversion He;
      discriminate. }
  destruct (first_unreadable _) as [e|] eqn:He; simpl.
  - split; [reflexivity|]. intros status message Heq. inversion Heq.
    apply (H _ _ He status message). assumption.
  - split; [reflexivity|discriminate].
Qed.

(** X8.  [getRecordById] only reads: the world it leaves is the world it was
    given; and it fails with status 400, Record not found, exactly when no
    stored record has the key asked for. *)
Theorem getRecordById_read_only (id : Id) (w : World) :
  snd (getRecordById id w) = w
  /\ (fst (getRecordById id w) = Throw (AppError 400 "Record not found")
      <-> find (fun r => r_id r =? id) (records (db w)) = None).
Proof.
  unfold getRecordById, bind, Record_findByPk, gets.
  destruct (find _ (records (db w))) as [record|].
  - destruct (normalize_customFields_read_only (r_customFields record) w)
      as [Hw Hexn].
    destruct (normalize_customFields (r_customFields record) w) as [[o|e] w1];
      simpl in *; subst w1.
    + split; [reflexivity|]. split; discriminate.
    + split; [reflexivity|]. split; [|discriminate].
      intros Heq. exfalso. apply (Hexn 400%Z "Record not found").
      inversion Heq. reflexivity.
  - simpl. split; [reflexivity|]. split; reflexivity.
Qed.

Lemma getRecordById_read_only_witness :
  getRecordById "rec-9" office = (Throw (AppError 400 "Record not found"), office).
Proof.
  destruct (getRecordById_read_only "rec-9" office) as [Hworld [_ Hmissing]].
  rewrite (surjective_pairing (getRecordById "rec-9" office)).
  rewrite Hworld, (Hmissing eq_refl). reflexivity.
Defined.

(** ** Deleting a version *)

Lemma find_id (id : Id) (rows : list RecordRow) (record : RecordRow) :
  find (fun r => r_id r =? id) rows = Some record -> r_id record = id.
Proof.
  intros H. apply find_some in H as [_ H]. apply String.eqb_eq. assumption.
Qed.

Lemma deleteVersion_run (recordId versionId userId : Id)
    (w : World) (record : RecordRow) (cabinet : Cabinet) (version : RecordVersion) :
  find (fun r => r_id r =? recordId) (records (db w)) = Some record ->
  find (fun c => cab_id c =? r_cabinetId record) (cabinets (db w)) = Some cabinet ->
  r_creatorId record = userId \/ cab_createdById cabinet = userId ->
  find (fun v => (rv_id v =? versionId) && (rv_recordId v =? recordId))
       (recordVersions (db w)) = Some version ->
  List.length (versions_of recordId (db w)) <> 1%nat ->
  exists w',
    deleteVersion recordId versionId userId w = (Ok true, w')
    /\ recordVersions (db w')
       = filter (fun v => negb (rv_id v =? rv_id version)) (recordVersions (db w))
    /\ records (db w')
       = records_after_deleteVersion recordId userId record version (db w).
Proof.
  intros Hrecord Hcabinet Hmay Hversion Hcount.
  assert (Hperm : negb (r_creatorId record =? userId)
                  && negb (cab_createdById cabinet =? userId) = false).
  { destruct Hmay as [H|H]; apply String.eqb_eq in H; rewrite H;
      [reflexivity|apply andb_false_r]. }
  apply Nat.eqb_neq in Hcount.
  cbv beta iota zeta delta [deleteVersion bind Record_findByPk Cabinet_findByPk gets
    throw_if throw ret modify_db modify Record_update records_after_deleteVersion].
  rewrite Hrecord, Hcabinet, Hperm, Hversion, Hcount.
  destruct (rv_version version =? r_version record)%Z.
  - destruct (latest_by rv_version _) as [previous|];
      (eexists; split; [reflexivity|split; reflexivity]).
  - eexists. split; [reflexivity|split; reflexivity].
Qed.

(** X9.  Deleting a version of a record that has others.  When the version is
    not the one the record points to, the records are left as they are.
    When it is, the record is pointed to the version of the record with
    the greatest number below it, taking its file and number and the
    caller as last modifier; if no version of the record has a lower
    number the record is left as it is, still carrying the number of the
    deleted version. *)
Theorem deleteVersion_promotes_previous (recordId versionId userId : Id)
    (w : World) (record : RecordRow) (cabinet : Cabinet) (version : RecordVersion) :
  find (fun r => r_id r =? recordId) (records (db w)) = Some record ->
  find (fun c => cab_id c =? r_cabinetId record) (cabinets (db w)) = Some cabinet ->
  r_creatorId record = userId \/ cab_createdById cabinet = userId ->
  find (fun v => (rv_id v =? versionId) && (rv_recordId v =? recordId))
       (recordVersions (db w)) = Some version ->
  List.length (versions_of recordId (db w)) <> 1%nat ->
  exists w',
    deleteVersion recordId versionId userId w = (Ok true, w')
    /\ (rv_version version <> r_version record -> records (db w') = records (db w))
    /\ (rv_version version = r_version record ->
        (forall v, In v (versions_of recordId (db w)) ->
                   (rv_version version <= rv_version v)%Z) ->
        records (db w') = records (db w))
    /\ (rv_version version = r_version record ->
        forall lower, In lower (versions_of recordId (db w)) ->
                      (rv_version lower < rv_version version)%Z ->
        exists previous,
          In previous (versions_of recordId (db w))
          /\ (rv_version lower <= rv_version previous < rv_version version)%Z
          /\ find (fun r => r_id r =? recordId) (records (db w'))
             = Some (set_active_file (rv_file previous) (rv_version previous)
                       userId record)).
Proof.
  intros Hrecord Hcabinet Hmay Hversion Hcount.
  destruct (deleteVersion_run recordId versionId userId w record cabinet version
              Hrecord Hcabinet Hmay Hversion Hcount) as [w' [Hok [_ Hrecords]]].
  exists w'. split; [exact Hok|]. rewrite Hrecords.
  unfold records_after_deleteVersion.
  destruct (rv_version version =? r_version record)%Z eqn:Hactive.
  - apply Z.eqb_eq in Hactive.
    destruct (latest_by rv_version
                (filter (fun v => (rv_version v <? rv_version version)%Z)
                        (versions_of recordId (db w)))) as [previous|] eqn:Hprev.
    + apply latest_by_Some in Hprev as [Hin Hmax].
      apply filter_In in Hin as [Hin Hlt]. apply Z.ltb_lt in Hlt.
      split; [congruence|]. split.
      * intros _ Hnone. specialize (Hnone previous Hin). lia.
      * intros _ lower Hlower Hlow. exists previous.
        split; [assumption|]. split.
        -- split; [|assumption]. apply Hmax. apply filter_In.
           split; [assumption|]. apply Z.ltb_lt. assumption.
        -- rewrite (find_id _ _ _ Hrecord).
           rewrite find_map_update by reflexivity. rewrite Hrecord. reflexivity.
    + split; [reflexivity|]. split; [reflexivity|].
      intros _ lower Hlower Hlow. exfalso. apply latest_by_None in Hprev.
      assert (Hin : In lower (filter (fun v => (rv_version v <? rv_version version)%Z)
                                 (versions_of recordId (db w)))).
      { apply filter_In. split; [assumption|]. apply Z.ltb_lt. assumption. }
      rewrite Hprev in Hin. destruct Hin.
  - apply Z.eqb_neq in Hactive.
    split; [reflexivity|]. split; intros; contradiction.
Qed.

Lemma deleteVersion_promotes_previous_witness :
  exists w',
    deleteVersion "rec-1" "uuid-1" "creator-1" office_with_two_versions = (Ok true, w')
    /\ exists previous,
         In previous (versions_of "rec-1" (db office_with_two_versions))
         /\ (1 <= rv_version previous < 2)%Z
         /\ find (fun r => r_id r =? "rec-1") (records (db w'))
            = Some (set_active_file (rv_file previous) (rv_version previous)
                      "creator-1"
                      (set_active_file descriptor_b 2 "owner-1" approved_record)).
Proof.
  destruct (deleteVersion_promotes_previous "rec-1" "uuid-1" "creator-1"
              office_with_two_versions
              (set_active_file descriptor_b 2 "owner-1" approved_record) invoices
              (mkRecordVersion "uuid-1" "rec-1" 2 descriptor_b "owner-1"
                               (Some "rescanned"))
              eq_refl eq_refl (or_introl eq_refl) eq_refl
              ltac:(discriminate)) as [w' [Hok [_ [_ Hpromoted]]]].
  exists w'. split; [exact Hok|].
  exact (Hpromoted eq_refl
           (mkRecordVersion "uuid-0" "rec-1" 1 descriptor_a "creator-1" None)
           (or_introl eq_refl) ltac:(reflexivity)).
Defined.

(** ** Deleting a record *)

Lemma find_filter_out {A : Type} (p : A -> bool) (l : list A) :
  find p (filter (fun x => negb (p x)) l) = None.
Proof.
  induction l as [|x l IH]; simpl; [reflexivity|].
  destruct (p x) eqn:E; simpl; [assumption|]. rewrite E. assumption.
Qed.

Lemma find_filter_kept {A : Type} (p q : A -> bool) (l : list A) :
  (forall x, p x = true -> q x = true) ->
  find p (filter q l) = find p l.
Proof.
  intros Hpq. induction l as [|x l IH]; simpl; [reflexivity|].
  destruct (q x) eqn:Hq; simpl.
  - rewrite IH. reflexivity.
  - destruct (p x) eqn:Hp; [|assumption]. rewrite (Hpq x Hp) in Hq. discriminate.
Qed.

Lemma filter_filter_out {A : Type} (p : A -> bool) (l : list A) :
  filter p (filter (fun x => negb (p x)) l) = [].
Proof.
  induction l as [|x l IH]; simpl; [reflexivity|].
  destruct (p x) eqn:E; simpl; [assumption|]. rewrite E. assumption.
Qed.

Lemma filter_filter_kept {A : Type} (p q : A -> bool) (l : list A) :
  (forall x, p x = true -> q x = true) ->
  filter p (filter q l) = filter p l.
Proof.
  intros Hpq. induction l as [|x l IH]; simpl; [reflexivity|].
  destruct (q x) eqn:Hq; simpl.
  - rewrite IH. reflexivity.
  - destruct (p x) eqn:Hp; [|assumption]. rewrite (Hpq x Hp) in Hq. discriminate.
Qed.

Lemma other_key (a b c : string) : c <> b -> (a =? c) = true -> negb (a =? b) = true.
Proof.
  intros Hne Heq. apply String.eqb_eq in Heq. subst a.
  apply negb_true_iff. apply String.eqb_neq. assumption.
Qed.

(** X10.  [deleteRecord] on a stored record whose cabinet exists.  A caller who
    is not the creator, the cabinet owner, a listed approver or a
    member_full of the cabinet gets 403 and nothing is changed.  For any
    other caller the call succeeds and commits: the record and all its
    versions are gone, and every other record and its versions are as
    before. *)
Theorem deleteRecord_outcome (id userId : Id) (w : World) (record : RecordRow)
    (cabinet : Cabinet) :
  find (fun r => r_id r =? id) (records (db w)) = Some record ->
  find (fun c => cab_id c =? r_cabinetId record) (cabinets (db w)) = Some cabinet ->
  (may_delete (db w) record cabinet userId = false ->
   deleteRecord id userId w
   = (Throw (AppError 403 "You do not have permission to delete this record"), w))
  /\ (may_delete (db w) record cabinet userId = true ->
      exists w',
        deleteRecord id userId w = (Ok true, w')
        /\ tx w' = None
        /\ find (fun r => r_id r =? id) (records (db w')) = None
        /\ versions_of id (db w') = []
        /\ forall other, other <> id ->
             find (fun r => r_id r =? other) (records (db w'))
             = find (fun r => r_id r =? other) (records (db w))
             /\ versions_of other (db w') = versions_of other (db w)).
Proof.
  intros Hrecord Hcabinet.
  pose proof (find_id _ _ _ Hrecord) as Hid.
  cbv beta iota zeta delta [deleteRecord bind Record_findByPk Cabinet_findByPk gets
    CabinetMember_findOne throw_if].
  rewrite Hrecord, Hcabinet.
  assert (Hperm : negb (r_creatorId record =? userId)
                  && negb (cab_createdById cabinet =? userId)
                  && negb (isApprover cabinet userId)
                  && negb match find (fun m => (cm_cabinetId m =? cab_id cabinet)
                                       && (cm_userId m =? userId)
                                       && (cm_role m =? "member_full"))
                                     (cabinetMembers (db w)) with
                          | Some _ => true
                          | None => false
                          end
                  = negb (may_delete (db w) record cabinet userId)).
  { unfold may_delete. rewrite !negb_orb. reflexivity. }
  rewrite Hperm. split; intros Hmay; rewrite Hmay; simpl negb; cbv iota.
  - reflexivity.
  - cbv beta iota zeta delta [ret transaction_begin try_catch bind modify_db modify
      transaction_commit].
    eexists. split; [reflexivity|].
    cbn [db tx with_db with_tx records recordVersions with_records
         with_recordVersions versions_of].
    split; [reflexivity|]. rewrite Hid. split; [apply find_filter_out|].
    split; [unfold versions_of; cbn [recordVersions]; apply filter_filter_out|].
    intros other Hother. split.
    + apply find_filter_kept. intros x. apply other_key. assumption.
    + unfold versions_of. cbn [recordVersions]. apply filter_filter_kept.
      intros x. apply other_key. assumption.
Qed.

Lemma deleteRecord_outcome_witness :
  deleteRecord "rec-1" "outsider-1" office_with_two_versions
  = (Throw (AppError 403 "You do not have permission to delete this record"),
     office_with_two_versions)
  /\ exists w',
       deleteRecord "rec-1" "approver-1" office_with_two_versions = (Ok true, w')
       /\ find (fun r => r_id r =? "rec-1") (records (db w')) = None
       /\ versions_of "rec-1" (db w') = [].
Proof.
  split.
  - exact (proj1 (deleteRecord_outcome "rec-1" "outsider-1" office_with_two_versions
                    (set_active_file descriptor_b 2 "owner-1" approved_record)
                    invoices eq_refl eq_refl) eq_refl).
  - destruct (proj2 (deleteRecord_outcome "rec-1" "approver-1"
                       office_with_two_versions
                       (set_active_file descriptor_b 2 "owner-1" approved_record)
                       invoices eq_refl eq_refl) eq_refl)
      as [w' [Hok [_ [Hgone [Hversions _]]]]].
    exists w'. split; [exact Hok|]. split; [exact Hgone|exact Hversions].
Defined.

(** X11.  Only the creator of the record and the owner of its cabinet may
    delete a version: for every other caller, a listed approver or a
    member_full of the cabinet included, [deleteVersion] on a stored record
    whose cabinet exists throws 403 and changes nothing; and a call that
    succeeds was made by the creator or the cabinet owner. *)
Theorem deleteVersion_permission (recordId versionId userId : Id) (w : World)
    (record : RecordRow) (cabinet : Cabinet) :
  find (fun r => r_id r =? recordId) (records (db w)) = Some record ->
  find (fun c => cab_id c =? r_cabinetId record) (cabinets (db w)) = Some cabinet ->
  (r_creatorId record <> userId ->
   cab_createdById cabinet <> userId ->
   deleteVersion recordId versionId userId w
   = (Throw (AppError 403 "You do not have permission to delete this version"), w))
  /\ (forall result w',
        deleteVersion recordId versionId userId w = (Ok result, w') ->
        r_creatorId record = userId \/ cab_createdById cabinet = userId).
Proof.
  intros Hrecord Hcabinet.
  cbv beta iota zeta delta [deleteVersion bind Record_findByPk Cabinet_findByPk gets
    throw_if].
  rewrite Hrecord, Hcabinet. split.
  - intros Hcreator Howner. apply String.eqb_neq in Hcreator, Howner.
    rewrite Hcreator, Howner. reflexivity.
  - intros result w'.
    destruct (String.eqb_spec (r_creatorId record) userId) as [Hc|Hc]; [auto|].
    destruct (String.eqb_spec (cab_createdById cabinet) userId) as [Ho|Ho]; [auto|].
    simpl. unfold throw. discriminate.
Qed.

Lemma deleteVersion_permission_witness :
  deleteVersion "rec-1" "uuid-1" "approver-1" office_with_two_versions
  = (Throw (AppError 403 "You do not have permission to delete this version"),
     office_with_two_versions)
  /\ isApprover invoices "approver-1" = true.
Proof.
  split; [|reflexivity].
  apply (proj1 (deleteVersion_permission "rec-1" "uuid-1" "approver-1"
                  office_with_two_versions
                  (set_active_file descriptor_b 2 "owner-1" approved_record)
                  invoices eq_refl eq_refl)); discriminate.
Defined.

(** ** Uploading a version and deleting it again *)

Lemma createNewVersion_world (recordId : Id) (versionData : VersionData) (w : World)
    (record : RecordRow) :
  find (fun r => r_id r =? recordId) (records (db w)) = Some record ->
  exists w',
    createNewVersion recordId versionData w
    = (Ok (mkRecordVersion (next_uuid w) recordId (next_version recordId (db w))
             (vd_file versionData) (vd_uploadedBy versionData)
             (vd_note versionData)), w')
    /\ recordVersions (db w')
       = (recordVersions (db w)
          ++ [mkRecordVersion (next_uuid w) recordId (next_version recordId (db w))
                (vd_file versionData) (vd_uploadedBy versionData)
                (vd_note versionData)])%list
    /\ cabinets (db w') = cabinets (db w)
    /\ find (fun r => r_id r =? recordId) (records (db w'))
       = Some (set_active_file (vd_file versionData) (next_version recordId (db w))
                               (vd_uploadedBy versionData) record).
Proof.
  intros Hfind. pose proof (find_id _ _ _ Hfind) as Hid.
  cbv beta iota zeta delta [createNewVersion bind Record_findByPk gets
    RecordVersion_findLatest fresh_id modify_db modify Record_update ret].
  rewrite Hfind. cbv beta iota.
  eexists. split; [reflexivity|]. simpl.
  split; [reflexivity|]. split; [reflexivity|].
  rewrite Hid. rewrite find_map_update by reflexivity.
  rewrite Hfind. reflexivity.
Qed.

Lemma filter_all {A : Type} (p : A -> bool) (l : list A) :
  (forall x, In x l -> p x = true) -> filter p l = l.
Proof.
  intros H. induction l as [|x l IH]; simpl; [reflexivity|].
  rewrite (H x (or_introl eq_refl)), IH; [reflexivity|].
  intros y Hy. apply H. right. assumption.
Qed.

(** X12.  Uploading a version and deleting it again.  On a record that has
    versions, whose creator or cabinet owner then deletes the version just
    returned by [createNewVersion], the version table is as before the
    upload, the record points to its latest version before the upload, with
    the deleting caller as last modifier, and the number the deleted
    version had is the one the next upload will get. *)
Theorem createNewVersion_then_deleteVersion (recordId userId : Id)
    (versionData : VersionData) (w : World) (record : RecordRow) (cabinet : Cabinet)
    (latest : RecordVersion) :
  find (fun r => r_id r =? recordId) (records (db w)) = Some record ->
  find (fun c => cab_id c =? r_cabinetId record) (cabinets (db w)) = Some cabinet ->
  r_creatorId record = userId \/ cab_createdById cabinet = userId ->
  latest_by rv_version (versions_of recordId (db w)) = Some latest ->
  (forall v, In v (recordVersions (db w)) -> rv_id v <> next_uuid w) ->
  exists version w1 w2,
    createNewVersion recordId versionData w = (Ok version, w1)
    /\ deleteVersion recordId (rv_id version) userId w1 = (Ok true, w2)
    /\ recordVersions (db w2) = recordVersions (db w)
    /\ find (fun r => r_id r =? recordId) (records (db w2))
       = Some (set_active_file (rv_file latest) (rv_version latest) userId record)
    /\ next_version recordId (db w2) = rv_version version.
Proof.
  intros Hrecord Hcabinet Hmay Hlatest Hfresh.
  destruct (createNewVersion_world recordId versionData w record Hrecord)
    as [w1 [Hcreate [Hrows1 [Hcabinets1 Hrecord1]]]].
  set (version := mkRecordVersion (next_uuid w) recordId
                    (next_version recordId (db w)) (vd_file versionData)
                    (vd_uploadedBy versionData) (vd_note versionData)) in *.
  assert (Hversions1 : versions_of recordId (db w1)
                       = (versions_of recordId (db w) ++ [version])%list).
  { apply versions_of_app; [assumption|reflexivity]. }
  assert (Hnext : next_version recordId (db w) = (rv_version latest + 1)%Z).
  { unfold next_version. rewrite Hlatest. reflexivity. }
  destruct (latest_by_Some _ _ _ Hlatest) as [Hin Hmax].
  assert (Hstale : forall v, In v (recordVersions (db w)) ->
                     negb (rv_id v =? next_uuid w) = true).
  { intros v Hv. apply negb_true_iff. apply String.eqb_neq. apply Hfresh.
    assumption. }
  assert (Hfind1 : find (fun v => (rv_id v =? rv_id version)
                                  && (rv_recordId v =? recordId))
                        (recordVersions (db w1)) = Some version).
  { rewrite Hrows1. rewrite find_app_None.
    - simpl. rewrite !String.eqb_refl. reflexivity.
    - destruct (find _ (recordVersions (db w))) as [v|] eqn:Hv; [|reflexivity].
      apply find_some in Hv as [Hv Heq]. apply andb_true_iff in Heq as [Heq _].
      apply String.eqb_eq in Heq. exfalso. apply (Hfresh v Hv). exact Heq. }
  destruct (deleteVersion_run recordId (rv_id version) userId w1
              (set_active_file (vd_file versionData) (next_version recordId (db w))
                               (vd_uploadedBy versionData) record)
              cabinet version Hrecord1)
    as [w2 [Hdelete [Hrows2 Hrecords2]]].
  - rewrite Hcabinets1. exact Hcabinet.
  - exact Hmay.
  - exact Hfind1.
  - rewrite Hversions1, length_app. simpl.
    destruct (versions_of recordId (db w)); [destruct Hin|simpl; lia].
  - exists version, w1, w2. split; [exact Hcreate|]. split; [exact Hdelete|].
    assert (Hback : recordVersions (db w2) = recordVersions (db w)).
    { rewrite Hrows2, Hrows1, filter_app. simpl. rewrite String.eqb_refl. simpl.
      rewrite app_nil_r. apply filter_all. exact Hstale. }
    split; [exact Hback|]. split.
    + rewrite Hrecords2. unfold records_after_deleteVersion.
      cbn [r_version set_active_file rv_version version]. rewrite Z.eqb_refl.
      rewrite Hversions1, filter_app.
      cbn [filter rv_version version]. rewrite Z.ltb_irrefl, app_nil_r.
      rewrite filter_all.
      2:{ intros v Hv. apply Z.ltb_lt. specialize (Hmax v Hv). lia. }
      rewrite Hlatest. cbn [r_id set_active_file].
      rewrite (find_id _ _ _ Hrecord).
      rewrite find_map_update by reflexivity. rewrite Hrecord1. reflexivity.
    + unfold next_version, versions_of. rewrite Hback.
      fold (versions_of recordId (db w)). rewrite Hlatest. simpl. lia.
Qed.

Lemma createNewVersion_then_deleteVersion_witness :
  exists version w1 w2,
    createNewVersion "rec-1" upload_b office_with_one_version = (Ok version, w1)
    /\ deleteVersion "rec-1" (rv_id version) "creator-1" w1 = (Ok true, w2)
    /\ recordVersions (db w2) = recordVersions (db office_with_one_version)
    /\ find (fun r => r_id r =? "rec-1") (records (db w2))
       = Some (set_active_file descriptor_a 1 "creator-1"
                 (set_active_file descriptor_a 1 "creator-1" approved_record))
    /\ next_version "rec-1" (db w2) = rv_version version.
Proof.
  apply (createNewVersion_then_deleteVersion "rec-1" "creator-1" upload_b
           office_with_one_version
           (set_active_file descriptor_a 1 "creator-1" approved_record) invoices
           (mkRecordVersion "uuid-0" "rec-1" 1 descriptor_a "creator-1" None)
           eq_refl eq_refl (or_introl eq_refl) eq_refl).
  intros v [<-|[]]. discriminate.
Defined.

(** ** Approving a record *)

(** X13.  [approveRecord] checks neither the status of the record nor the
    caller.  On a missing record it throws 404 and leaves the database as
    it was.  On a stored record, whatever its status and whoever calls,
    the approval is committed: the record carries the patch, status
    approved and the caller as last modifier, and one system note with
    action approve and the given note (Record approved when there is none)
    is appended.  A failure of the activity log or of the notification
    after the commit is rethrown, and the approval stays. *)
Theorem approveRecord_outcome (host : Host) (desk : Desk) (recordId userId : Id)
    (note : option string) (data : option RecordPatch) (w : World) :
  (find (fun r => r_id r =? recordId) (records (db w)) = None ->
   exists w',
     approveRecord host desk recordId userId note data w
     = (Throw (AppError 404 "Record not found"), w')
     /\ db w' = db w /\ tx w' = None)
  /\ (forall record,
        find (fun r => r_id r =? recordId) (records (db w)) = Some record ->
        exists w',
          approveRecord host desk recordId userId note data w
          = (approval_outcome host desk recordId userId
               (set_status APPROVED userId (apply_patch data record)), w')
          /\ tx w' = None
          /\ find (fun r => r_id r =? recordId) (records (db w'))
             = Some (set_status APPROVED userId (apply_patch data record))
          /\ recordNoteComments (db w')
             = (recordNoteComments (db w)
                ++ [approval_note recordId userId note])%list).
Proof.
  split.
  - intros Hmissing.
    cbv beta iota zeta delta [approveRecord bind try_catch transaction_begin modify
      Record_findByPk gets throw ret transaction_rollback].
    cbn [db with_tx with_db tx]. rewrite Hmissing. cbv beta iota.
    cbn [db with_tx with_db tx].
    eexists. split; [reflexivity|]. split; reflexivity.
  - intros record Hrecord. pose proof (find_id _ _ _ Hrecord) as Hid.
    assert (Hstored :
      find (fun r => r_id r =? recordId)
           (map (fun r => if r_id r =? r_id record
                          then set_status APPROVED userId (apply_patch data r)
                          else r) (records (db w)))
      = Some (set_status APPROVED userId (apply_patch data record))).
    { rewrite Hid. rewrite find_map_update.
      - rewrite Hrecord. reflexivity.
      - intros r. destruct data; reflexivity. }
    cbv beta iota zeta delta [approveRecord bind try_catch transaction_begin modify
      Record_findByPk gets throw ret transaction_rollback Record_update modify_db
      transaction_commit logActivity approval_outcome].
    cbn [db with_tx with_db tx]. rewrite Hrecord. cbv beta iota.
    cbn [db with_tx with_db tx records with_records with_recordNoteComments
         recordNoteComments].
    destruct (logActivity_failure host _) as [e|]; cbv beta iota;
      cbn [db with_tx with_db tx records with_records with_recordNoteComments
           recordNoteComments].
    + eexists. split; [reflexivity|]. cbn [db tx records recordNoteComments].
      split; [reflexivity|]. split; [exact Hstored|reflexivity].
    + destruct (createRecordApprovalNotification desk) as [send|]; cbv beta iota.
      * destruct (send _ _ _) as [e|]; cbv beta iota;
          cbn [db with_tx with_db tx records with_records with_recordNoteComments
               recordNoteComments].
        -- eexists. split; [reflexivity|]. cbn [db tx records recordNoteComments].
           split; [reflexivity|]. split; [exact Hstored|reflexivity].
        -- rewrite Hstored. eexists. split; [reflexivity|].
           cbn [db tx records recordNoteComments].
           split; [reflexivity|]. split; [exact Hstored|reflexivity].
      * cbn [db with_tx with_db tx records with_records with_recordNoteComments
             recordNoteComments].
        rewrite Hstored. eexists. split; [reflexivity|].
        cbn [db tx records recordNoteComments].
        split; [reflexivity|]. split; [exact Hstored|reflexivity].
Qed.

Lemma approveRecord_outcome_witness :
  exists w',
    approveRecord failing_pdf_host unreachable_desk "uuid-0" "outsider-1" None None
                  office_with_draft
    = (Throw (Error "Mail server unreachable"), w')
    /\ find (fun r => r_id r =? "uuid-0") (records (db w'))
       = Some (set_status APPROVED "outsider-1" foo_record)
    /\ recordNoteComments (db w')
       = [mkNote "uuid-0" "Record approved" "system" (Some "approve") "outsider-1"].
Proof.
  destruct (proj2 (approveRecord_outcome failing_pdf_host unreachable_desk "uuid-0"
                     "outsider-1" None None office_with_draft)
                  foo_record eq_refl) as [w' [Hrun [_ [Hstored Hnotes]]]].
  exists w'. split; [exact Hrun|]. split; [exact Hstored|exact Hnotes].
Defined.

(** ** Rejecting a record *)

Lemma rejectRecord_refused (host : Host) (recordId userId : Id)
    (note comments : option string) (data : option RecordPatch) (w : World)
    (record : RecordRow) (cabinet : Cabinet) :
  find (fun r => r_id r =? recordId) (records (db w)) = Some record ->
  find (fun c => cab_id c =? r_cabinetId record) (cabinets (db w)) = Some cabinet ->
  r_status record <> PENDING ->
  fst (rejectRecord host recordId userId note comments data w)
  = Throw (if may_reject (db w) record cabinet userId
           then AppError 400 "Only pending records can be rejected"
           else AppError 403 "User is not authorized to reject this record")
  /\ db (snd (rejectRecord host recordId userId note comments data w)) = db w.
Proof.
  intros Hrecord Hcabinet Hstatus.
  assert (Hnot : RecordStatus_eqb (r_status record) PENDING = false).
  { destruct (r_status record); try reflexivity. contradiction. }
  cbv beta iota zeta delta [rejectRecord bind try_catch transaction_begin modify
    Record_findByPk Cabinet_findByPk CabinetMember_findOne gets throw_if throw ret
    transaction_rollback may_reject].
  cbn [db with_tx with_db tx].
  rewrite Hrecord. cbv beta iota. cbn [db with_tx with_db tx].
  rewrite Hcabinet. cbv beta iota. cbn [db with_tx with_db tx].
  rewrite Hcabinet. cbv beta iota.
  destruct (isApprover cabinet userId); cbn [negb orb]; cbv beta iota.
  - rewrite Hnot. split; reflexivity.
  - cbn [db with_tx with_db tx].
    destruct (find _ (cabinetMembers (db w))) as [member|]; cbv beta iota.
    + rewrite Hnot. split; reflexivity.
    + split; reflexivity.
Qed.



(** X15.  Rejecting right after approving.  In the state [approveRecord]
    leaves on a stored record, whatever it answered, [rejectRecord] on the
    record is refused, with 400 for a caller who may reject and 403 for
    another, and changes nothing, as long as the cabinet of the approved
    record exists.  Nothing is said of a state reached by further
    writes. *)
Theorem rejectRecord_after_approveRecord (host : Host) (desk : Desk)
    (recordId approver userId : Id) (note note' comments : option string)
    (data data' : option RecordPatch) (w : World) (record : RecordRow)
    (cabinet : Cabinet) :
  find (fun r => r_id r =? recordId) (records (db w)) = Some record ->
  find (fun c => cab_id c =? r_cabinetId (apply_patch data record))
       (cabinets (db w)) = Some cabinet ->
  exists outcome w1,
    approveRecord host desk recordId approver note data w = (outcome, w1)
    /\ fst (rejectRecord host recordId userId note' comments data' w1)
       = Throw (if may_reject (db w1) (set_status APPROVED approver
                                         (apply_patch data record)) cabinet userId
                then AppError 400 "Only pending records can be rejected"
                else AppError 403 "User is not authorized to reject this record")
    /\ db (snd (rejectRecord host recordId userId note' comments data' w1)) = db w1.
Proof.
  intros Hrecord Hcabinet.
  destruct (approveRecord host desk recordId approver note data w) as [outcome w1]
    eqn:Hrun.
  exists outcome, w1. split; [reflexivity|].
  assert (Hafter :
    find (fun r => r_id r =? recordId) (records (db w1))
    = Some (set_status APPROVED approver (apply_patch data record))
    /\ cabinets (db w1) = cabinets (db w)).
  { pose proof (find_id _ _ _ Hrecord) as Hid.
    assert (Hstored :
      find (fun r => r_id r =? recordId)
           (map (fun r => if r_id r =? r_id record
                          then set_status APPROVED approver (apply_patch data r)
                          else r) (records (db w)))
      = Some (set_status APPROVED approver (apply_patch data record))).
    { rewrite Hid. rewrite find_map_update.
      - rewrite Hrecord. reflexivity.
      - intros r. destruct data; reflexivity. }
    revert Hrun.
    cbv beta iota zeta delta [approveRecord bind try_catch transaction_begin modify
      Record_findByPk gets throw ret transaction_rollback Record_update modify_db
      transaction_commit logActivity].
    cbn [db with_tx with_db tx]. rewrite Hrecord. cbv beta iota.
    cbn [db with_tx with_db tx records with_records with_recordNoteComments
         recordNoteComments].
    destruct (logActivity_failure host _) as [e|]; cbv beta iota;
      cbn [db with_tx with_db tx records with_records with_recordNoteComments
           recordNoteComments].
    - intros H. inversion H; subst. cbn [db records cabinets with_records
        with_recordNoteComments]. split; [exact Hstored|reflexivity].
    - destruct (createRecordApprovalNotification desk) as [send|]; cbv beta iota.
      + destruct (send _ _ _) as [e|]; cbv beta iota;
          cbn [db with_tx with_db tx records with_records with_recordNoteComments
               recordNoteComments];
          intros H; inversion H; subst;
          cbn [db records cabinets with_records with_recordNoteComments];
          (split; [exact Hstored|reflexivity]).
      + cbn [db with_tx with_db tx records with_records with_recordNoteComments
             recordNoteComments].
        intros H. inversion H; subst.
        cbn [db records cabinets with_records with_recordNoteComments].
        split; [exact Hstored|reflexivity]. }
  destruct Hafter as [Hstored Hcabinets].
  apply rejectRecord_refused.
  - exact Hstored.
  - rewrite Hcabinets.
    replace (r_cabinetId (set_status APPROVED approver (apply_patch data record)))
      with (r_cabinetId (apply_patch data record)) by reflexivity.
    exact Hcabinet.
  - discriminate.
Qed.

Lemma rejectRecord_after_approveRecord_witness :
  exists outcome w1,
    approveRecord failing_pdf_host quiet_desk "uuid-0" "owner-1" None None
                  office_with_pending = (outcome, w1)
    /\ fst (rejectRecord failing_pdf_host "uuid-0" "approver-1" None None None w1)
       = Throw (AppError 400 "Only pending records can be rejected").
Proof.
  destruct (rejectRecord_after_approveRecord failing_pdf_host quiet_desk "uuid-0"
              "owner-1" "approver-1" None None None None None
              office_with_pending pending_record invoices eq_refl eq_refl)
    as [outcome [w1 [Hrun [Hrefused _]]]].
  exists outcome, w1. split; [exact Hrun|]. exact Hrefused.
Defined.

(** ** Updating a record *)

Lemma try_catch_bind_ok {A B : Type} (m : M A) (k : A -> M B) (h : Exn -> M B)
    (w w1 : World) (a : A) :
  m w = (Ok a, w1) -> try_catch (bind m k) h w = try_catch (k a) h w1.
Proof. intros H. unfold try_catch, bind. rewrite H. reflexivity. Qed.

Lemma try_catch_bind_throw {A B : Type} (m : M A) (k : A -> M B) (h : Exn -> M B)
    (w w1 : World) (e : Exn) :
  m w = (Throw e, w1) -> try_catch (bind m k) h w = h e w1.
Proof. intros H. unfold try_catch, bind. rewrite H. reflexivity. Qed.

(** The handler of [updateRecord], [approveRecord] and [rejectRecord] once
    the transaction is finished: the rollback fails, which is swallowed,
    and the error is rethrown. *)
Lemma rethrow_after_commit {A : Type} (error : Exn) (w : World) :
  tx w = None ->
  bind (try_catch transaction_rollback (fun _ => ret tt))
       (fun _ => @throw A error) w
  = (Throw error, w).
Proof.
  intros Htx. unfold bind, try_catch, transaction_rollback. rewrite Htx.
  reflexivity.
Qed.

Lemma logActivity_run (host : Host) (entry : ActivityEntry) (w : World) :
  (exists e, logActivity_failure host entry = Some e
             /\ logActivity host entry w = (Throw e, w))
  \/ (exists w', logActivity_failure host entry = None
                 /\ logActivity host entry w = (Ok tt, w')
                 /\ db w' = db w /\ tx w' = tx w).
Proof.
  unfold logActivity. destruct (logActivity_failure host entry) as [e|].
  - left. exists e. split; reflexivity.
  - right. eexists. split; [reflexivity|]. split; [reflexivity|].
    split; reflexivity.
Qed.

Lemma notify_run (host : Host) (call : NotificationCall) (w : World) :
  (exists e, notification_failure host call = Some e
             /\ notify host call w = (Throw e, w))
  \/ (exists w', notification_failure host call = None
                 /\ notify host call w = (Ok tt, w')
                 /\ db w' = db w /\ tx w' = tx w).
Proof.
  unfold notify. destruct (notification_failure host call) as [e|].
  - left. exists e. split; reflexivity.
  - right. eexists. split; [reflexivity|]. split; [reflexivity|].
    split; reflexivity.
Qed.

(** X16.  [updateRecord] makes no check of its own on the patch or on the
    caller.  On a missing record it throws 404
    and leaves the database as it was.  On a stored record the update is
    committed whatever the call answers: the record carries the patch as
    given, with the caller as last modifier, and the comments of the call,
    if any, are stored as one comment.  When the call answers, it answers
    the stored row with its Attachment entries rebuilt; it does so whenever
    the activity log and the notification succeed and no custom field of
    the stored row is null or undefined. *)
Theorem updateRecord_outcome (host : Host) (id userId : Id) (data : UpdateRecordData)
    (w : World) :
  (find (fun r => r_id r =? id) (records (db w)) = None ->
   exists w',
     updateRecord host id data userId w
     = (Throw (AppError 404 "Record not found"), w')
     /\ db w' = db w /\ tx w' = None)
  /\ (forall record,
        find (fun r => r_id r =? id) (records (db w)) = Some record ->
        exists outcome w',
          updateRecord host id data userId w = (outcome, w')
          /\ tx w' = None
          /\ find (fun r => r_id r =? id) (records (db w'))
             = Some (updated_record data userId record)
          /\ recordNoteComments (db w')
             = (recordNoteComments (db w)
                ++ update_comments id userId (up_comments data))%list
          /\ (forall answer, outcome = Ok answer ->
                answer = normalized_record (updated_record data userId record))
          /\ (logActivity_failure host
                (mkActivity userId UPDATE RECORD id
                   (r_title (updated_record data userId record))
                   (string_or (up_note data) "Record updated")) = None ->
              (forall call, notification_failure host call = None) ->
              first_unreadable
                (for_in_order (r_customFields (updated_record data userId record)))
              = None ->
              outcome = Ok (normalized_record (updated_record data userId record)))).
Proof.
  split.
  - intros Hmissing.
    cbv beta iota zeta delta [updateRecord bind try_catch transaction_begin modify
      Record_findByPk gets throw ret transaction_rollback].
    cbn [db with_tx with_db tx]. rewrite Hmissing. cbv beta iota.
    cbn [db with_tx with_db tx].
    eexists. split; [reflexivity|]. split; reflexivity.
  - intros record Hrecord. pose proof (find_id _ _ _ Hrecord) as Hid.
    set (updated := updated_record data userId record).
    set (w0 := with_tx (Some (db w)) w).
    set (w1 := with_db (with_records
                          (map (fun r => if r_id r =? r_id record
                                         then updated_record data userId r else r)
                               (records (db w0))) (db w0)) w0).
    set (w2 := with_db (with_recordNoteComments
                          (recordNoteComments (db w1)
                           ++ update_comments id userId (up_comments data))%list
                          (db w1)) w1).
    set (w3 := with_tx None w2).
    assert (Hstored : find (fun r => r_id r =? id) (records (db w3)) = Some updated).
    { cbn [w3 w2 w1 w0 db with_tx with_db records with_records
           with_recordNoteComments].
      rewrite Hid. rewrite find_map_update by reflexivity.
      rewrite Hrecord. reflexivity. }
    assert (Hnotes : recordNoteComments (db w3)
                     = (recordNoteComments (db w)
                        ++ update_comments id userId (up_comments data))%list).
    { reflexivity. }
    assert (Hfind0 : Record_findByPk id w0 = (Ok (Some record), w0)).
    { unfold Record_findByPk, gets. cbn [w0 db with_tx]. rewrite Hrecord.
      reflexivity. }
    assert (Hupdate :
      Record_update record
        (fun r =>
           let r' := apply_patch (Some (up_fields data)) r in
           mkRecord (r_id r') (r_title r') (r_description r') (r_cabinetId r')
             (r_creatorId r') (r_status r') (r_customFields r') (r_tags r')
             (r_version r') (r_file r') (r_isTemplate r') (r_isActive r') userId) w0
      = (Ok updated, w1)).
    { reflexivity. }
    assert (Hcomments :
      (match up_comments data with
       | Some content =>
           if negb (content =? "")
           then modify_db (fun d =>
                  with_recordNoteComments
                    (recordNoteComments d
                     ++ [mkNote id content "comment" None userId])%list d)
           else ret tt
       | None => ret tt
       end) w1 = (Ok tt, w2)).
    { unfold w2. generalize w1. intros w'. destruct w' as [d t u c dk a n].
      destruct d. unfold update_comments.
      destruct (up_comments data) as [content|]; [destruct (content =? "")|];
        simpl; rewrite ?app_nil_r; reflexivity. }
    assert (Hcommit : transaction_commit w2 = (Ok tt, w3)) by reflexivity.
    assert (Htail :
      forall w4, db w4 = db w3 -> tx w4 = None ->
        exists outcome,
          try_catch
            (bind (Record_findByPk id)
               (fun updatedRecord =>
                  match updatedRecord with
                  | None => throw (AppError 404 "Updated record not found")
                  | Some updatedRecord =>
                      bind (normalize_customFields (r_customFields updatedRecord))
                        (fun customFields =>
                           ret (set_customFields customFields updatedRecord))
                  end))
            (fun error =>
               bind (try_catch transaction_rollback (fun _ => ret tt))
                    (fun _ => throw error)) w4 = (outcome, w4)
          /\ (forall answer, outcome = Ok answer ->
                answer = normalized_record updated)
          /\ (first_unreadable (for_in_order (r_customFields updated)) = None ->
              outcome = Ok (normalized_record updated))).
    { intros w4 Hdb Htx.
      unfold try_catch, bind at 1, Record_findByPk, gets.
      rewrite Hdb, Hstored. unfold bind at 1, normalize_customFields.
      destruct (first_unreadable _) as [e|].
      - unfold throw at 1. rewrite rethrow_after_commit by assumption.
        eexists. split; [reflexivity|]. split; discriminate.
      - unfold ret. eexists. split; [reflexivity|]. split.
        + intros answer H. inversion H. reflexivity.
        + reflexivity. }
    unfold updateRecord.
    unfold bind at 1. unfold transaction_begin, modify. fold w0.
    rewrite (try_catch_bind_ok _ _ _ _ _ _ Hfind0). cbv beta iota.
    rewrite (try_catch_bind_ok _ _ _ _ _ _ Hupdate).
    rewrite (try_catch_bind_ok _ _ _ _ _ _ Hcomments).
    rewrite (try_catch_bind_ok _ _ _ _ _ _ Hcommit).
    destruct (logActivity_run host
                (mkActivity userId UPDATE RECORD id (r_title updated)
                   (string_or (up_note data) "Record updated")) w3)
      as [[e [Hfail Hlog]]|[w4 [Hfail [Hlog [Hdb4 Htx4]]]]].
    { rewrite (try_catch_bind_throw _ _ _ _ _ _ Hlog).
      rewrite rethrow_after_commit by reflexivity.
      exists (Throw e), w3. split; [reflexivity|]. split; [reflexivity|].
      split; [exact Hstored|]. split; [exact Hnotes|]. split; [discriminate|].
      intros H. fold updated in H. congruence. }
    rewrite (try_catch_bind_ok _ _ _ _ _ _ Hlog).
    assert (Hcabinet :
      Cabinet_findByPk (r_cabinetId updated) w4
      = (Ok (find (fun c => cab_id c =? r_cabinetId updated) (cabinets (db w4))),
         w4)) by reflexivity.
    rewrite (try_catch_bind_ok _ _ _ _ _ _ Hcabinet).
    assert (Hsent :
      forall send : M unit,
        (send w4 = (Ok tt, w4)
         \/ (exists call, send = notify host call)) ->
        exists outcome w',
          try_catch
            (bind send
               (fun _ =>
                  bind (Record_findByPk id)
                    (fun updatedRecord =>
                       match updatedRecord with
                       | None => throw (AppError 404 "Updated record not found")
                       | Some updatedRecord =>
                           bind (normalize_customFields
                                   (r_customFields updatedRecord))
                             (fun customFields =>
                                ret (set_customFields customFields updatedRecord))
                       end)))
            (fun error =>
               bind (try_catch transaction_rollback (fun _ => ret tt))
                    (fun _ => throw error)) w4 = (outcome, w')
          /\ tx w' = None
          /\ db w' = db w3
          /\ (forall answer, outcome = Ok answer ->
                answer = normalized_record updated)
          /\ ((forall call, notification_failure host call = None) ->
              first_unreadable (for_in_order (r_customFields updated)) = None ->
              outcome = Ok (normalized_record updated))).
    { intros send [Hskip|[call ->]].
      - rewrite (try_catch_bind_ok _ _ _ _ _ _ Hskip).
        destruct (Htail w4 Hdb4 Htx4) as [outcome [Hrun [Hanswer Hok]]].
        exists outcome, w4. rewrite Hrun. split; [reflexivity|].
        split; [exact Htx4|]. split; [exact Hdb4|]. split; [exact Hanswer|].
        intros _. exact Hok.
      - destruct (notify_run host call w4)
          as [[e [Hfail' Hnotify]]|[w5 [Hfail' [Hnotify [Hdb5 Htx5]]]]].
        + rewrite (try_catch_bind_throw _ _ _ _ _ _ Hnotify).
          rewrite rethrow_after_commit by exact Htx4.
          exists (Throw e), w4. split; [reflexivity|]. split; [exact Htx4|].
          split; [exact Hdb4|]. split; [discriminate|].
          intros Hall. rewrite Hall in Hfail'. discriminate.
        + rewrite (try_catch_bind_ok _ _ _ _ _ _ Hnotify).
          destruct (Htail w5) as [outcome [Hrun [Hanswer Hok]]];
            [rewrite Hdb5; exact Hdb4|rewrite Htx5; exact Htx4|].
          exists outcome, w5. rewrite Hrun. split; [reflexivity|].
          split; [rewrite Htx5; exact Htx4|].
          split; [rewrite Hdb5; exact Hdb4|]. split; [exact Hanswer|].
          intros _. exact Hok. }
    cbv beta.
    match goal with
    | |- context [try_catch (bind ?send _) _ w4] =>
        destruct (Hsent send) as [outcome [w' [Hrun [Htx' [Hdb' [Hanswer Hok]]]]]]
    end.
    { destruct (find _ (cabinets (db w4))) as [cabinet|].
      - right. eexists. reflexivity.
      - left. reflexivity. }
    exists outcome, w'. split; [exact Hrun|]. split; [exact Htx'|].
    rewrite Hdb'. split; [exact Hstored|]. split; [exact Hnotes|].
    split; [exact Hanswer|]. intros _ Hall Hreadable. exact (Hok Hall Hreadable).
Qed.

Lemma updateRecord_outcome_witness :
  exists w',
    updateRecord failing_pdf_host "rec-1" retitle "outsider-1" office
    = (Ok (normalized_record (updated_record retitle "outsider-1" approved_record)),
       w')
    /\ r_title (updated_record retitle "outsider-1" approved_record)
       = "April invoice"
    /\ recordNoteComments (db w')
       = [mkNote "rec-1" "typo" "comment" None "outsider-1"].
Proof.
  destruct (proj2 (updateRecord_outcome failing_pdf_host "rec-1" "outsider-1"
                     retitle office) approved_record eq_refl)
    as [outcome [w' [Hrun [_ [_ [Hnotes [_ Hok]]]]]]].
  rewrite (Hok eq_refl (fun _ => eq_refl) eq_refl) in Hrun.
  exists w'. split; [exact Hrun|]. split; [reflexivity|exact Hnotes].
Defined.

(** ** Listing the versions and the snapshots of a record *)

Lemma insert_ordered_Permutation {A : Type} (precedes : A -> A -> bool) (x : A)
    (l : list A) :
  Permutation (insert_ordered precedes x l) (x :: l).
Proof.
  induction l as [|y l IH]; simpl; [apply Permutation_refl|].
  destruct (precedes x y); [apply Permutation_refl|].
  apply perm_trans with (y :: x :: l); [apply perm_skip; exact IH|apply perm_swap].
Qed.

Lemma order_by_Permutation {A : Type} (precedes : A -> A -> bool) (rows : list A) :
  Permutation (order_by precedes rows) rows.
Proof.
  induction rows as [|x rows IH]; simpl; [apply perm_nil|].
  apply perm_trans with (x :: order_by precedes rows);
    [apply insert_ordered_Permutation|apply perm_skip; exact IH].
Qed.

Section Ordering.

Context {A : Type}.
Variable precedes : A -> A -> bool.
Hypothesis precedes_total : forall x y, precedes x y = false -> precedes y x = true.
Hypothesis precedes_trans :
  forall x y z, precedes x y = true -> precedes y z = true -> precedes x z = true.

Lemma insert_ordered_sorted (x : A) (l : list A) :
  StronglySorted (fun a b => precedes a b = true) l ->
  StronglySorted (fun a b => precedes a b = true) (insert_ordered precedes x l).
Proof.
  induction l as [|y l IH]; intros Hsorted; simpl.
  - constructor; [constructor|constructor].
  - inversion Hsorted as [|? ? Hl Hy]; subst.
    destruct (precedes x y) eqn:Hxy.
    + constructor; [assumption|]. constructor; [assumption|].
      rewrite Forall_forall in *. intros z Hz.
      apply (precedes_trans x y z Hxy). apply Hy. assumption.
    + constructor; [apply IH; assumption|].
      rewrite Forall_forall in *. intros z Hz.
      apply (Permutation_in _ (insert_ordered_Permutation precedes x l)) in Hz.
      destruct Hz as [<-|Hz]; [apply precedes_total; assumption|].
      apply Hy. assumption.
Qed.

Lemma order_by_sorted (rows : list A) :
  StronglySorted (fun a b => precedes a b = true) (order_by precedes rows).
Proof.
  induction rows as [|x rows IH]; simpl; [constructor|].
  apply insert_ordered_sorted. exact IH.
Qed.

End Ordering.

Lemma order_by_version_DESC {A : Type} (version : A -> Z) (rows : list A) :
  StronglySorted (fun a b => (version b <= version a)%Z)
                 (order_by (version_DESC version) rows).
Proof.
  assert (H : StronglySorted (fun a b => version_DESC version a b = true)
                (order_by (version_DESC version) rows)).
  { apply order_by_sorted; unfold version_DESC; intros; lia. }
  revert H. generalize (order_by (version_DESC version) rows). intros l H.
  induction H as [|a l Hl IH Ha]; constructor; [assumption|].
  rewrite Forall_forall in *. intros b Hb. specialize (Ha b Hb).
  unfold version_DESC in Ha. lia.
Qed.

Lemma order_by_version_ASC {A : Type} (version : A -> Z) (rows : list A) :
  StronglySorted (fun a b => (version a <= version b)%Z)
                 (order_by (version_ASC version) rows).
Proof.
  assert (H : StronglySorted (fun a b => version_ASC version a b = true)
                (order_by (version_ASC version) rows)).
  { apply order_by_sorted; unfold version_ASC; intros; lia. }
  revert H. generalize (order_by (version_ASC version) rows). intros l H.
  induction H as [|a l Hl IH Ha]; constructor; [assumption|].
  rewrite Forall_forall in *. intros b Hb. specialize (Ha b Hb).
  unfold version_ASC in Ha. lia.
Qed.

(** A row above all the others, added last, is listed first in descending
    order. *)
Lemma order_by_DESC_app_above {A : Type} (version : A -> Z) (rows : list A) (v : A) :
  (forall r, In r rows -> (version r < version v)%Z) ->
  order_by (version_DESC version) (rows ++ [v])%list
  = v :: order_by (version_DESC version) rows.
Proof.
  induction rows as [|x rows IH]; intros Habove; simpl; [reflexivity|].
  rewrite IH by (intros r Hr; apply Habove; right; assumption). simpl.
  unfold version_DESC at 1.
  specialize (Habove x (or_introl eq_refl)).
  destruct (version v <=? version x)%Z eqn:E; [lia|reflexivity].
Qed.

Lemma insert_ordered_app_last {A : Type} (precedes : A -> A -> bool) (x v : A)
    (l : list A) :
  precedes x v = true ->
  insert_ordered precedes x (l ++ [v])%list
  = (insert_ordered precedes x l ++ [v])%list.
Proof.
  intros Hxv. induction l as [|y l IH]; simpl.
  - rewrite Hxv. reflexivity.
  - destruct (precedes x y); [reflexivity|]. rewrite IH. reflexivity.
Qed.

(** A row above all the others, added last, is listed last in ascending
    order. *)
Lemma order_by_ASC_app_above {A : Type} (version : A -> Z) (rows : list A) (v : A) :
  (forall r, In r rows -> (version r < version v)%Z) ->
  order_by (version_ASC version) (rows ++ [v])%list
  = (order_by (version_ASC version) rows ++ [v])%list.
Proof.
  induction rows as [|x rows IH]; intros Habove; simpl; [reflexivity|].
  rewrite IH by (intros r Hr; apply Habove; right; assumption).
  apply insert_ordered_app_last. unfold version_ASC.
  specialize (Habove x (or_introl eq_refl)). lia.
Qed.

(** X17.  [getRecordVersions] only reads.  For a missing record it throws 404.
    For a stored record it answers the versions of the record, all of them
    and no other row, from the greatest version number to the least; a
    record without versions gets the empty list, not an error. *)
Theorem getRecordVersions_listing (recordId : Id) (w : World) :
  (find (fun r => r_id r =? recordId) (records (db w)) = None ->
   getRecordVersions recordId w = (Throw (AppError 404 "Record not found"), w))
  /\ (forall record,
        find (fun r => r_id r =? recordId) (records (db w)) = Some record ->
        exists versions,
          getRecordVersions recordId w = (Ok versions, w)
          /\ Permutation versions (versions_of recordId (db w))
          /\ StronglySorted (fun a b => (rv_version b <= rv_version a)%Z) versions
          /\ (versions_of recordId (db w) = [] -> versions = [])).
Proof.
  unfold getRecordVersions, bind, Record_findByPk, gets. split.
  - intros Hmissing. rewrite Hmissing. reflexivity.
  - intros record Hrecord. rewrite Hrecord.
    exists (order_by (version_DESC rv_version) (versions_of recordId (db w))).
    split; [reflexivity|]. split; [apply order_by_Permutation|].
    split; [apply order_by_version_DESC|].
    intros Hnone. rewrite Hnone. reflexivity.
Qed.

Lemma getRecordVersions_listing_witness :
  exists versions,
    getRecordVersions "rec-1" office_with_two_versions = (Ok versions, office_with_two_versions)
    /\ map rv_version versions = [2%Z; 1%Z].
Proof.
  destruct (proj2 (getRecordVersions_listing "rec-1" office_with_two_versions)
                  (set_active_file descriptor_b 2 "owner-1" approved_record)
                  eq_refl) as [versions [Hrun _]].
  exists versions. split; [exact Hrun|].
  assert (H : getRecordVersions "rec-1" office_with_two_versions
              = (Ok [mkRecordVersion "uuid-1" "rec-1" 2 descriptor_b "owner-1"
                       (Some "rescanned");
                     mkRecordVersion "uuid-0" "rec-1" 1 descriptor_a "creator-1"
                       None], office_with_two_versions)) by reflexivity.
  rewrite H in Hrun. inversion Hrun. reflexivity.
Defined.

(** X18.  The version returned by [createNewVersion] is the first that
    [getRecordVersions] lists afterwards, before the versions listed until
    then. *)
Theorem createNewVersion_then_getRecordVersions (recordId : Id)
    (versionData : VersionData) (w : World) (record : RecordRow) :
  find (fun r => r_id r =? recordId) (records (db w)) = Some record ->
  exists version w' before,
    createNewVersion recordId versionData w = (Ok version, w')
    /\ getRecordVersions recordId w = (Ok before, w)
    /\ getRecordVersions recordId w' = (Ok (version :: before), w').
Proof.
  intros Hrecord.
  destruct (createNewVersion_run recordId versionData w record Hrecord)
    as [version [w' [Hrun [Hid [Hnumber [_ [Hrows Hrecord']]]]]]].
  exists version, w', (order_by (version_DESC rv_version)
                         (versions_of recordId (db w))).
  split; [exact Hrun|].
  unfold getRecordVersions, bind, Record_findByPk, gets.
  rewrite Hrecord, Hrecord'. split; [reflexivity|].
  rewrite (versions_of_app recordId (db w) (db w') version Hrows Hid).
  rewrite order_by_DESC_app_above; [reflexivity|].
  intros r Hr. rewrite Hnumber.
  apply (proj1 (proj2 (next_version_spec recordId (db w)))). assumption.
Qed.

Lemma createNewVersion_then_getRecordVersions_witness :
  exists version w' before,
    createNewVersion "rec-1" upload_b office_with_one_version = (Ok version, w')
    /\ getRecordVersions "rec-1" office_with_one_version
       = (Ok before, office_with_one_version)
    /\ getRecordVersions "rec-1" w' = (Ok (version :: before), w').
Proof.
  exact (createNewVersion_then_getRecordVersions "rec-1" upload_b
           office_with_one_version
           (set_active_file descriptor_a 1 "creator-1" approved_record) eq_refl).
Defined.

Lemma normalize_snapshots_readable (versions : list RecordOtherVersion) (w : World) :
  (forall v, In v versions -> readable_snapshot v) ->
  normalize_snapshots versions w = (Ok (map normalized_snapshot versions), w).
Proof.
  induction versions as [|v versions IH]; intros Hreadable; simpl; [reflexivity|].
  unfold bind at 1, normalize_customFields.
  rewrite (Hreadable v (or_introl eq_refl)). unfold ret at 1.
  unfold bind at 1. rewrite IH by (intros x Hx; apply Hreadable; right; assumption).
  reflexivity.
Qed.

Lemma getOtherRecordsByOriginalId_run (originalRecordId : Id) (w : World) :
  snapshots_of originalRecordId (db w) <> [] ->
  (forall v, In v (snapshots_of originalRecordId (db w)) -> readable_snapshot v) ->
  getOtherRecordsByOriginalId originalRecordId w
  = (Ok (map normalized_snapshot
           (order_by (version_ASC ov_version)
                     (snapshots_of originalRecordId (db w)))), w).
Proof.
  intros Hsome Hreadable.
  pose proof (order_by_Permutation (version_ASC ov_version)
                (snapshots_of originalRecordId (db w))) as Hperm.
  unfold getOtherRecordsByOriginalId. unfold bind at 1, gets.
  unfold bind, throw_if.
  assert (Hlen : (List.length (order_by (version_ASC ov_version)
                                 (snapshots_of originalRecordId (db w))) =? 0)%nat
                 = false).
  { apply Nat.eqb_neq. intros Hlen. apply length_zero_iff_nil in Hlen.
    apply Hsome. apply Permutation_nil. rewrite <- Hlen. exact Hperm. }
  rewrite Hlen. unfold ret at 1.
  apply normalize_snapshots_readable. intros x Hx. apply Hreadable.
  apply (Permutation_in _ Hperm). exact Hx.
Qed.

(** X19.  [getOtherRecordsByOriginalId] only reads.  When the record has no
    snapshot it throws 404, whether the record exists or not.  Otherwise,
    when no custom field of a snapshot is null or undefined, it answers
    the snapshots of the record, all of them and no other row, from the
    least version number to the greatest, with their Attachment entries
    rebuilt. *)
Theorem getOtherRecordsByOriginalId_listing (originalRecordId : Id) (w : World) :
  (snapshots_of originalRecordId (db w) = [] ->
   getOtherRecordsByOriginalId originalRecordId w
   = (Throw (AppError 404 "No versions found for this record"), w))
  /\ (snapshots_of originalRecordId (db w) <> [] ->
      (forall v, In v (snapshots_of originalRecordId (db w)) -> readable_snapshot v) ->
      exists versions,
        getOtherRecordsByOriginalId originalRecordId w
        = (Ok (map normalized_snapshot versions), w)
        /\ Permutation versions (snapshots_of originalRecordId (db w))
        /\ StronglySorted (fun a b => (ov_version a <= ov_version b)%Z) versions).
Proof.
  split.
  - intros Hnone. unfold getOtherRecordsByOriginalId. unfold bind at 1, gets.
    rewrite Hnone. reflexivity.
  - intros Hsome Hreadable.
    exists (order_by (version_ASC ov_version) (snapshots_of originalRecordId (db w))).
    split; [apply getOtherRecordsByOriginalId_run; assumption|].
    split; [apply order_by_Permutation|apply order_by_version_ASC].
Qed.

Lemma getOtherRecordsByOriginalId_listing_witness :
  getOtherRecordsByOriginalId "rec-1" office
  = (Throw (AppError 404 "No versions found for this record"), office)
  /\ exists versions,
       getOtherRecordsByOriginalId "rec-1" office_with_snapshot
       = (Ok (map normalized_snapshot versions), office_with_snapshot)
       /\ Permutation versions (snapshots_of "rec-1" (db office_with_snapshot))
       /\ StronglySorted (fun a b => (ov_version a <= ov_version b)%Z) versions.
Proof.
  split.
  - exact (proj1 (getOtherRecordsByOriginalId_listing "rec-1" office) eq_refl).
  - apply (proj2 (getOtherRecordsByOriginalId_listing "rec-1" office_with_snapshot)).
    + intros H. vm_compute in H. discriminate.
    + intros v Hv. vm_compute in Hv. destruct Hv as [<-|[]]. reflexivity.
Defined.

(** X20.  After a modification on accepted inputs, [getOtherRecordsByOriginalId]
    answers the snapshots it answered before, if there were any, followed
    by the new snapshot, whose custom fields are the validated ones with
    their Attachment entries rebuilt. *)
Theorem modifyRecord_then_getOtherRecordsByOriginalId (rt : Runtime) (host : Host)
    (data : ModifyRecordData) (w : World) (original : RecordRow) (cabinet : Cabinet)
    (creator : User) (validated : JsObject) :
  find (fun r => r_id r =? m_recordId data) (records (db w)) = Some original ->
  find (fun c => cab_id c =? m_cabinetId data) (cabinets (db w)) = Some cabinet ->
  find (fun u => u_id u =? m_creatorId data) (users (db w)) = Some creator ->
  validateCustomFields rt (m_customFields data) (cab_customFields cabinet) w
  = (Ok validated, w) ->
  (forall v, In v (snapshots_of (m_recordId data) (db w)) -> readable_snapshot v) ->
  exists snapshot outcome w' before,
    modifyRecord rt host data w = (outcome, w')
    /\ ov_customFields snapshot = validated
    /\ ((snapshots_of (m_recordId data) (db w) = [] /\ before = [])
        \/ getOtherRecordsByOriginalId (m_recordId data) w = (Ok before, w))
    /\ getOtherRecordsByOriginalId (m_recordId data) w'
       = (Ok (before ++ [normalized_snapshot snapshot])%list, w').
Proof.
  intros Hrecord Hcabinet Hcreator Hvalid Hreadable.
  destruct (modifyRecord_run rt host data w original cabinet creator validated
              Hrecord Hcabinet Hcreator Hvalid)
    as [snapshot [outcome [w' [Hrun [Hdb [Hid [Hnumber [_ [Hfields _]]]]]]]]].
  assert (Hrows' : snapshots_of (m_recordId data) (db w')
                    = (snapshots_of (m_recordId data) (db w) ++ [snapshot])%list).
  { unfold snapshots_of. rewrite Hdb. cbn [recordOtherVersions
      with_recordOtherVersions]. rewrite filter_app. simpl.
    rewrite Hid, String.eqb_refl. reflexivity. }
  assert (Hnew : readable_snapshot snapshot).
  { unfold readable_snapshot. rewrite Hfields.
    destruct (normalize_validated rt _ _ validated w w Hvalid w) as [Hnorm _].
    unfold normalize_customFields in Hnorm.
    destruct (first_unreadable (for_in_order validated)); [discriminate|reflexivity]. }
  exists snapshot, outcome, w',
    (map normalized_snapshot
       (order_by (version_ASC ov_version) (snapshots_of (m_recordId data) (db w)))).
  split; [exact Hrun|]. split; [exact Hfields|]. split.
  - destruct (snapshots_of (m_recordId data) (db w)) as [|v rows] eqn:Hrows;
      [left; split; reflexivity|right].
    rewrite <- Hrows. apply getOtherRecordsByOriginalId_run.
    + rewrite Hrows. discriminate.
    + rewrite Hrows. exact Hreadable.
  - rewrite getOtherRecordsByOriginalId_run.
    + rewrite Hrows'. rewrite order_by_ASC_app_above.
      * rewrite map_app. reflexivity.
      * intros r Hr. rewrite Hnumber.
        apply (proj1 (proj2 (next_snapshot_version_spec (m_recordId data) (db w)))).
        assumption.
    + rewrite Hrows'. intros H. apply app_eq_nil in H as [_ H]. discriminate.
    + rewrite Hrows'. intros v Hv. apply in_app_or in Hv as [Hv|[<-|[]]];
        [apply Hreadable; assumption|exact Hnew].
Qed.

Lemma modifyRecord_then_getOtherRecordsByOriginalId_witness :
  exists snapshot outcome w' before,
    modifyRecord integer_runtime failing_pdf_host modify_data office_with_snapshot
    = (outcome, w')
    /\ ov_customFields snapshot = [("1", field_entry subject_field (JStr "Hello"))]
    /\ ((snapshots_of "rec-1" (db office_with_snapshot) = [] /\ before = [])
        \/ getOtherRecordsByOriginalId "rec-1" office_with_snapshot
           = (Ok before, office_with_snapshot))
    /\ getOtherRecordsByOriginalId "rec-1" w'
       = (Ok (before ++ [normalized_snapshot snapshot])%list, w').
Proof.
  apply (modifyRecord_then_getOtherRecordsByOriginalId integer_runtime
           failing_pdf_host modify_data office_with_snapshot approved_record
           invoices (mkUser "creator-1")
           [("1", field_entry subject_field (JStr "Hello"))]
           eq_refl eq_refl eq_refl eq_refl).
  intros v Hv. vm_compute in Hv. destruct Hv as [<-|[]]. reflexivity.
Defined.

(** ** Creating a record with uploaded files *)

Lemma bind_ext {A B : Type} (m : M A) (k k' : A -> M B) (w : World) :
  (forall a w', k a w' = k' a w') -> bind m k w = bind m k' w.
Proof.
  intros H. unfold bind. destruct (m w) as [[a|e] w']; [apply H|reflexivity].
Qed.

(** X21.  Without file ids, or with an empty list of them, [createRecordWithFiles]
    is [createRecord] without a PDF: the same answer and the same world. *)
Theorem createRecordWithFiles_without_files (rt : Runtime) (host : Host)
    (desk : Desk) (data : CreateRecordData) (fileIds : option (list Id))
    (w : World) :
  c_pdfFile data = None ->
  fileIds = None \/ fileIds = Some [] ->
  createRecordWithFiles rt desk (with_fileIds data fileIds) w
  = createRecord rt host data w.
Proof.
  intros Hpdf Hfiles.
  unfold createRecordWithFiles, createRecord.
  cbn [with_fileIds cf_title cf_cabinetId cf_creatorId cf_customFields cf_status
       cf_isTemplate cf_isActive cf_tags cf_fileIds].
  rewrite Hpdf.
  apply bind_ext. intros _ w1.
  apply bind_ext. intros [cabinet|] w2; [|reflexivity].
  apply bind_ext. intros [creator|] w3; [|reflexivity].
  apply bind_ext. intros validated w4.
  apply bind_ext. intros _ w5.
  destruct Hfiles as [->| ->]; reflexivity.
Qed.

Lemma createRecordWithFiles_without_files_witness :
  createRecordWithFiles integer_runtime quiet_desk (with_fileIds foo_data (Some []))
                        office
  = createRecord integer_runtime failing_pdf_host foo_data office.
Proof.
  exact (createRecordWithFiles_without_files integer_runtime failing_pdf_host
           quiet_desk foo_data (Some []) office eq_refl (or_intror eq_refl)).
Defined.

(** X22.  [createRecordWithFiles] with file ids is all or nothing.  On accepted
    inputs, when the files cannot be associated with the new record the
    error is rethrown and the database is as before the call, without the
    record; when they can, the record is stored and the transaction
    committed. *)
Theorem createRecordWithFiles_all_or_nothing (rt : Runtime) (desk : Desk)
    (data : CreateRecordData) (fileIds : list Id) (w : World) (cabinet : Cabinet)
    (creator : User) (validated : JsObject) :
  all_whitespace (c_title data) = false ->
  find (fun c => cab_id c =? c_cabinetId data) (cabinets (db w)) = Some cabinet ->
  find (fun u => u_id u =? c_creatorId data) (users (db w)) = Some creator ->
  validateCustomFields rt (c_customFields data) (cab_customFields cabinet) w
  = (Ok validated, w) ->
  fileIds <> [] ->
  exists w',
    createRecordWithFiles rt desk (with_fileIds data (Some fileIds)) w
    = (match allocate_files_failure desk (next_uuid w) fileIds with
       | Some e => Throw e
       | None => Ok (created_record data validated (next_uuid w))
       end, w')
    /\ tx w' = None
    /\ db w'
       = match allocate_files_failure desk (next_uuid w) fileIds with
         | Some _ => db w
         | None =>
             with_records
               (records (db w) ++ [created_record data validated (next_uuid w)])%list
               (db w)
         end.
Proof.
  intros Htitle Hcabinet Hcreator Hvalid Hfiles.
  assert (Hlen : (0 <? List.length fileIds)%nat = true).
  { destruct fileIds; [contradiction|reflexivity]. }
  unfold createRecordWithFiles.
  cbn [with_fileIds cf_title cf_cabinetId cf_creatorId cf_customFields cf_status
       cf_isTemplate cf_isActive cf_tags cf_fileIds].
  unfold bind at 1. unfold throw_if. rewrite title_check, Htitle. unfold ret at 1.
  unfold bind at 1, Cabinet_findByPk, gets. rewrite Hcabinet.
  unfold bind at 1, User_findByPk, gets. rewrite Hcreator.
  unfold bind at 1. rewrite Hvalid.
  unfold bind at 1, transaction_begin, modify. unfold try_catch.
  unfold bind at 1, fresh_id. unfold bind at 1, modify_db, modify.
  unfold bind at 1. rewrite Hlen. cbn [uuids with_tx db].
  fold (next_uuid w). fold (created_record data validated (next_uuid w)).
  cbn [r_id created_record].
  destruct (allocate_files_failure desk (next_uuid w) fileIds) as [e|].
  - unfold throw at 1. unfold bind, transaction_rollback, throw.
    cbn [tx with_tx with_db db].
    eexists. split; [reflexivity|]. split; reflexivity.
  - unfold ret at 1. unfold bind, transaction_commit, modify, ret.
    eexists. split; [reflexivity|]. split; reflexivity.
Qed.

Lemma createRecordWithFiles_all_or_nothing_witness :
  exists w',
    createRecordWithFiles integer_runtime orphan_desk
                          (with_fileIds foo_data (Some ["file-9"])) office
    = (Throw (Error "Unknown file id"), w')
    /\ tx w' = None
    /\ db w' = db office.
Proof.
  exact (createRecordWithFiles_all_or_nothing integer_runtime orphan_desk foo_data
           ["file-9"] office invoices (mkUser "creator-1")
           [("1", field_entry subject_field (JStr "Hello"))]
           eq_refl eq_refl eq_refl eq_refl ltac:(discriminate)).
Defined.

(** ** Names of stored uploads *)

Lemma replace_whitespace_from_clean (in_run : bool) (s : string) :
  Forall (fun c => is_whitespace c = false)
         (list_ascii_of_string (replace_whitespace_from in_run s)).
Proof.
  revert in_run. induction s as [|c s IH]; intros in_run; simpl; [constructor|].
  destruct (is_whitespace c) eqn:Hc.
  - destruct in_run; [apply IH|]. simpl. constructor; [reflexivity|apply IH].
  - simpl. constructor; [assumption|apply IH].
Qed.

Lemma replace_whitespace_from_length (in_run : bool) (s : string) :
  (String.length (replace_whitespace_from in_run s) <= String.length s)%nat.
Proof.
  revert in_run. induction s as [|c s IH]; intros in_run; simpl; [lia|].
  destruct (is_whitespace c).
  - destruct in_run; simpl.
    + specialize (IH true). lia.
    + specialize (IH true). lia.
  - simpl. specialize (IH false). lia.
Qed.

Lemma replace_whitespace_from_fixed (in_run : bool) (s : string) :
  Forall (fun c => is_whitespace c = false) (list_ascii_of_string s) ->
  replace_whitespace_from in_run s = s.
Proof.
  revert in_run. induction s as [|c s IH]; intros in_run Hclean; simpl;
    [reflexivity|].
  simpl in Hclean. inversion Hclean as [|? ? Hc Hs]; subst.
  rewrite Hc. rewrite IH by assumption. reflexivity.
Qed.

(** X23.  The name under which an upload is stored, [originalname.replace(/\s+/g,
    '_')], holds no whitespace and is no longer than the original name; a
    name without whitespace is kept as it is, so replacing twice changes
    nothing more. *)
Theorem replace_whitespace_runs_clean (s : string) :
  Forall (fun c => is_whitespace c = false)
         (list_ascii_of_string (replace_whitespace_runs s))
  /\ (String.length (replace_whitespace_runs s) <= String.length s)%nat
  /\ (Forall (fun c => is_whitespace c = false) (list_ascii_of_string s) ->
      replace_whitespace_runs s = s)
  /\ replace_whitespace_runs (replace_whitespace_runs s) = replace_whitespace_runs s.
Proof.
  unfold replace_whitespace_runs. split; [apply replace_whitespace_from_clean|].
  split; [apply replace_whitespace_from_length|].
  split; [apply replace_whitespace_from_fixed|].
  apply replace_whitespace_from_fixed. apply replace_whitespace_from_clean.
Qed.

Lemma replace_whitespace_runs_clean_witness :
  replace_whitespace_runs "scan_01.pdf" = "scan_01.pdf".
Proof.
  apply (proj1 (proj2 (proj2 (replace_whitespace_runs_clean "scan_01.pdf")))).
  repeat constructor.
Defined.

(** ** The attachment mirrored on a new record *)

Lemma insert_index_sorted (kv : Z * (string * JsValue))
    (l : list (Z * (string * JsValue))) :
  StronglySorted (fun a b => (fst a <= fst b)%Z) l ->
  StronglySorted (fun a b => (fst a <= fst b)%Z) (insert_index kv l).
Proof.
  induction l as [|y l IH]; intros Hsorted; simpl.
  - constructor; [constructor|constructor].
  - inversion Hsorted as [|? ? Hl Hy]; subst.
    destruct (fst kv <? fst y)%Z eqn:Hlt.
    + apply Z.ltb_lt in Hlt. constructor; [assumption|].
      constructor; [lia|]. rewrite Forall_forall in *. intros z Hz.
      specialize (Hy z Hz). lia.
    + apply Z.ltb_ge in Hlt. constructor; [apply IH; assumption|].
      rewrite Forall_forall in *. intros z Hz.
      apply insert_index_In in Hz as [->|Hz]; [assumption|]. apply Hy. assumption.
Qed.

Lemma insert_index_In_intro (kv x : Z * (string * JsValue))
    (l : list (Z * (string * JsValue))) :
  x = kv \/ In x l -> In x (insert_index kv l).
Proof.
  induction l as [|y l IH]; simpl.
  - intros [->|[]]. left. reflexivity.
  - destruct (fst kv <? fst y)%Z; simpl.
    + intros [->|[->|H]]; auto.
    + intros [->|[->|H]]; auto.
Qed.

Lemma split_index_props_spec (o : JsObject) :
  StronglySorted (fun a b => (fst a <= fst b)%Z) (fst (split_index_props o))
  /\ (forall n k v, In (n, (k, v)) (fst (split_index_props o)) ->
        In (k, v) o /\ array_index k = Some n)
  /\ (forall n k v, In (k, v) o -> array_index k = Some n ->
        In (n, (k, v)) (fst (split_index_props o))).
Proof.
  induction o as [|[k v] o [IHsorted [IHin IHintro]]]; simpl.
  - split; [constructor|]. split; intros ? ? ? [].
  - destruct (split_index_props o) as [ix named]. simpl in *.
    destruct (array_index k) as [n|] eqn:Hk; simpl.
    + split; [apply insert_index_sorted; assumption|]. split.
      * intros n' k' v' H. apply insert_index_In in H as [H|H].
        -- inversion H; subst. split; [left; reflexivity|assumption].
        -- destruct (IHin n' k' v' H). split; [right; assumption|assumption].
      * intros n' k' v' [H|H] Hk'; apply insert_index_In_intro.
        -- inversion H; subst. left. congruence.
        -- right. apply IHintro; assumption.
    + split; [assumption|]. split.
      * intros n' k' v' H. destruct (IHin n' k' v' H).
        split; [right; assumption|assumption].
      * intros n' k' v' [H|H] Hk'.
        -- inversion H; subst. congruence.
        -- apply IHintro; assumption.
Qed.

Lemma first_attachment_sorted (ix : list (Z * (string * JsValue)))
    (x : Z * (string * JsValue)) (rest : JsObject) :
  StronglySorted (fun a b => (fst a <= fst b)%Z) ix ->
  In x ix ->
  attachment_entry (snd (snd x)) = true ->
  (forall y, In y ix -> attachment_entry (snd (snd y)) = true ->
             y = x \/ (fst x < fst y)%Z) ->
  first_attachment (map snd ix ++ rest)%list = js_get (snd (snd x)) "value".
Proof.
  intros Hsorted Hin Hx Hleast.
  induction ix as [|h t IH]; [destruct Hin|].
  inversion Hsorted as [|? ? Ht Hh]; subst.
  destruct h as [n [k field]]. simpl.
  fold (attachment_entry field).
  destruct (attachment_entry field) eqn:Hfield.
  - destruct (Hleast (n, (k, field)) (or_introl eq_refl) Hfield) as [Heq|Hlt].
    + subst x. reflexivity.
    + exfalso. destruct Hin as [Heq|Hin]; [subst x; simpl in Hlt; lia|].
      rewrite Forall_forall in Hh. specialize (Hh x Hin). simpl in *. lia.
  - destruct Hin as [Heq|Hin]; [subst x; simpl in Hx; congruence|].
    apply IH; [assumption|assumption|].
    intros y Hy. apply Hleast. right. assumption.
Qed.

(** X24.  The file mirrored on a new record is the attachment of least numeric
    key.  When the validated fields hold, under an integer key, an
    Attachment entry with a value, and every other such entry under an
    integer key has a greater key, the search loop of [createRecord] finds
    the value of that entry, wherever it stands among the fields, and the
    created row carries its file properties. *)
Theorem first_attachment_least_index (validated : JsObject) (k : string)
    (field : JsValue) (n : Z) :
  In (k, field) validated ->
  array_index k = Some n ->
  attachment_entry field = true ->
  (forall k' field' n',
     In (k', field') validated -> array_index k' = Some n' ->
     attachment_entry field' = true ->
     (k', field') = (k, field) \/ (n < n')%Z) ->
  first_attachment (for_in_order validated) = js_get field "value"
  /\ forall data id,
       r_file (created_record data validated id)
       = file_of_info (js_get field "value").
Proof.
  intros Hin Hk Hfield Hleast.
  assert (Hfirst : first_attachment (for_in_order validated) = js_get field "value").
  { unfold for_in_order.
    destruct (split_index_props_spec validated) as [Hsorted [Hfrom Hinto]].
    destruct (split_index_props validated) as [ix named]. simpl in *.
    apply (first_attachment_sorted ix (n, (k, field)) named Hsorted).
    - apply Hinto; assumption.
    - exact Hfield.
    - intros [n' [k' field']] Hy Hy'. simpl in Hy'.
      destruct (Hfrom n' k' field' Hy) as [Hin' Hk'].
      destruct (Hleast k' field' n' Hin' Hk' Hy') as [Heq|Hlt].
      + left. inversion Heq; subst. congruence.
      + right. exact Hlt. }
  split; [exact Hfirst|]. intros data id.
  cbn [r_file created_record]. rewrite Hfirst.
  unfold attachment_entry in Hfield. apply andb_true_iff in Hfield as [_ Hvalue].
  rewrite Hvalue. reflexivity.
Qed.

Lemma first_attachment_least_index_witness :
  first_attachment (for_in_order two_scans) = JObj [("fileName", JStr "a.pdf")].
Proof.
  apply (first_attachment_least_index two_scans "9"
           (JObj [("fieldId", JNum (number_of_Z 9)); ("type", JStr "Attachment");
                  ("value", JObj [("fileName", JStr "a.pdf")])]) 9).
  - right. left. reflexivity.
  - reflexivity.
  - reflexivity.
  - intros k' field' n' [H|[H|[]]] Hk' _; inversion H; subst.
    + right. vm_compute in Hk'. inversion Hk'. reflexivity.
    + left. reflexivity.
Defined.

(** ** Failures after the commit of a modification *)

(** X25.  When the activity log or the notification fails after [modifyRecord]
    has committed, the handler rolls back a finished transaction: the
    caller gets the error of the rollback instead of the failure that
    happened, and the snapshot stays stored. *)
Theorem modifyRecord_late_failure (rt : Runtime) (host : Host)
    (data : ModifyRecordData) (w : World) (original : RecordRow) (cabinet : Cabinet)
    (creator : User) (validated : JsObject) :
  find (fun r => r_id r =? m_recordId data) (records (db w)) = Some original ->
  find (fun c => cab_id c =? m_cabinetId data) (cabinets (db w)) = Some cabinet ->
  find (fun u => u_id u =? m_creatorId data) (users (db w)) = Some creator ->
  validateCustomFields rt (m_customFields data) (cab_customFields cabinet) w
  = (Ok validated, w) ->
  logActivity_failure host
    (mkActivity (m_creatorId data) UPDATE RECORD (m_recordId data) (m_title data)
                "Record modified") <> None
  \/ (forall call, notification_failure host call <> None) ->
  exists snapshot w',
    modifyRecord rt host data w = (Throw rollback_after_commit, w')
    /\ recordOtherVersions (db w')
       = (recordOtherVersions (db w) ++ [snapshot])%list
    /\ ov_originalRecordId snapshot = m_recordId data
    /\ ov_version snapshot = next_snapshot_version (m_recordId data) (db w)
    /\ ov_customFields snapshot = validated.
Proof.
  intros Hrecord Hcabinet Hcreator Hvalid Hlate.
  unfold modifyRecord.
  unfold bind at 1, Record_findByPk, gets. rewrite Hrecord.
  unfold bind at 1, Cabinet_findByPk, gets. rewrite Hcabinet.
  unfold bind at 1, User_findByPk, gets. rewrite Hcreator.
  unfold bind at 1. rewrite Hvalid.
  unfold bind at 1, RecordOtherVersion_findLatest, gets.
  fold (next_snapshot_version (m_recordId data) (db w)).
  unfold bind at 1.
  match goal with
  | |- context [let (o, w') := ?m w in _] =>
      assert (Hpdf : exists info w1, m w = (Ok info, w1) /\ db w1 = db w)
  end.
  { destruct (m_pdfFile data) as [pdf|]; [|exists None, w; split; reflexivity].
    unfold try_catch, bind.
    destruct (store_upload_db host pdf w) as [Hdb _].
    destruct (store_upload host pdf w) as [[stored|e] w1]; simpl in *;
      eexists; eexists; (split; [reflexivity|assumption]). }
  destruct Hpdf as [info [w1 [Hpdf Hdb]]]. rewrite Hpdf. clear Hpdf.
  cbv beta iota zeta delta [bind transaction_begin modify try_catch fresh_id modify_db
    transaction_commit logActivity notify ret throw transaction_rollback
    rollback_after_commit].
  cbn [db with_db with_tx tx uuids clock disk activities notifications].
  match goal with
  | |- context [logActivity_failure host ?a] =>
      destruct (logActivity_failure host a) as [e1|] eqn:Hlog
  end; cbv beta iota;
    cbn [db with_db with_tx tx uuids clock disk activities notifications].
  - eexists. eexists. split; [reflexivity|].
    cbn [db with_db with_tx tx recordOtherVersions with_recordOtherVersions].
    rewrite Hdb. repeat (split; [reflexivity|]). reflexivity.
  - match goal with
    | |- context [notification_failure host ?n] =>
        destruct (notification_failure host n) as [e2|] eqn:Hnot
    end; cbv beta iota;
      cbn [db with_db with_tx tx uuids clock disk activities notifications].
    + eexists. eexists. split; [reflexivity|].
      cbn [db with_db with_tx tx recordOtherVersions with_recordOtherVersions].
      rewrite Hdb. repeat (split; [reflexivity|]). reflexivity.
    + exfalso. destruct Hlate as [Hlate|Hlate]; [apply Hlate; reflexivity|].
      apply (Hlate _ Hnot).
Qed.

Lemma modifyRecord_late_failure_witness :
  exists snapshot w',
    modifyRecord integer_runtime offline_log_host modify_data office
    = (Throw rollback_after_commit, w')
    /\ recordOtherVersions (db w') = [snapshot]
    /\ ov_version snapshot = 2%Z.
Proof.
  assert (Hlog : logActivity_failure offline_log_host
                   (mkActivity (m_creatorId modify_data) UPDATE RECORD
                      (m_recordId modify_data) (m_title modify_data)
                      "Record modified") <> None).
  { simpl. discriminate. }
  destruct (modifyRecord_late_failure integer_runtime offline_log_host modify_data
              office approved_record invoices (mkUser "creator-1")
              [("1", field_entry subject_field (JStr "Hello"))]
              eq_refl eq_refl eq_refl eq_refl (or_introl Hlog))
    as [snapshot [w' [Hrun [Hrows [_ [Hversion _]]]]]].
  exists snapshot, w'. split; [exact Hrun|]. split; [exact Hrows|exact Hversion].
Defined.
